(** * Age / autism screening client: a shallow embedding

    The repository holds one helper module ([src/utils/api.js]) and two
    variants of the single screen of the application:

    - the Material-UI screen (first [App] of the concatenated source), which
      submits through [analyzeImage] of [utils/api.js] and keeps the parsed
      response in several state slots;
    - the plain screen (second [App]), which calls [fetch] itself and renders
      the response with [renderResults].

    Values that come back from [response.json()] are arbitrary JSON, so the
    handlers are embedded over a type of JavaScript values, with the
    exceptions the source can raise made explicit. *)

From Stdlib Require Import String Ascii List ZArith QArith Bool Lia DecimalString.
Import ListNotations.
Local Open Scope string_scope.

(** ** JavaScript values, errors and the few built-ins the source calls *)

Module Js.

(** What [JSON.parse] can produce, plus [undefined] (the result of reading
    a missing property).  Numbers are the finite doubles, embedded in the
    rationals: the source only compares them and tests them for zero, and
    both are exact on doubles.  An object is its list of own properties. *)
#[warnings="-register-all"]
Inductive value : Type :=
| Undefined
| Null
| Bool (b : bool)
| Num (q : Q)
| Str (s : string)
| Arr (items : list value)
| Obj (props : list (string * value)).

(** [ToBoolean]: what [if (v)], [!v], [v && w] and [v || w] test. *)
Definition truthy (v : value) : bool :=
  match v with
  | Undefined | Null => false
  | Bool b => b
  | Num q => negb (Qeq_bool q 0)
  | Str s => negb (s =? "")
  | Arr _ | Obj _ => true
  end.

(** [typeof v === 'object'] (true of [null] and of arrays as well). *)
Definition typeof_object (v : value) : bool :=
  match v with
  | Null | Arr _ | Obj _ => true
  | _ => false
  end.

(** [v === 'literal']. *)
Definition is_string (v : value) (lit : string) : bool :=
  match v with
  | Str s => s =? lit
  | _ => false
  end.

(** [a || b] and [a ?? b] on values. *)
Definition or_else (a b : value) : value := if truthy a then a else b.

Definition nullish (v : value) : bool :=
  match v with Undefined | Null => true | _ => false end.

(** An exception object: [error.name] and [error.message]. *)
Record error : Type := mkError { name : string; message : string }.

(** [new Error(msg)] for a string [msg]. *)
Definition Error (msg : string) : error := mkError "Error" msg.

(** A [TypeError] raised by the engine itself.  For a failed property
    read or method call the message text is given in a shortened form; the
    source only displays it. *)
Definition TypeError (msg : string) : error := mkError "TypeError" msg.

(** A computation that returns or throws. *)
Inductive result (A : Type) : Type :=
| Ok (a : A)
| Throw (e : error).
Arguments Ok {A} a.
Arguments Throw {A} e.

Definition bind {A B} (m : result A) (k : A -> result B) : result B :=
  match m with
  | Ok a => k a
  | Throw e => Throw e
  end.

(** [try { m } catch (e) { h e }]. *)
Definition try_catch {A} (m : result A) (h : error -> result A) : result A :=
  match m with
  | Ok a => Ok a
  | Throw e => h e
  end.

Fixpoint lookup (k : string) (props : list (string * value)) : value :=
  match props with
  | [] => Undefined
  | (k', v) :: rest => if k =? k' then v else lookup k rest
  end.

(** [v.k].  Reading a property of [undefined] or [null] throws; a missing
    property reads as [undefined].  [get] is applied only to the property
    names of the response payload ([status], [message], [results], ...),
    none of which is a built-in property of arrays, strings, numbers or
    booleans, nor of [Object.prototype]. *)
Definition get (v : value) (k : string) : result value :=
  match v with
  | Undefined =>
      Throw (TypeError ("Cannot read properties of undefined (reading '" ++ k ++ "')"))
  | Null =>
      Throw (TypeError ("Cannot read properties of null (reading '" ++ k ++ "')"))
  | Obj props => Ok (lookup k props)
  | _ => Ok Undefined
  end.

(** [v?.k]. *)
Definition get_opt (v : value) (k : string) : value :=
  match v with
  | Obj props => lookup k props
  | _ => Undefined
  end.

(** [s.includes(pat)]. *)
Definition includes (s pat : string) : bool :=
  match index 0 pat s with
  | Some _ => true
  | None => false
  end.

Definition lower_ascii (c : ascii) : ascii :=
  let n := nat_of_ascii c in
  if (65 <=? n)%nat && (n <=? 90)%nat then ascii_of_nat (n + 32) else c.

(** [s.toLowerCase()] on the ASCII letters.  Strings are kept as UTF-8
    bytes and bytes above 127 are left alone.  The source only searches the
    lowered string for 'adult', 'invalid', 'error' and 'autistic'; the two
    non-ASCII letters whose lower case contains an ASCII letter (U+0130,
    which gives i followed by a combining dot, and the Kelvin sign, which
    gives k) cannot complete any of these words. *)
Fixpoint toLowerCase (s : string) : string :=
  match s with
  | EmptyString => EmptyString
  | String c rest => String (lower_ascii c) (toLowerCase rest)
  end.

(** The receiver of a call [v.m(...)] to a method [m] of [String.prototype]
    ([startsWith], [toLowerCase]): a string is accepted; any other value
    has no callable property of that name, and the call throws. *)
Definition string_receiver (v : value) (m : string) : result string :=
  match v with
  | Str s => Ok s
  | Undefined =>
      Throw (TypeError ("Cannot read properties of undefined (reading '" ++ m ++ "')"))
  | Null =>
      Throw (TypeError ("Cannot read properties of null (reading '" ++ m ++ "')"))
  | _ => Throw (TypeError (m ++ " is not a function"))
  end.

(** The same for a method of [Array.prototype] ([find], [filter]). *)
Definition array_receiver (v : value) (m : string) : result (list value) :=
  match v with
  | Arr items => Ok items
  | Undefined =>
      Throw (TypeError ("Cannot read properties of undefined (reading '" ++ m ++ "')"))
  | Null =>
      Throw (TypeError ("Cannot read properties of null (reading '" ++ m ++ "')"))
  | _ => Throw (TypeError (m ++ " is not a function"))
  end.

(** [items.find(r => r[k])]: the first element whose property [k] is truthy,
    [undefined] when there is none; the callback throws on a [null]
    element, and elements after the one found are not visited. *)
Fixpoint find_by (k : string) (items : list value) : result value :=
  match items with
  | [] => Ok Undefined
  | r :: rest =>
      match get r k with
      | Throw e => Throw e
      | Ok p => if truthy p then Ok r else find_by k rest
      end
  end.

(** [items.filter(r => r[k])]. *)
Fixpoint filter_by (k : string) (items : list value) : result (list value) :=
  match items with
  | [] => Ok []
  | r :: rest =>
      match get r k with
      | Throw e => Throw e
      | Ok p =>
          match filter_by k rest with
          | Throw e => Throw e
          | Ok kept => Ok (if truthy p then r :: kept else kept)
          end
      end
  end.

(** Calls made one after the other, as in [items.map(f)] or in the
    rendering of a list of children: the first exception ends the run. *)
Fixpoint traverse {A B} (f : A -> result B) (l : list A) : result (list B) :=
  match l with
  | [] => Ok []
  | x :: rest =>
      match f x with
      | Throw e => Throw e
      | Ok y =>
          match traverse f rest with
          | Throw e => Throw e
          | Ok ys => Ok (y :: ys)
          end
      end
  end.

(** [v.length] for a non-nullish [v].  Only its comparison with zero is
    used, so the byte length stands for the length of a string. *)
Definition length_of (v : value) : value :=
  match v with
  | Arr items => Num (inject_Z (Z.of_nat (List.length items)))
  | Str s => Num (inject_Z (Z.of_nat (String.length s)))
  | Obj props => lookup "length" props
  | _ => Undefined
  end.

(** [k in props] for the own properties of an object. *)
Definition has_own (k : string) (props : list (string * value)) : bool :=
  existsb (fun kv => k =? fst kv) props.

(** What the embedding takes from the engine: the two number conversions
    [Number::toString] (shortest round-trip decimal) and [StringToNumber]
    ([None] stands for [NaN]), and the message of the [TypeError] with which
    [OrdinaryToPrimitive] gives up (the wording differs between engines). *)
Record Host : Type := mkHost {
  Number_toString : Q -> string;
  StringToNumber : string -> option Q;
  no_primitive_message : string
}.

Section Conversions.
Variable host : Host.

(** [ToString(v)], as applied by [new Error(v)] to its argument.

    An object is converted by [OrdinaryToPrimitive]: its [toString] is
    called if callable, then its [valueOf].  A parsed object inherits both
    from [Object.prototype], and an own property read from JSON is never
    callable.  So an object without an own [toString] gives
    "[object Object]"; one with an own [toString] falls through to
    [valueOf], which is either an own property (not callable) or the
    inherited one (which returns the object itself, not a primitive), and
    the conversion throws a [TypeError].

    An array has no own [toString]; the inherited one joins the elements
    with commas, [null] and [undefined] elements giving the empty string
    and every other element being converted in turn, from left to right. *)
Fixpoint ToString (v : value) : result string :=
  match v with
  | Undefined => Ok "undefined"
  | Null => Ok "null"
  | Bool true => Ok "true"
  | Bool false => Ok "false"
  | Num q => Ok (Number_toString host q)
  | Str s => Ok s
  | Arr items =>
      (fix join (l : list value) : result string :=
         match l with
         | [] => Ok ""
         | x :: rest =>
             match (if nullish x then Ok "" else ToString x) with
             | Throw e => Throw e
             | Ok first =>
                 match rest with
                 | [] => Ok first
                 | _ => match join rest with
                        | Throw e => Throw e
                        | Ok others => Ok (first ++ "," ++ others)
                        end
                 end
             end
         end) items
  | Obj props =>
      if has_own "toString" props
      then Throw (TypeError (no_primitive_message host))
      else Ok "[object Object]"
  end.

(** [ToNumber(v)].  An array or an object is first made a primitive with
    hint number: [valueOf] is tried first and gives no primitive, and what
    [toString] does is described above. *)
Definition ToNumber (v : value) : result (option Q) :=
  match v with
  | Undefined => Ok None
  | Null => Ok (Some 0)
  | Bool b => Ok (Some (if b then 1 else 0))
  | Num q => Ok (Some q)
  | Str s => Ok (StringToNumber host s)
  | Arr _ | Obj _ => bind (ToString v) (fun s => Ok (StringToNumber host s))
  end.

(** [v > 0], false when [v] converts to [NaN]. *)
Definition gt_zero (v : value) : result bool :=
  bind (ToNumber v)
       (fun n => Ok match n with
                    | Some q => negb (Qle_bool q 0)
                    | None => false
                    end).

(** [v >= bound], false when [v] converts to [NaN]. *)
Definition ge (v : value) (bound : Q) : result bool :=
  bind (ToNumber v)
       (fun n => Ok match n with
                    | Some q => Qle_bool bound q
                    | None => false
                    end).

End Conversions.

(** [new Error(v)] for an arbitrary value [v] other than [undefined]: the
    message is [ToString(v)], and the constructor throws when that
    conversion does. *)
Definition Error_of (host : Host) (v : value) : result error :=
  bind (ToString host v) (fun msg => Ok (Error msg)).

End Js.

Declare Scope js_scope.
Delimit Scope js_scope with js.
Notation "x <- m ;; k" := (Js.bind m (fun x => k))
  (at level 100, m at next level, right associativity) : js_scope.

(** ** Files, configuration and the network *)

Module File.
(** The three properties of a DOM [File] that the source reads. *)
Record t : Type := mk { name : string; type : string; size : Z }.
End File.

(** [src/config] is imported by both [utils/api.js] and the Material-UI
    screen but is not part of the sources at hand; the entries that are read
    are taken as a parameter of the development. *)
Record Config : Type := mkConfig {
  API_BASE_URL : string;
  ENDPOINTS_ANALYZE : string;
  UPLOAD_ALLOWED_TYPES : list string;
  UPLOAD_MAX_FILE_SIZE : Z;
  ERRORS_INVALID_FILE_TYPE : string;
  ERRORS_FILE_TOO_LARGE : string;
  ERRORS_BACKEND_ERROR : string;
  ERRORS_NETWORK_ERROR : string;
  UI_LOADING_TIMEOUT : N
}.

Module Net.

(** A [Response]: its status line and what [response.json()] does, [None]
    when the body never finishes arriving. *)
Record Response : Type := mkResponse {
  status : nat;
  statusText : string;
  json : option (Js.result Js.value)
}.

(** [response.ok]. *)
Definition ok (r : Response) : bool :=
  (200 <=? status r)%nat && (status r <=? 299)%nat.

Inductive settlement : Type :=
| Fulfilled (r : Response)
| Rejected (e : Js.error).

(** How the network answers one [fetch]: when the promise would settle on
    its own, in milliseconds after the call ([None]: never), and how. *)
Record t : Type := mk { settles_at : option N; outcome : settlement }.

(** What the caller observes, in the order it happens. *)
Inductive effect : Type :=
| SetTimeout (ms : N)
| Fetch (url : string) (with_signal : bool)
| ClearTimeout
| TimerFired (in_flight : bool).

(** The [DOMException] with which an aborted [fetch] rejects.  Only its name
    is specified; the message differs between browsers. *)
Definition AbortError : Js.error := Js.mkError "AbortError" "The operation was aborted.".

Definition fetches (tr : list effect) : nat :=
  length (filter (fun e => match e with Fetch _ _ => true | _ => false end) tr).

Definition aborts_in_flight (tr : list effect) : nat :=
  length (filter (fun e => match e with TimerFired true => true | _ => false end) tr).

End Net.

(** ** [src/utils/api.js] *)

Module Api.
Import Js.

Section WithConfig.
Variable host : Host.
Variable config : Config.

(** [validateFile]: [event.target.files[0]] is [undefined] when no file was
    picked, hence the [option]. *)
Definition validateFile (file : option File.t) : result bool :=
  match file with
  | None => Throw (Error "No file selected")
  | Some f =>
      if negb (existsb (String.eqb (File.type f)) (UPLOAD_ALLOWED_TYPES config))
      then Throw (Error (ERRORS_INVALID_FILE_TYPE config))
      else if (UPLOAD_MAX_FILE_SIZE config <? File.size f)%Z
      then Throw (Error (ERRORS_FILE_TOO_LARGE config))
      else Ok true
  end.

(** The race between [setTimeout(() => controller.abort(), LOADING_TIMEOUT)]
    and the [fetch].  A timer callback never runs before its delay has
    elapsed, so a promise that settles exactly at the deadline is taken to
    win. *)
Definition timer_first (net : Net.t) : bool :=
  match Net.settles_at net with
  | None => true
  | Some t => (UI_LOADING_TIMEOUT config <? t)%N
  end.

(** [if (!response.ok) { ... }]. *)
Definition check_status (r : Net.Response) : result unit :=
  if Net.ok r then Ok tt
  else if (Net.status r =? 404)%nat
  then Throw (Error "API endpoint not found. Please check the configuration.")
  else if (500 <=? Net.status r)%nat
  then Throw (Error (ERRORS_BACKEND_ERROR config))
  else Throw (Error ("HTTP " ++ NilZero.string_of_uint (Nat.to_uint (Net.status r))
                     ++ ": " ++ Net.statusText r)).

(** The two checks on the parsed body.  [new Error(data.error)] converts
    its argument to a string before anything is thrown; when that
    conversion fails, its [TypeError] is what leaves the [try] block. *)
Definition check_body (data : value) : result value :=
  if negb (truthy data) || negb (typeof_object data)
  then Throw (Error "Invalid response format from server")
  else (e <- get data "error" ;;
        if truthy e
        then (err <- Error_of host e ;; Throw err)
        else Ok data)%js.

(** The [try] block: the effects performed and the way it ends, [None] when
    it stays suspended for ever at [await response.json()].  When the fetch
    rejects by itself the timer is left armed and fires later, on a request
    that is no longer in flight. *)
Definition analyzeImage_try (file : option File.t) (net : Net.t)
  : list Net.effect * option (result value) :=
  match validateFile file with
  | Throw e => ([], Some (Throw e))
  | Ok _ =>
      let started :=
        [Net.SetTimeout (UI_LOADING_TIMEOUT config);
         Net.Fetch (API_BASE_URL config ++ ENDPOINTS_ANALYZE config) true] in
      if timer_first net
      then ((started ++ [Net.TimerFired true])%list, Some (Throw Net.AbortError))
      else
        match Net.outcome net with
        | Net.Rejected e => ((started ++ [Net.TimerFired false])%list, Some (Throw e))
        | Net.Fulfilled r =>
            ((started ++ [Net.ClearTimeout])%list,
             match check_status r with
             | Throw e => Some (Throw e)
             | Ok _ =>
                 match Net.json r with
                 | None => None
                 | Some (Throw e) => Some (Throw e)
                 | Some (Ok data) => Some (check_body data)
                 end
             end)
        end
  end.

(** The [catch] block. *)
Definition analyzeImage_catch (e : error) : result value :=
  if name e =? "AbortError"
  then Throw (Error "Request timed out. Please try again.")
  else if (name e =? "TypeError") && includes (message e) "fetch"
  then Throw (Error (ERRORS_NETWORK_ERROR config))
  else Throw e.

Definition analyzeImage (file : option File.t) (net : Net.t)
  : list Net.effect * option (result value) :=
  let (tr, r) := analyzeImage_try file net in
  (tr, option_map (fun r => try_catch r analyzeImage_catch) r).

End WithConfig.
End Api.

(** ** Object URLs and rendered output *)

Module Url.

(** What a preview slot can hold: a URL handed out by
    [URL.createObjectURL], identified by the order of its creation, or the
    data URI of a webcam screenshot. *)
Inductive preview : Type :=
| Blob (id : nat)
| Data (uri : string).

Inductive event : Type :=
| Created (id : nat)
| Revoked (u : preview).

(** The browser side: the next identifier and the calls made so far,
    oldest first. *)
Record store : Type := mkStore { next : nat; log : list event }.

Definition empty : store := mkStore 0 [].

Definition createObjectURL (st : store) : preview * store :=
  (Blob (next st), mkStore (S (next st)) (log st ++ [Created (next st)])).

Definition revokeObjectURL (u : preview) (st : store) : store :=
  mkStore (next st) (log st ++ [Revoked u]).

(** A URL string is truthy unless empty; blob URLs are never empty. *)
Definition truthy (u : option preview) : bool :=
  match u with
  | None => false
  | Some (Blob _) => true
  | Some (Data uri) => negb (uri =? "")
  end.

Definition is_revoke_of (id : nat) (e : event) : bool :=
  match e with
  | Revoked (Blob j) => Nat.eqb id j
  | _ => false
  end.

(** How many times handle [id] has been released. *)
Definition releases (id : nat) (st : store) : nat :=
  length (filter (is_revoke_of id) (log st)).

End Url.

Module View.
Import Js.

(** How a value is put into the text of an age line. *)
Inductive shown : Type :=
| AsChild (v : value)
| AsJson (v : value)
| AsString (v : value).

(** The elements the two screens build from a response.  [RegionRow],
    [PredictionTable] and [AgeSummary] are elements as the screen's own
    function creates them: a row whose [ConfidenceLevel] has not run yet
    and the two components of the plain screen with their property.  React
    calls these components after the function that created them has
    returned; [ConfidenceRow], [AgeHeading], [AgeLine] and [AgeBox] are what
    they render. *)
Inductive node : Type :=
| Image (src alt : string)
| Notice (className text : string)
| Text (v : value)
| RegionRow (region label confidence : value)
| ConfidenceRow (region label confidence : value) (band : string)
| FinalDecision (className : string) (decision : value)
| PredictionTable (results : value)
| AgeSummary (ageCheckSummary : value)
| AgeHeading
| AgeLine (age : shown)
| AgeBox (box : value)
| Spinner.

(** The autism-annotated image: the [img] elements with alternative text
    "Autism Analysis Visualization" (Material-UI screen) and "Analysis
    result" (plain screen). *)
Definition is_autism_image (n : node) : bool :=
  match n with
  | Image _ alt => (alt =? "Autism Analysis Visualization") || (alt =? "Analysis result")
  | _ => false
  end.

(** The autism table: region rows, the prediction table, the verdict. *)
Definition is_autism_table (n : node) : bool :=
  match n with
  | RegionRow _ _ _ | ConfidenceRow _ _ _ _ | FinalDecision _ _
  | PredictionTable _ => true
  | _ => false
  end.

Definition autism_free (n : node) : bool :=
  negb (is_autism_image n) && negb (is_autism_table n).

Definition no_autism_output (out : list node) : Prop :=
  forall n, In n out -> is_autism_image n = false /\ is_autism_table n = false.

(** [{v && element}] as a JSX child: the element when [v] is truthy;
    otherwise [v] itself, of which React prints numbers (a 0) and nothing
    else. *)
Definition and_then (v : value) (element : list node) : list node :=
  if truthy v then element
  else match v with
       | Num _ => [Text v]
       | _ => []
       end.

End View.

(** ** The Material-UI screen (first [App]) *)

Module Mui.
Import Js.

Module Snackbar.
Record t : Type := mk { open : bool; message : value; severity : string }.
End Snackbar.

(** The [useState] slots of the component.  Slots that receive parts of the
    response hold JavaScript values. *)
Record State : Type := mkState {
  selectedImage : option File.t;
  previewUrl : option Url.preview;
  isProcessing : bool;
  backendMessage : value;
  ageAnnotatedImageUrl : option string;
  autismAnnotatedImageUrl : option string;
  ageAnalysis : value;
  autismAnalysis : value;
  error : option string;
  snackbar : Snackbar.t;
  showWebcam : bool
}.

(** The arguments of the [useState] calls. *)
Definition initial : State :=
  mkState None None false (Str "") None None (Obj []) (Obj []) None
          (Snackbar.mk false (Str "") "info") false.

Definition setSelectedImage v (s : State) : State :=
  mkState v (previewUrl s) (isProcessing s) (backendMessage s)
          (ageAnnotatedImageUrl s) (autismAnnotatedImageUrl s) (ageAnalysis s)
          (autismAnalysis s) (error s) (snackbar s) (showWebcam s).
Definition setPreviewUrl v (s : State) : State :=
  mkState (selectedImage s) v (isProcessing s) (backendMessage s)
          (ageAnnotatedImageUrl s) (autismAnnotatedImageUrl s) (ageAnalysis s)
          (autismAnalysis s) (error s) (snackbar s) (showWebcam s).
Definition setIsProcessing v (s : State) : State :=
  mkState (selectedImage s) (previewUrl s) v (backendMessage s)
          (ageAnnotatedImageUrl s) (autismAnnotatedImageUrl s) (ageAnalysis s)
          (autismAnalysis s) (error s) (snackbar s) (showWebcam s).
Definition setBackendMessage v (s : State) : State :=
  mkState (selectedImage s) (previewUrl s) (isProcessing s) v
          (ageAnnotatedImageUrl s) (autismAnnotatedImageUrl s) (ageAnalysis s)
          (autismAnalysis s) (error s) (snackbar s) (showWebcam s).
Definition setAgeAnnotatedImageUrl v (s : State) : State :=
  mkState (selectedImage s) (previewUrl s) (isProcessing s) (backendMessage s)
          v (autismAnnotatedImageUrl s) (ageAnalysis s)
          (autismAnalysis s) (error s) (snackbar s) (showWebcam s).
Definition setAutismAnnotatedImageUrl v (s : State) : State :=
  mkState (selectedImage s) (previewUrl s) (isProcessing s) (backendMessage s)
          (ageAnnotatedImageUrl s) v (ageAnalysis s)
          (autismAnalysis s) (error s) (snackbar s) (showWebcam s).
Definition setAgeAnalysis v (s : State) : State :=
  mkState (selectedImage s) (previewUrl s) (isProcessing s) (backendMessage s)
          (ageAnnotatedImageUrl s) (autismAnnotatedImageUrl s) v
          (autismAnalysis s) (error s) (snackbar s) (showWebcam s).
Definition setAutismAnalysis v (s : State) : State :=
  mkState (selectedImage s) (previewUrl s) (isProcessing s) (backendMessage s)
          (ageAnnotatedImageUrl s) (autismAnnotatedImageUrl s) (ageAnalysis s)
          v (error s) (snackbar s) (showWebcam s).
Definition setError v (s : State) : State :=
  mkState (selectedImage s) (previewUrl s) (isProcessing s) (backendMessage s)
          (ageAnnotatedImageUrl s) (autismAnnotatedImageUrl s) (ageAnalysis s)
          (autismAnalysis s) v (snackbar s) (showWebcam s).
Definition setSnackbar v (s : State) : State :=
  mkState (selectedImage s) (previewUrl s) (isProcessing s) (backendMessage s)
          (ageAnnotatedImageUrl s) (autismAnnotatedImageUrl s) (ageAnalysis s)
          (autismAnalysis s) (error s) v (showWebcam s).
Definition setShowWebcam v (s : State) : State :=
  mkState (selectedImage s) (previewUrl s) (isProcessing s) (backendMessage s)
          (ageAnnotatedImageUrl s) (autismAnnotatedImageUrl s) (ageAnalysis s)
          (autismAnalysis s) (error s) (snackbar s) v.

(** A handler body: it runs setters and may throw part way, the setters
    already run keeping their effect. *)
Definition action (A : Type) : Type := State -> result A * State.

Definition pure {A} (a : A) : action A := fun s => (Ok a, s).
Definition lift {A} (r : result A) : action A := fun s => (r, s).
Definition set (f : State -> State) : action unit := fun s => (Ok tt, f s).
Definition abind {A B} (m : action A) (k : A -> action B) : action B :=
  fun s => match m s with
           | (Ok a, s') => k a s'
           | (Throw e, s') => (Throw e, s')
           end.

(** [try { body } catch (err) { handler err } finally { final }], for a body
    and handlers that only run setters. *)
Definition try_catch_finally (body : action unit)
           (handler : Js.error -> State -> State) (final : State -> State)
  : State -> State :=
  fun s => match body s with
           | (Ok _, s') => final s'
           | (Throw e, s') => final (handler e s')
           end.

(** The two autism slots hold what they start with. *)
Definition autism_cleared (s : State) : Prop :=
  autismAnnotatedImageUrl s = None /\ autismAnalysis s = Obj [].

(** A handler body that never fills the autism slots. *)
Definition keeps_cleared {A} (a : action A) : Prop :=
  forall s, autism_cleared s -> autism_cleared (snd (a s)).

Declare Scope action_scope.
Delimit Scope action_scope with action.
Notation "x <- m ;; k" := (abind m (fun x => k))
  (at level 100, m at next level, right associativity) : action_scope.
Notation "m ;; k" := (abind m (fun _ => k))
  (at level 100, right associativity) : action_scope.

(** The screen together with what lies outside React: the object-URL store
    of the browser, the submission that is in flight (with the way
    [analyzeImage] will settle, [None] if it never does) and the network
    effects performed so far. *)
Record World : Type := mkWorld {
  ui : State;
  urls : Url.store;
  inflight : option (option (result value));
  traffic : list Net.effect
}.

Definition start : World := mkWorld initial Url.empty None [].

(** What the user and the network can do to the screen. *)
Inductive event : Type :=
| ImageSelect (file : option File.t)
| WebcamCapture (screenshot : option string) (blob_size : Z)
| AnalyzeClick (net : Net.t)
| Settle
| ResetClick
| CloseSnackbar
| ToggleWebcam.

Section Screen.
Variable host : Host.
Variable config : Config.
(** [formatFileSize] of [utils/api.js] formats with floating-point
    logarithms; only the snackbar text depends on it. *)
Variable formatFileSize : Z -> string.

(** [p.startsWith('http') ? p : `${base}${p}`]. *)
Definition resolveUrl (base : string) (p : value) : result string :=
  (s <- string_receiver p "startsWith" ;;
   Ok (if prefix "http" s then s else base ++ s))%js.

Definition resetStateExceptImage (s : State) : State :=
  setError None
    (setBackendMessage (Str "")
       (setAgeAnnotatedImageUrl None
          (setAutismAnnotatedImageUrl None
             (setAutismAnalysis (Obj [])
                (setAgeAnalysis (Obj []) s))))).

(** [handleImageSelect], with [file = event.target.files[0]]. *)
Definition handleImageSelect (file : option File.t) (w : State * Url.store)
  : State * Url.store :=
  match file with
  | None => w
  | Some f =>
      let (s, st) := w in
      let (u, st') := Url.createObjectURL st in
      (setSnackbar
         (Snackbar.mk true
            (Str ("Image uploaded: " ++ File.name f ++ " (" ++
                  formatFileSize (File.size f) ++ ")"))
            "success")
         (resetStateExceptImage (setPreviewUrl (Some u) (setSelectedImage (Some f) s))),
       st')
  end.

(** The last [then] callback of [captureFromWebcam].  [getScreenshot()]
    gives a data URI, or [null] ([None]) while the camera has no frame;
    [fetch(screenshot)] is called either way, and when it is fulfilled with
    a body of the given size the callback stores a file made from that body
    and the screenshot itself as the preview. *)
Definition captureFromWebcam (screenshot : option string) (blob_size : Z) (s : State)
  : State :=
  setSnackbar (Snackbar.mk true (Str "Image captured from webcam") "success")
    (resetStateExceptImage
       (setPreviewUrl (option_map Url.Data screenshot)
          (setSelectedImage (Some (File.mk "webcam-capture.jpg" "image/jpeg" blob_size)) s))).

(** [handleAnalyze] up to its [await]: the state it leaves and the file it
    submits, if any. *)
Definition handleAnalyze_begin (s : State) : State * option File.t :=
  match selectedImage s with
  | None => (s, None)
  | Some f => (resetStateExceptImage (setIsProcessing true s), Some f)
  end.

(** [a && a[k]]. *)
Definition and_get (a : value) (k : string) : result value :=
  if truthy a then get a k else Ok a.

(** The rest of the [try] block, once [analyzeImage] has returned [res]. *)
Definition handleAnalyze_body (res : value) : action unit :=
  (message <- lift (get res "message") ;;
   set (setBackendMessage (or_else message (Str ""))) ;;
   age_check_summary <- lift (get res "age_check_summary") ;;
   age_path <- lift (and_get age_check_summary "annotated_image_url") ;;
   (if truthy age_path
    then (url <- lift (resolveUrl (API_BASE_URL config) age_path) ;;
          set (setAgeAnnotatedImageUrl (Some url)) ;;
          set (setAgeAnalysis (or_else age_check_summary (Obj []))))
    else pure tt) ;;
   autism_prediction_data <- lift (get res "autism_prediction_data") ;;
   autism_path <- lift (and_get autism_prediction_data "annotated_image_path") ;;
   (if truthy autism_path
    then (status <- lift (get res "status") ;;
          if is_string status "adult_invalid"
          then (set (setAutismAnnotatedImageUrl None) ;;
                set (setAutismAnalysis (Obj [])))
          else (url <- lift (resolveUrl (API_BASE_URL config) autism_path) ;;
                set (setAutismAnnotatedImageUrl (Some url)) ;;
                set (setAutismAnalysis (or_else autism_prediction_data (Obj [])))))
    else (set (setAutismAnnotatedImageUrl None) ;;
          set (setAutismAnalysis (Obj [])))) ;;
   status <- lift (get res "status") ;;
   set (setSnackbar
          (Snackbar.mk true (or_else message (Str "Analysis complete."))
             (if is_string status "adult_invalid" then "warning" else "success"))))%action.

(** The [catch] block. *)
Definition handleAnalyze_catch (err : Js.error) (s : State) : State :=
  setSnackbar (Snackbar.mk true (Str (Js.message err)) "error")
    (setError (Some (Js.message err)) s).

(** [handleAnalyze] from the point where [analyzeImage] settles with [r]. *)
Definition handleAnalyze_resume (r : result value) : State -> State :=
  try_catch_finally
    (res <- lift r ;; handleAnalyze_body res)%action
    handleAnalyze_catch
    (setIsProcessing false).

Definition handleReset (w : State * Url.store) : State * Url.store :=
  let (s, st) := w in
  (setError None
     (setBackendMessage (Str "")
        (setAutismAnnotatedImageUrl None
           (setAgeAnnotatedImageUrl None
              (setAutismAnalysis (Obj [])
                 (setAgeAnalysis (Obj [])
                    (setPreviewUrl None
                       (setSelectedImage None s))))))),
   match previewUrl s with
   | Some u => if Url.truthy (Some u) then Url.revokeObjectURL u st else st
   | None => st
   end).

Definition handleCloseSnackbar (s : State) : State :=
  setSnackbar (Snackbar.mk false (Snackbar.message (snackbar s))
                           (Snackbar.severity (snackbar s))) s.

(** [backendMessage && backendMessage.toLowerCase().includes('adult')]. *)
Definition mentions_adult (backendMessage : value) : result value :=
  if truthy backendMessage
  then (lowered <- string_receiver backendMessage "toLowerCase" ;;
        Ok (Bool (includes (toLowerCase lowered) "adult")))%js
  else Ok backendMessage.

(** The [map] over the filtered results: one row element per kept entry,
    holding a [<ConfidenceLevel confidence={r.confidence} />] that React
    renders later. *)
Definition region_row (r : value) : View.node :=
  View.RegionRow (get_opt r "region") (get_opt r "label") (get_opt r "confidence").

(** [getConfidenceColor] of [ConfidenceLevel]. *)
Definition getConfidenceColor (conf : Q) : string :=
  if Qle_bool 70 conf then "#16a34a"
  else if Qle_bool 40 conf then "#ca8a04"
  else "#dc2626".

(** The [ConfidenceLevel] component: the colour of the chip it renders.
    The label is computed first, by [confidence.toFixed(1)]: only a number
    has that method, so every other value makes the component throw. *)
Definition ConfidenceLevel (confidence : value) : result string :=
  match confidence with
  | Num q => Ok (getConfidenceColor q)
  | Undefined =>
      Throw (TypeError "Cannot read properties of undefined (reading 'toFixed')")
  | Null =>
      Throw (TypeError "Cannot read properties of null (reading 'toFixed')")
  | _ => Throw (TypeError "toFixed is not a function")
  end.

(** What React makes of one element of the card: a row gets its chip, every
    other element is final. *)
Definition mount_row (n : View.node) : result View.node :=
  match n with
  | View.RegionRow region label confidence =>
      (colour <- ConfidenceLevel confidence ;;
       Ok (View.ConfidenceRow region label confidence colour))%js
  | _ => Ok n
  end.

(** The children of the "Regional Analysis" box, built in source order:
    [results.filter(r => r.region).map(...)], then the verdict guarded by
    [results.find(r => r.final_decision)]. *)
Definition regionalAnalysis (results : value) : result (list View.node) :=
  (items <- array_receiver results "filter" ;;
   kept <- filter_by "region" items ;;
   items' <- array_receiver results "find" ;;
   found <- find_by "final_decision" items' ;;
   Ok (map region_row kept ++
       View.and_then found
         [View.FinalDecision "" (get_opt found "final_decision")])%list)%js.

(** The children of the "Autism Analysis Visualization" card as the body
    of [App] creates them: the notice for adults, the annotated image or
    its placeholder, and the regional analysis shown under
    [results && results.length > 0]. *)
Definition autismCard_elements (s : State) : result (list View.node) :=
  (adult <- mentions_adult (backendMessage s) ;;
   results <- get (autismAnalysis s) "results" ;;
   regional <- (if truthy results
                then (shown <- gt_zero host (length_of results) ;;
                      if (shown : bool) then regionalAnalysis results
                      else Ok (View.and_then (Bool false) []))
                else Ok (View.and_then results [])) ;;
   Ok (View.and_then adult [View.Notice "error" "Autism Scanning Disabled"] ++
       match autismAnnotatedImageUrl s with
       | Some url =>
           if url =? ""
           then [View.Notice "placeholder"
                   (if truthy adult
                    then "Autism analysis not available for adult subjects"
                    else "Autism analysis visualization will appear here")]
           else [View.Image url "Autism Analysis Visualization"]
       | None =>
           [View.Notice "placeholder"
              (if truthy adult
               then "Autism analysis not available for adult subjects"
               else "Autism analysis visualization will appear here")]
       end ++ regional)%list)%js.

(** The card on the screen: the elements above, then the [ConfidenceLevel]
    of each row in turn.  An exception in either phase leaves the render of
    [App]; the component has no error boundary. *)
Definition renderAutismCard (s : State) : result (list View.node) :=
  (elements <- autismCard_elements s ;;
   traverse mount_row elements)%js.

(** One event.  The Analyze button is disabled without a selected image and
    while a submission is processed, the Reset button while one is
    processed. *)
Definition step (w : World) (e : event) : World :=
  match e with
  | ImageSelect file =>
      let (s, st) := handleImageSelect file (ui w, urls w) in
      mkWorld s st (inflight w) (traffic w)
  | WebcamCapture screenshot blob_size =>
      mkWorld (captureFromWebcam screenshot blob_size (ui w))
              (urls w) (inflight w) (traffic w)
  | AnalyzeClick net =>
      if isProcessing (ui w) then w
      else match handleAnalyze_begin (ui w) with
           | (s, Some f) =>
               let (tr, r) := Api.analyzeImage host config (Some f) net in
               mkWorld s (urls w) (Some r) (traffic w ++ tr)
           | (_, None) => w
           end
  | Settle =>
      match inflight w with
      | Some (Some r) =>
          mkWorld (handleAnalyze_resume r (ui w)) (urls w) None (traffic w)
      | _ => w
      end
  | ResetClick =>
      if isProcessing (ui w) then w
      else let (s, st) := handleReset (ui w, urls w) in
           mkWorld s st (inflight w) (traffic w)
  | CloseSnackbar =>
      mkWorld (handleCloseSnackbar (ui w)) (urls w) (inflight w) (traffic w)
  | ToggleWebcam =>
      mkWorld (setShowWebcam (negb (showWebcam (ui w))) (ui w))
              (urls w) (inflight w) (traffic w)
  end.

Definition run (events : list event) : World := fold_left step events start.

End Screen.

(** The number of clicks on Analyze in a sequence of events. *)
Definition clicks (events : list event) : nat :=
  length (filter (fun e => match e with AnalyzeClick _ => true | _ => false end) events).

End Mui.

(** ** The plain screen (second [App]) *)

Module Plain.
Import Js.

(** The address written out in this screen's [fetch] call and image URLs. *)
Definition origin : string := "https://age-api-zzc8.onrender.com".

Record State : Type := mkState {
  selectedFile : option File.t;
  previewUrl : option Url.preview;
  isLoading : bool;
  error : option string;
  result : value;
  isDragOver : bool
}.

Definition initial : State := mkState None None false None Null false.

Definition setSelectedFile v (s : State) : State :=
  mkState v (previewUrl s) (isLoading s) (error s) (result s) (isDragOver s).
Definition setPreviewUrl v (s : State) : State :=
  mkState (selectedFile s) v (isLoading s) (error s) (result s) (isDragOver s).
Definition setIsLoading v (s : State) : State :=
  mkState (selectedFile s) (previewUrl s) v (error s) (result s) (isDragOver s).
Definition setError v (s : State) : State :=
  mkState (selectedFile s) (previewUrl s) (isLoading s) v (result s) (isDragOver s).
Definition setResult v (s : State) : State :=
  mkState (selectedFile s) (previewUrl s) (isLoading s) (error s) v (isDragOver s).
Definition setIsDragOver v (s : State) : State :=
  mkState (selectedFile s) (previewUrl s) (isLoading s) (error s) (result s) v.

(** [getConfidenceClass] of [ConfidenceLevel]. *)
Definition getConfidenceClass (confidence : Q) : string :=
  if Qle_bool 70 confidence then "confidence-high"
  else if Qle_bool 40 confidence then "confidence-medium"
  else "confidence-low".

(** [validateFile]: the verdict and the state after its [setError]. *)
Definition validateFile (file : option File.t) (s : State) : bool * State :=
  match file with
  | None => (false, setError (Some "No file selected") s)
  | Some f =>
      if negb (prefix "image/" (File.type f))
      then (false, setError (Some "Invalid file type. Please select an image file.") s)
      else if (10 * 1024 * 1024 <? File.size f)%Z
      then (false, setError (Some "File too large. Please select an image smaller than 10MB.") s)
      else (true, s)
  end.

Definition handleFileSelect (file : option File.t) (w : State * Url.store)
  : State * Url.store :=
  let (s, st) := w in
  let (valid, s') := validateFile file (setResult Null (setError None s)) in
  match valid, file with
  | true, Some f =>
      let (url, st') := Url.createObjectURL st in
      (setPreviewUrl (Some url) (setSelectedFile (Some f) s'), st')
  | _, _ => (s', st)
  end.

(** [handleFileInputChange], with [file = event.target.files[0]]. *)
Definition handleFileInputChange (file : option File.t) (w : State * Url.store)
  : State * Url.store :=
  handleFileSelect file w.

(** [handleDrop], with [files = event.dataTransfer.files]. *)
Definition handleDrop (files : list File.t) (w : State * Url.store)
  : State * Url.store :=
  let (s, st) := w in
  match files with
  | f :: _ => handleFileSelect (Some f) (setIsDragOver false s, st)
  | [] => (setIsDragOver false s, st)
  end.

(** [handleReset].  Its last statement clears the value of the DOM file
    input, which is no part of the component state. *)
Definition handleReset (s : State) : State :=
  setResult Null (setError None (setPreviewUrl None (setSelectedFile None s))).

(** [handleAnalyze] up to its [await fetch(...)]. *)
Definition handleAnalyze_begin (s : State) : State * option File.t :=
  match selectedFile s with
  | None => (setError (Some "Please select an image first") s, None)
  | Some f => (setResult Null (setError None (setIsLoading true s)), Some f)
  end.

(** The [fetch] of this screen and what follows it inside the [try]: the
    effects and the way the block ends, [None] when it stays suspended.  No
    timer is set and no signal is passed. *)
Definition handleAnalyze_try (net : Net.t) : list Net.effect * option (Js.result value) :=
  ([Net.Fetch (origin ++ "/process") false],
   match Net.settles_at net with
   | None => None
   | Some _ =>
       match Net.outcome net with
       | Net.Rejected e => Some (Throw e)
       | Net.Fulfilled r =>
           if negb (Net.ok r)
           then Some (Throw (Error ("HTTP error! status: " ++
                                    NilZero.string_of_uint (Nat.to_uint (Net.status r)))))
           else match Net.json r with
                | None => None
                | Some (Throw e) => Some (Throw e)
                | Some (Ok data) =>
                    if negb (truthy data) || negb (typeof_object data)
                    then Some (Throw (Error "Unexpected result format"))
                    else Some (Ok data)
                end
       end
   end).

(** The [catch] block. *)
Definition handleAnalyze_catch (e : Js.error) (s : State) : State :=
  if includes (Js.message e) "Failed to fetch"
  then setError (Some "Network error. Please check your connection and try again.") s
  else if includes (Js.message e) "HTTP error"
  then setError (Some "Server error. Please try again later.") s
  else setError (Some (if Js.message e =? ""
                       then "An unexpected error occurred. Please try again."
                       else Js.message e)) s.

(** [handleAnalyze] from the point where the [try] block ends with [r]. *)
Definition handleAnalyze_resume (r : Js.result value) (s : State) : State :=
  setIsLoading false
    match r with
    | Ok data => setResult data s
    | Throw e => handleAnalyze_catch e s
    end.

(** [p.startsWith('http') ? p : `https://age-api-zzc8.onrender.com${p}`]. *)
Definition resolveUrl (p : value) : Js.result string :=
  (s <- string_receiver p "startsWith" ;;
   Ok (if prefix "http" s then s else origin ++ s))%js.

(** [{path && <img src={...} alt=... />}]. *)
Definition render_image (path : value) (alt : string) : Js.result (list View.node) :=
  if truthy path
  then (src <- resolveUrl path ;; Ok [View.Image src alt])%js
  else Ok (View.and_then path []).

(** The verdict: the immediately-invoked function under
    [{results && ...}]. *)
Definition render_final_decision (results : value) : Js.result (list View.node) :=
  if truthy results
  then (items <- array_receiver results "find" ;;
        finalDecision <- find_by "final_decision" items ;;
        if truthy finalDecision
        then (decision <- get finalDecision "final_decision" ;;
              lowered <- string_receiver decision "toLowerCase" ;;
              Ok [View.FinalDecision
                    ("final-decision " ++
                     (if includes (toLowerCase lowered) "autistic"
                      then "autistic" else "non-autistic"))
                    decision])
        else Ok [])%js
  else Ok (View.and_then results []).

(** The body of the [try] block of [renderResults], for a truthy
    [result].  The [PredictionTable] and [AgeSummary] elements are only
    created here; React calls these components after [renderResults] has
    returned. *)
Definition renderResults_try (result : value) : Js.result (list View.node) :=
  (status <- get result "status" ;;
   if is_string status "child_autism_screened"
   then (autism_prediction_data <- get result "autism_prediction_data" ;;
         image <- render_image (get_opt autism_prediction_data "annotated_image_path")
                               "Analysis result" ;;
         let results := get_opt autism_prediction_data "results" in
         verdict <- render_final_decision results ;;
         age_check_summary <- get result "age_check_summary" ;;
         Ok (image ++ View.and_then results [View.PredictionTable results] ++
             verdict ++ [View.AgeSummary age_check_summary])%list)
   else if is_string status "adult_invalid"
   then (annotated_image_url <- get result "annotated_image_url" ;;
         image <- render_image annotated_image_url "Age analysis result" ;;
         age_check_summary <- get result "age_check_summary" ;;
         Ok (image ++ [View.Notice "adult-invalid" "You are an adult. Invalid.";
                       View.AgeSummary age_check_summary])%list)
   else Ok [View.Notice "" "Unexpected result format. Please try again."])%js.

(** A word between double quotes. *)
Definition quoted (word : string) : string :=
  String (ascii_of_nat 34) (word ++ String (ascii_of_nat 34) EmptyString).

(** [renderResults]: the elements it returns.  The two early returns read
    state only, and everything after them is inside the [try], whose
    [catch] returns a notice, so the function itself returns on every
    state.  What React then makes of the [PredictionTable] and [AgeSummary]
    elements it returned is [ResultsPanel] below. *)
Definition renderResults (s : State) : list View.node :=
  if isLoading s
  then [View.Spinner; View.Notice "" "Analyzing image..."]
  else if negb (truthy (result s))
  then [View.Notice "" ("Upload an image and click " ++ quoted "Analyze" ++
                        " to get started")]
  else match renderResults_try (result s) with
       | Ok out => out
       | Throw _ => [View.Notice "" "Error displaying results. Please try again."]
       end.

(** The [PredictionTable] component: the row elements it creates, each
    holding a [<ConfidenceLevel confidence={result.confidence || 0} />]. *)
Definition PredictionTable (results : value) : Js.result (list View.node) :=
  match results with
  | Arr items =>
      (kept <- filter_by "region" items ;;
       Ok (map (fun r => View.RegionRow (get_opt r "region")
                           (or_else (get_opt r "label") (Str "N/A"))
                           (or_else (get_opt r "confidence") (Num 0)))
               kept))%js
  | _ => Ok []
  end.

(** One call of [renderAge]: the children of the [p] element. *)
Definition renderAge (age : value) : list View.node :=
  if typeof_object age && negb (nullish age)
  then match get_opt age "age" with
       | Undefined => [View.AgeLine (View.AsJson age)]
       | a => View.AgeLine (View.AsChild a)
              :: View.and_then (get_opt age "box") [View.AgeBox (get_opt age "box")]
       end
  else [View.AgeLine (View.AsString age)].

(** The [AgeSummary] component.  It reads properties of values it has
    tested first and formats with [JSON.stringify] and [String] on values
    that these accept, so it returns for every property. *)
Definition AgeSummary (ageCheckSummary : value) : list View.node :=
  if negb (truthy ageCheckSummary) then []
  else let ages := get_opt ageCheckSummary "annotations" in
       if negb (truthy ages) then []
       else View.AgeHeading ::
            match ages with
            | Arr items => flat_map renderAge items
            | _ => renderAge ages
            end.

Section Mounted.
Variable host : Host.

(** The [ConfidenceLevel] component: the class of the [span] it renders.
    The property is whatever the response holds, and each [>=] of
    [getConfidenceClass] converts it to a number first: a value that
    converts to [NaN] fails both comparisons, and a conversion that throws
    makes the component throw.  On a number this is [getConfidenceClass]
    above. *)
Definition ConfidenceLevel (confidence : value) : Js.result string :=
  (high <- ge host confidence 70 ;;
   if (high : bool) then Ok "confidence-high"
   else (medium <- ge host confidence 40 ;;
         if (medium : bool) then Ok "confidence-medium"
         else Ok "confidence-low"))%js.

Definition mount_row (n : View.node) : Js.result View.node :=
  match n with
  | View.RegionRow region label confidence =>
      (className <- ConfidenceLevel confidence ;;
       Ok (View.ConfidenceRow region label confidence className))%js
  | _ => Ok n
  end.

(** What React makes of one element returned by [renderResults]: the two
    components are called, and so is the [ConfidenceLevel] of every row of
    the table; every other element is final. *)
Definition mount (n : View.node) : Js.result (list View.node) :=
  match n with
  | View.PredictionTable results =>
      (rows <- PredictionTable results ;; traverse mount_row rows)%js
  | View.AgeSummary ageCheckSummary => Ok (AgeSummary ageCheckSummary)
  | _ => Ok [n]
  end.

(** The results panel on the screen: [renderResults] runs inside the render
    of [App], then React calls the components of the elements it returned,
    in document order.  These calls are outside the [try] of
    [renderResults], and no component of the application is an error
    boundary: an exception here ends the render of the whole screen. *)
Definition ResultsPanel (s : State) : Js.result (list View.node) :=
  (mounted <- traverse mount (renderResults s) ;; Ok (concat mounted))%js.

End Mounted.

Record World : Type := mkWorld {
  ui : State;
  urls : Url.store;
  inflight : option (option (Js.result value));
  traffic : list Net.effect
}.

Definition start : World := mkWorld initial Url.empty None [].

Inductive event : Type :=
| FileInputChange (file : option File.t)
| DragOver
| DragLeave
| Drop (files : list File.t)
| AnalyzeClick (net : Net.t)
| Settle
| ResetClick
| CloseAlert.

(** One event.  The Analyze button is disabled without a selected file and
    while loading, the Reset button while loading. *)
Definition step (w : World) (e : event) : World :=
  match e with
  | FileInputChange file =>
      let (s, st) := handleFileInputChange file (ui w, urls w) in
      mkWorld s st (inflight w) (traffic w)
  | DragOver => mkWorld (setIsDragOver true (ui w)) (urls w) (inflight w) (traffic w)
  | DragLeave => mkWorld (setIsDragOver false (ui w)) (urls w) (inflight w) (traffic w)
  | Drop files =>
      let (s, st) := handleDrop files (ui w, urls w) in
      mkWorld s st (inflight w) (traffic w)
  | AnalyzeClick net =>
      if isLoading (ui w) then w
      else match selectedFile (ui w) with
           | None => w
           | Some _ =>
               let (tr, r) := handleAnalyze_try net in
               mkWorld (fst (handleAnalyze_begin (ui w))) (urls w) (Some r)
                       (traffic w ++ tr)
           end
  | Settle =>
      match inflight w with
      | Some (Some r) =>
          mkWorld (handleAnalyze_resume r (ui w)) (urls w) None (traffic w)
      | _ => w
      end
  | ResetClick =>
      if isLoading (ui w) then w
      else mkWorld (handleReset (ui w)) (urls w) (inflight w) (traffic w)
  | CloseAlert => mkWorld (setError None (ui w)) (urls w) (inflight w) (traffic w)
  end.

Definition run (events : list event) : World := fold_left step events start.

Definition clicks (events : list event) : nat :=
  length (filter (fun e => match e with AnalyzeClick _ => true | _ => false end) events).

End Plain.

(** ** Sample data for the worked examples *)

Module Sample.
Import Js.

(** Prints integer-valued numbers in decimal and reads no string as a
    number; the examples convert no other number.  The message is the one
    of V8. *)
Definition host : Host :=
  mkHost (fun q => NilZero.string_of_int (Z.to_int (Qnum q / Zpos (Qden q))))
         (fun _ => None)
         "Cannot convert object to primitive value".

(** The 10MB limit is the one reported for the deployed configuration; the
    other entries are sample values. *)
Definition config : Config :=
  mkConfig "https://age-api-zzc8.onrender.com" "/process"
           ["image/jpeg"; "image/png"; "image/gif"; "image/webp"]
           (10 * 1024 * 1024)
           "Please upload a valid image file."
           "File size exceeds the 10MB limit."
           "Server error. Please try again later."
           "Network error. Please check your connection."
           30000%N.

Definition formatFileSize (bytes : Z) : string :=
  NilZero.string_of_int (Z.to_int bytes) ++ " Bytes".

Definition photo : File.t := File.mk "child.jpg" "image/jpeg" 204800.
Definition portrait : File.t := File.mk "adult.png" "image/png" 409600.
(** A 15MB text file: wrong type and too large. *)
Definition notes : File.t := File.mk "notes.txt" "text/plain" (15 * 1024 * 1024).
(** A 15MB photograph: right type, too large. *)
Definition poster : File.t := File.mk "poster.png" "image/png" (15 * 1024 * 1024).

(** A network that answers after 800ms with status 200 and the given body. *)
Definition answers (body : value) : Net.t :=
  Net.mk (Some 800%N) (Net.Fulfilled (Net.mkResponse 200 "OK" (Some (Ok body)))).

(** The same answer, two minutes after the request. *)
Definition answers_late (body : value) : Net.t :=
  Net.mk (Some 120000%N) (Net.Fulfilled (Net.mkResponse 200 "OK" (Some (Ok body)))).

(** A connection failure, as Chromium reports it. *)
Definition unreachable : Net.t :=
  Net.mk (Some 40%N) (Net.Rejected (TypeError "Failed to fetch")).

(** An adult response that nevertheless carries autism data. *)
Definition adult_with_autism_data : value :=
  Obj [("status", Str "adult_invalid");
       ("message", Str "Adult detected");
       ("age_check_summary",
        Obj [("annotated_image_url", Str "/static/age.png");
             ("kids_count", Num 0); ("adults_count", Num 2)]);
       ("annotated_image_url", Str "/static/age.png");
       ("autism_prediction_data",
        Obj [("annotated_image_path", Str "/static/autism.png");
             ("results",
              Arr [Obj [("region", Str "eyes"); ("label", Str "typical");
                        ("confidence", Num 82)];
                   Obj [("final_decision", Str "Non-Autistic")]])])].

(** A child response whose image path is a number. *)
Definition child_with_numeric_path : value :=
  Obj [("status", Str "child_autism_screened");
       ("autism_prediction_data", Obj [("annotated_image_path", Num 5)])].

(** A child response with one region entry and a verdict. *)
Definition child_screened : value :=
  Obj [("status", Str "child_autism_screened");
       ("autism_prediction_data",
        Obj [("results",
              Arr [Obj [("region", Str "eyes"); ("label", Str "typical");
                        ("confidence", Num 82)];
                   Obj [("final_decision", Str "Non-Autistic")]])]);
       ("age_check_summary",
        Obj [("kids_count", Num 1); ("adults_count", Num 0)])].

(** A child response whose results hold a [null] after the verdict. *)
Definition child_with_null_entry : value :=
  Obj [("status", Str "child_autism_screened");
       ("autism_prediction_data",
        Obj [("results", Arr [Obj [("final_decision", Str "Non-Autistic")]; Null])])].

End Sample.

(** ** The health check of [src/utils/api.js] *)

Module Health.

Section WithConfig.
Variable config : Config.
(** [config.ENDPOINTS.HEALTH]. *)
Variable ENDPOINTS_HEALTH : string.

(** [checkApiHealth]: the request made and the value the promise resolves
    to, [None] when it stays pending.  The [timeout] entry of the options
    is not an option of [fetch] and has no effect; the body is not read. *)
Definition checkApiHealth (net : Net.t) : list Net.effect * option bool :=
  ([Net.Fetch (API_BASE_URL config ++ ENDPOINTS_HEALTH) false],
   match Net.settles_at net with
   | None => None
   | Some _ =>
       match Net.outcome net with
       | Net.Fulfilled r => Some (Net.ok r)
       | Net.Rejected _ => Some false
       end
   end).

End WithConfig.
End Health.

(** ** Invariants of the two screens *)

Module Handles.

(** Bookkeeping of the Material-UI screen: identifiers not handed out yet
    have never been released, the preview slot holds a handed-out URL that
    has not been released, no URL has been released twice, and the preview
    slot is empty while no image is selected. *)
Definition mui_ok (w : Mui.World) : Prop :=
  (forall id, (Url.next (Mui.urls w) <= id)%nat -> Url.releases id (Mui.urls w) = 0%nat) /\
  (forall id, Mui.previewUrl (Mui.ui w) = Some (Url.Blob id) ->
              (id < Url.next (Mui.urls w))%nat /\ Url.releases id (Mui.urls w) = 0%nat) /\
  (forall id, (Url.releases id (Mui.urls w) <= 1)%nat) /\
  (Mui.selectedImage (Mui.ui w) = None -> Mui.previewUrl (Mui.ui w) = None).

(** A handle that exists and is not the preview on display. *)
Definition replaced (id : nat) (w : Mui.World) : Prop :=
  (id < Url.next (Mui.urls w))%nat /\ Mui.previewUrl (Mui.ui w) <> Some (Url.Blob id).

(** Bookkeeping of the plain screen: the selected file passed validation,
    and it has a preview, a handed-out object URL, exactly when it is
    there. *)
Definition plain_ok (w : Plain.World) : Prop :=
  (forall f, Plain.selectedFile (Plain.ui w) = Some f ->
             prefix "image/" (File.type f) = true /\
             (File.size f <= 10 * 1024 * 1024)%Z) /\
  (Plain.selectedFile (Plain.ui w) = None <-> Plain.previewUrl (Plain.ui w) = None) /\
  (forall u, Plain.previewUrl (Plain.ui w) = Some u ->
             exists id, u = Url.Blob id /\ (id < Url.next (Plain.urls w))%nat).

(** A submission is in flight. *)
Definition pending {A} (inflight : option A) : bool :=
  match inflight with Some _ => true | None => false end.

End Handles.

(** ** More sample data *)

Module Cases.
Import Js.

(** A 2xx answer whose body never finishes arriving. *)
Definition stalled_body : Net.t :=
  Net.mk (Some 300%N) (Net.Fulfilled (Net.mkResponse 200 "OK" None)).

(** An answer with the given status and no usable body. *)
Definition status_only (status : nat) (text : string) : Net.t :=
  Net.mk (Some 300%N)
         (Net.Fulfilled (Net.mkResponse status text
                           (Some (Throw (mkError "SyntaxError" "Unexpected end of JSON input"))))).

(** A network that never answers. *)
Definition silent : Net.t :=
  Net.mk None (Net.Rejected (TypeError "Failed to fetch")).

(** A connection failure, as Safari reports it. *)
Definition load_failed : Net.t :=
  Net.mk (Some 40%N) (Net.Rejected (TypeError "Load failed")).

(** An adult response with the age image at the top level only. *)
Definition adult_top_level_image : value :=
  Obj [("status", Str "adult_invalid");
       ("annotated_image_url", Str "/static/age.png");
       ("age_check_summary", Obj [("adults_count", Num 2); ("kids_count", Num 0)])].

(** An adult response with the age image inside the summary only. *)
Definition adult_nested_image : value :=
  Obj [("status", Str "adult_invalid");
       ("age_check_summary",
        Obj [("annotated_image_url", Str "/static/age.png");
             ("adults_count", Num 2); ("kids_count", Num 0)])].

(** A child response with results and an image path. *)
Definition child_with_image : value :=
  Obj [("status", Str "child_autism_screened");
       ("autism_prediction_data",
        Obj [("annotated_image_path", Str "/static/autism.png");
             ("results",
              Arr [Obj [("region", Str "eyes"); ("label", Str "typical");
                        ("confidence", Num 82)];
                   Obj [("final_decision", Str "Non-Autistic")]])])].

End Cases.

(** ** Assertions on handler bodies *)

Module Triple.

(** From a state satisfying [P], the body [a] either returns [x] in a state
    satisfying [Q x] or throws in a state satisfying [E]. *)
Definition holds {A} (P : Mui.State -> Prop) (a : Mui.action A)
           (Q : A -> Mui.State -> Prop) (E : Mui.State -> Prop) : Prop :=
  forall s, P s ->
            match a s with
            | (Js.Ok x, s') => Q x s'
            | (Js.Throw _, s') => E s'
            end.

(** The body keeps [P], however it ends. *)
Definition keeps {A} (P : Mui.State -> Prop) (a : Mui.action A) : Prop :=
  holds P a (fun _ => P) P.

(** Each analysis slot is empty unless its image slot is filled. *)
Definition analysis_needs_image (s : Mui.State) : Prop :=
  (Mui.ageAnnotatedImageUrl s = None -> Mui.ageAnalysis s = Js.Obj []) /\
  (Mui.autismAnnotatedImageUrl s = None -> Mui.autismAnalysis s = Js.Obj []).

End Triple.

(** ** What is on display *)

Module Display.

(** The Material-UI screen shows nothing of an earlier response: all four
    analysis slots, the backend message and the error are as at the
    start. *)
Definition mui_blank (s : Mui.State) : Prop :=
  Mui.ageAnnotatedImageUrl s = None /\
  Mui.autismAnnotatedImageUrl s = None /\
  Mui.ageAnalysis s = Js.Obj [] /\
  Mui.autismAnalysis s = Js.Obj [] /\
  Mui.backendMessage s = Js.Str "" /\
  Mui.error s = None.

End Display.

(** * Properties *)

(** ** Confidence bands *)



(** The boundary values 39.9, 40, 69.9 and 70. *)
Example confidence_band_boundaries :
  map Plain.getConfidenceClass [399 # 10; 40; 699 # 10; 70]%Q =
    ["confidence-low"; "confidence-medium"; "confidence-medium"; "confidence-high"] /\
  map Mui.getConfidenceColor [399 # 10; 40; 699 # 10; 70]%Q =
    ["#dc2626"; "#ca8a04"; "#ca8a04"; "#16a34a"].
Proof. split; reflexivity. Qed.

(** The component of the plain screen applied to a number uses the band of
    [getConfidenceClass]; for a property that is not a number it depends on
    the conversion. *)
Lemma ConfidenceLevel_of_number (host : Js.Host) (q : Q) :
  Plain.ConfidenceLevel host (Js.Num q) = Js.Ok (Plain.getConfidenceClass q).
Proof.
  unfold Plain.ConfidenceLevel, Plain.getConfidenceClass, Js.ge. cbn.
  destruct (Qle_bool 70 q); [reflexivity|].
  destruct (Qle_bool 40 q); reflexivity.
Qed.

Example ConfidenceLevel_of_other_values :
  Plain.ConfidenceLevel Sample.host (Js.Bool true) = Js.Ok "confidence-low" /\
  Plain.ConfidenceLevel Sample.host (Js.Obj [("toString", Js.Num 1)])
  = Js.Throw (Js.TypeError "Cannot convert object to primitive value") /\
  Mui.ConfidenceLevel (Js.Num 82) = Js.Ok "#16a34a" /\
  Mui.ConfidenceLevel (Js.Str "82") = Js.Throw (Js.TypeError "toFixed is not a function").
Proof. repeat split. Qed.

(** ** Image URLs *)

(** The address expression: a path that starts with 'http' is used
    unchanged, any other path is appended to the base origin (the
    configured one in the Material-UI screen, the written-out one in the
    plain screen). *)
Lemma resolveUrl_cases (base p : string) :
  (prefix "http" p = true ->
   Mui.resolveUrl base (Js.Str p) = Js.Ok p /\
   Plain.resolveUrl (Js.Str p) = Js.Ok p) /\
  (prefix "http" p = false ->
   Mui.resolveUrl base (Js.Str p) = Js.Ok (base ++ p) /\
   Plain.resolveUrl (Js.Str p) = Js.Ok (Plain.origin ++ p)) /\
  (forall alt src, p <> "" -> Plain.resolveUrl (Js.Str p) = Js.Ok src ->
   Plain.render_image (Js.Str p) alt = Js.Ok [View.Image src alt]).
Proof.
  unfold Mui.resolveUrl, Plain.resolveUrl, Plain.render_image; cbn.
  repeat split.
  - rewrite H; reflexivity.
  - rewrite H; reflexivity.
  - rewrite H; reflexivity.
  - rewrite H; reflexivity.
  - intros alt src Hp Hsrc.
    destruct (String.eqb_spec p ""); [contradiction|].
    cbn. unfold Plain.resolveUrl; cbn. now inversion Hsrc.
Qed.

Example resolveUrl_examples :
  (Mui.resolveUrl (API_BASE_URL Sample.config) (Js.Str "https://cdn.example/a.png")
     = Js.Ok "https://cdn.example/a.png" /\
   Plain.resolveUrl (Js.Str "https://cdn.example/a.png")
     = Js.Ok "https://cdn.example/a.png") /\
  (Mui.resolveUrl (API_BASE_URL Sample.config) (Js.Str "/static/a.png")
     = Js.Ok "https://age-api-zzc8.onrender.com/static/a.png" /\
   Plain.resolveUrl (Js.Str "/static/a.png")
     = Js.Ok "https://age-api-zzc8.onrender.com/static/a.png").
Proof.
  split.
  - apply (proj1 (resolveUrl_cases (API_BASE_URL Sample.config)
                    "https://cdn.example/a.png")).
    reflexivity.
  - apply (proj1 (proj2 (resolveUrl_cases (API_BASE_URL Sample.config)
                           "/static/a.png"))).
    reflexivity.
Qed.

(** The Material-UI screen stores the resolved address of the age image,
    here for the adult response answered in time. *)
Example age_image_url_stored :
  Mui.ageAnnotatedImageUrl
    (Mui.ui (Mui.run Sample.host Sample.config Sample.formatFileSize
               [Mui.ImageSelect (Some Sample.portrait);
                Mui.AnalyzeClick (Sample.answers Sample.adult_with_autism_data);
                Mui.Settle]))
  = Some "https://age-api-zzc8.onrender.com/static/age.png".
Proof. reflexivity. Qed.

(** ** File validation *)

(** C10: a file that fails both checks is reported as having the wrong
    type, in [utils/api.js] and in the plain screen alike, because the type
    is tested first. *)
Theorem wrong_type_reported_before_size
        (config : Config) (f : File.t) (s : Plain.State) :
  (UPLOAD_MAX_FILE_SIZE config < File.size f)%Z ->
  (10 * 1024 * 1024 < File.size f)%Z ->
  (existsb (String.eqb (File.type f)) (UPLOAD_ALLOWED_TYPES config) = false ->
   Api.validateFile config (Some f)
     = Js.Throw (Js.Error (ERRORS_INVALID_FILE_TYPE config))) /\
  (prefix "image/" (File.type f) = false ->
   Plain.validateFile (Some f) s
     = (false, Plain.setError
                 (Some "Invalid file type. Please select an image file.") s)).
Proof.
  intros _ _. unfold Api.validateFile, Plain.validateFile. split; intros ->; reflexivity.
Qed.

Lemma wrong_type_reported_before_size_witness :
  Api.validateFile Sample.config (Some Sample.notes)
    = Js.Throw (Js.Error (ERRORS_INVALID_FILE_TYPE Sample.config)) /\
  Plain.validateFile (Some Sample.notes) Plain.initial
    = (false, Plain.setError
                (Some "Invalid file type. Please select an image file.") Plain.initial).
Proof.
  destruct (wrong_type_reported_before_size Sample.config Sample.notes Plain.initial)
    as [Hapi Hplain]; [reflexivity | reflexivity |].
  split; [apply Hapi | apply Hplain]; reflexivity.
Defined.

(** ** The parsed body of a successful response *)

Section ParsedBody.
Variable host : Js.Host.
Variable config : Config.

(** What [analyzeImage] does with the body of a 2xx response that arrived in
    time. *)
Lemma analyzeImage_on_body (f : File.t) (net : Net.t) (r : Net.Response) (data : Js.value) :
  Api.validateFile config (Some f) = Js.Ok true ->
  Api.timer_first config net = false ->
  Net.outcome net = Net.Fulfilled r ->
  Net.ok r = true ->
  Net.json r = Some (Js.Ok data) ->
  snd (Api.analyzeImage host config (Some f) net)
  = Some (Js.try_catch (Api.check_body host data) (Api.analyzeImage_catch config)).
Proof.
  intros Hv Ht Ho Hok Hj.
  unfold Api.analyzeImage, Api.analyzeImage_try.
  rewrite Hv, Ht, Ho. unfold Api.check_status. rewrite Hok, Hj. reflexivity.
Qed.

Lemma catch_rethrows_plain_errors (msg : string) :
  Api.analyzeImage_catch config (Js.Error msg) = Js.Throw (Js.Error msg).
Proof. reflexivity. Qed.

(** The only exception of [ToString] is the [TypeError] of the engine. *)
Lemma ToString_throws :
  forall (v : Js.value) (e : Js.error),
    Js.ToString host v = Js.Throw e ->
    e = Js.TypeError (Js.no_primitive_message host).
Proof.
  fix IH 1. intros [| |b|q|s|items|props] e; cbn [Js.ToString].
  - discriminate.
  - discriminate.
  - destruct b; discriminate.
  - discriminate.
  - discriminate.
  - induction items as [|x rest IHrest]; [discriminate|].
    destruct (Js.nullish x).
    + destruct rest as [|y rest']; [discriminate|].
      destruct ((fix join (l : list Js.value) : Js.result string :=
                   match l with
                   | [] => Js.Ok ""
                   | x0 :: rest0 =>
                       match (if Js.nullish x0 then Js.Ok "" else Js.ToString host x0) with
                       | Js.Throw e0 => Js.Throw e0
                       | Js.Ok first =>
                           match rest0 with
                           | [] => Js.Ok first
                           | _ :: _ =>
                               match join rest0 with
                               | Js.Throw e0 => Js.Throw e0
                               | Js.Ok others => Js.Ok (first ++ "," ++ others)
                               end
                           end
                       end
                   end) (y :: rest')) eqn:E; [discriminate|].
      intros [= <-]. now apply IHrest.
    + destruct (Js.ToString host x) eqn:Ex.
      * destruct rest as [|y rest']; [discriminate|].
        destruct ((fix join (l : list Js.value) : Js.result string :=
                     match l with
                     | [] => Js.Ok ""
                     | x0 :: rest0 =>
                         match (if Js.nullish x0 then Js.Ok "" else Js.ToString host x0) with
                         | Js.Throw e0 => Js.Throw e0
                         | Js.Ok first =>
                             match rest0 with
                             | [] => Js.Ok first
                             | _ :: _ =>
                                 match join rest0 with
                                 | Js.Throw e0 => Js.Throw e0
                                 | Js.Ok others => Js.Ok (first ++ "," ++ others)
                                 end
                             end
                         end
                     end) (y :: rest')) eqn:E; [discriminate|].
        intros [= <-]. now apply IHrest.
      * intros [= <-]. now apply (IH x).
  - destruct (Js.has_own "toString" props); [|discriminate].
    now intros [= <-].
Qed.

(** C3, as the code has it: after a 2xx response that arrived in time,
    [analyzeImage] fails with 'Invalid response format from server' when the
    parsed body is null, a boolean, a number or a string.  When the body is
    an object whose error field is truthy it fails as well: with the error
    field converted to a string as its message (for a non-empty string,
    that very string) or, when the conversion itself throws, with what the
    [catch] block makes of that [TypeError].  An array, and an object whose
    error field is missing or falsy, is returned.  The plain screen's own
    submission makes the first test only. *)
Theorem parsed_body_checks (f : File.t) (net : Net.t) (r : Net.Response) (data : Js.value) :
  Api.validateFile config (Some f) = Js.Ok true ->
  Api.timer_first config net = false ->
  Net.outcome net = Net.Fulfilled r ->
  Net.ok r = true ->
  Net.json r = Some (Js.Ok data) ->
  match data with
  | Js.Obj props =>
      if Js.truthy (Js.lookup "error" props)
      then (exists e, snd (Api.analyzeImage host config (Some f) net)
                      = Some (Js.Throw e)) /\
           (forall msg,
               Js.ToString host (Js.lookup "error" props) = Js.Ok msg ->
               snd (Api.analyzeImage host config (Some f) net)
               = Some (Js.Throw (Js.Error msg))) /\
           (forall e,
               Js.ToString host (Js.lookup "error" props) = Js.Throw e ->
               Js.name e = "TypeError" /\
               snd (Api.analyzeImage host config (Some f) net)
               = Some (Api.analyzeImage_catch config e))
      else snd (Api.analyzeImage host config (Some f) net) = Some (Js.Ok data)
  | Js.Arr _ => snd (Api.analyzeImage host config (Some f) net) = Some (Js.Ok data)
  | _ => snd (Api.analyzeImage host config (Some f) net)
         = Some (Js.Throw (Js.Error "Invalid response format from server"))
  end /\
  (forall props msg,
      data = Js.Obj props -> Js.lookup "error" props = Js.Str msg -> msg <> "" ->
      snd (Api.analyzeImage host config (Some f) net) = Some (Js.Throw (Js.Error msg))) /\
  snd (Plain.handleAnalyze_try net)
  = Some match data with
         | Js.Obj _ | Js.Arr _ => Js.Ok data
         | _ => Js.Throw (Js.Error "Unexpected result format")
         end.
Proof.
  intros Hv Ht Ho Hok Hj.
  rewrite (analyzeImage_on_body f net r data Hv Ht Ho Hok Hj).
  apply conj; [|apply conj].
  - unfold Api.check_body.
    destruct data as [| |b|q|s|items|props]; cbn; try reflexivity.
    + destruct b; reflexivity.
    + destruct (Qeq_bool q 0); reflexivity.
    + destruct (s =? ""); reflexivity.
    + destruct (Js.truthy (Js.lookup "error" props)); [|reflexivity].
      unfold Js.Error_of.
      destruct (Js.ToString host (Js.lookup "error" props)) as [msg|e] eqn:E; cbn.
      * apply conj; [|apply conj].
        -- now exists (Js.Error msg).
        -- now intros msg' [= <-].
        -- discriminate.
      * pose proof (ToString_throws _ _ E) as ->.
        apply conj; [|apply conj].
        -- unfold Api.analyzeImage_catch; cbn.
           destruct (Js.includes (Js.no_primitive_message host) "fetch"); eauto.
        -- discriminate.
        -- intros e [= <-]. split; reflexivity.
  - intros props msg -> Herr Hmsg. f_equal.
    unfold Api.check_body; cbn. rewrite Herr; cbn.
    destruct (String.eqb_spec msg ""); [contradiction | reflexivity].
  - unfold Plain.handleAnalyze_try; cbn.
    unfold Api.timer_first in Ht.
    destruct (Net.settles_at net); [|discriminate].
    rewrite Ho, Hok, Hj; cbn.
    destruct data as [| |b|q|s|items|props]; cbn; try reflexivity.
    + destruct b; reflexivity.
    + destruct (Qeq_bool q 0); reflexivity.
    + destruct (s =? ""); reflexivity.
Qed.

End ParsedBody.

Lemma parsed_body_checks_witness :
  snd (Api.analyzeImage Sample.host Sample.config (Some Sample.photo)
         (Sample.answers (Js.Obj [("error", Js.Str "Model not loaded")])))
  = Some (Js.Throw (Js.Error "Model not loaded")).
Proof.
  refine (proj1 (proj2 (parsed_body_checks Sample.host Sample.config Sample.photo
                          (Sample.answers (Js.Obj [("error", Js.Str "Model not loaded")]))
                          (Net.mkResponse 200 "OK"
                             (Some (Js.Ok (Js.Obj [("error", Js.Str "Model not loaded")]))))
                          (Js.Obj [("error", Js.Str "Model not loaded")])
                          eq_refl eq_refl eq_refl eq_refl eq_refl))
                _ "Model not loaded" eq_refl eq_refl _).
  discriminate.
Defined.

(** C3 as stated fails: an array is not a JSON object, yet [analyzeImage]
    returns it; an error field holding the empty string does not make it
    fail; and the plain screen accepts a body with an error field. *)
Lemma non_object_body_accepted :
  snd (Api.analyzeImage Sample.host Sample.config (Some Sample.photo)
         (Sample.answers (Js.Arr [])))
  = Some (Js.Ok (Js.Arr [])) /\
  snd (Api.analyzeImage Sample.host Sample.config (Some Sample.photo)
         (Sample.answers (Js.Obj [("error", Js.Str "")])))
  = Some (Js.Ok (Js.Obj [("error", Js.Str "")])) /\
  snd (Plain.handleAnalyze_try
         (Sample.answers (Js.Obj [("error", Js.Str "Model not loaded")])))
  = Some (Js.Ok (Js.Obj [("error", Js.Str "Model not loaded")])).
Proof. repeat split. Qed.

(** An error field that cannot be made a string: [new Error] throws the
    [TypeError] of the engine, which the [catch] block passes on.  This
    happens for an object with a property named [toString], also inside an
    array; any other object gives the text "[object Object]". *)
Example unconvertible_error_field :
  snd (Api.analyzeImage Sample.host Sample.config (Some Sample.photo)
         (Sample.answers (Js.Obj [("error", Js.Obj [("toString", Js.Num 1)])])))
  = Some (Js.Throw (Js.TypeError "Cannot convert object to primitive value")) /\
  snd (Api.analyzeImage Sample.host Sample.config (Some Sample.photo)
         (Sample.answers
            (Js.Obj [("error", Js.Arr [Js.Num 1; Js.Null;
                                       Js.Obj [("toString", Js.Null)]])])))
  = Some (Js.Throw (Js.TypeError "Cannot convert object to primitive value")) /\
  snd (Api.analyzeImage Sample.host Sample.config (Some Sample.photo)
         (Sample.answers (Js.Obj [("error", Js.Obj [("code", Js.Num 7)])])))
  = Some (Js.Throw (Js.Error "[object Object]")) /\
  snd (Api.analyzeImage Sample.host Sample.config (Some Sample.photo)
         (Sample.answers (Js.Obj [("error", Js.Arr [Js.Num 1; Js.Null; Js.Str "x"])])))
  = Some (Js.Throw (Js.Error "1,,x")).
Proof. repeat split. Qed.

(** ** The timeout and the number of requests *)

Arguments Net.fetches : simpl never.

Lemma fetches_app (a b : list Net.effect) :
  Net.fetches (a ++ b) = (Net.fetches a + Net.fetches b)%nat.
Proof. unfold Net.fetches. now rewrite filter_app, length_app. Qed.

Section Requests.
Variable host : Js.Host.
Variable config : Config.
Variable formatFileSize : Z -> string.

(** One call of [analyzeImage] issues at most one request. *)
Lemma analyzeImage_fetches_once (file : option File.t) (net : Net.t) :
  (Net.fetches (fst (Api.analyzeImage host config file net)) <= 1)%nat.
Proof.
  unfold Api.analyzeImage, Api.analyzeImage_try.
  destruct (Api.validateFile config file); [|cbv; lia].
  destruct (Api.timer_first config net); [cbv; lia|].
  destruct (Net.outcome net); cbv; lia.
Qed.

Lemma mui_step_fetches (w : Mui.World) (e : Mui.event) :
  (Net.fetches (Mui.traffic (Mui.step host config formatFileSize w e))
   <= Net.fetches (Mui.traffic w) + Mui.clicks [e])%nat.
Proof.
  destruct e; cbn; try lia.
  - destruct file; cbn; lia.
  - destruct (Mui.isProcessing (Mui.ui w)); [lia|].
    unfold Mui.handleAnalyze_begin.
    destruct (Mui.selectedImage (Mui.ui w)) as [f|]; [|lia].
    pose proof (analyzeImage_fetches_once (Some f) net) as H.
    destruct (Api.analyzeImage host config (Some f) net) as [tr r]; cbn in *.
    rewrite fetches_app. lia.
  - destruct (Mui.inflight w) as [[r|]|]; cbn; lia.
  - destruct (Mui.isProcessing (Mui.ui w)); cbn; [lia|].
    destruct (Mui.previewUrl (Mui.ui w)) as [u|]; cbn; lia.
Qed.

Lemma mui_run_fetches (events : list Mui.event) (w : Mui.World) :
  (Net.fetches (Mui.traffic (fold_left (Mui.step host config formatFileSize) events w))
   <= Net.fetches (Mui.traffic w) + Mui.clicks events)%nat.
Proof.
  revert w. induction events as [|e events IH]; intro w; cbn [fold_left].
  - cbn. lia.
  - specialize (IH (Mui.step host config formatFileSize w e)).
    pose proof (mui_step_fetches w e) as Hs.
    change (e :: events) with ([e] ++ events)%list.
    unfold Mui.clicks in *. rewrite filter_app, length_app. lia.
Qed.

Lemma plain_step_fetches (w : Plain.World) (e : Plain.event) :
  (Net.fetches (Plain.traffic (Plain.step w e))
   <= Net.fetches (Plain.traffic w) + Plain.clicks [e])%nat.
Proof.
  destruct e; unfold Plain.step.
  - destruct (Plain.handleFileInputChange file (Plain.ui w, Plain.urls w)); cbn; lia.
  - cbn; lia.
  - cbn; lia.
  - destruct (Plain.handleDrop files (Plain.ui w, Plain.urls w)); cbn; lia.
  - destruct (Plain.isLoading (Plain.ui w)); [cbn; lia|].
    destruct (Plain.selectedFile (Plain.ui w)); [|cbn; lia].
    cbn. rewrite fetches_app.
    match goal with
    | |- context [Net.fetches [?x]] => change (Net.fetches [x]) with 1%nat
    end.
    lia.
  - destruct (Plain.inflight w) as [[r|]|]; cbn; lia.
  - destruct (Plain.isLoading (Plain.ui w)); cbn; lia.
  - cbn; lia.
Qed.

Lemma plain_run_fetches (events : list Plain.event) (w : Plain.World) :
  (Net.fetches (Plain.traffic (fold_left Plain.step events w))
   <= Net.fetches (Plain.traffic w) + Plain.clicks events)%nat.
Proof.
  revert w. induction events as [|e events IH]; intro w; cbn [fold_left].
  - cbn. lia.
  - specialize (IH (Plain.step w e)).
    pose proof (plain_step_fetches w e) as Hs.
    change (e :: events) with ([e] ++ events)%list.
    unfold Plain.clicks in *. rewrite filter_app, length_app. lia.
Qed.

(** C4, as the code has it.  A submission through [analyzeImage] sets a
    timer of [LOADING_TIMEOUT] milliseconds; when the timer fires before
    the request settles, the request is aborted in flight and the call
    fails with 'Request timed out. Please try again.'; a connection failure
    that arrives in time fails with the configured network message instead
    and aborts nothing in flight.  The plain screen's own request sets no
    timer and passes no signal.  On both screens no more requests are sent
    than Analyze was clicked. *)
Theorem timeout_and_single_request :
  (forall f net,
      Api.validateFile config (Some f) = Js.Ok true ->
      Api.timer_first config net = true ->
      Api.analyzeImage host config (Some f) net
      = ([Net.SetTimeout (UI_LOADING_TIMEOUT config);
          Net.Fetch (API_BASE_URL config ++ ENDPOINTS_ANALYZE config) true;
          Net.TimerFired true],
         Some (Js.Throw (Js.Error "Request timed out. Please try again.")))) /\
  (forall f net e,
      Api.validateFile config (Some f) = Js.Ok true ->
      Api.timer_first config net = false ->
      Net.outcome net = Net.Rejected e ->
      Js.name e = "TypeError" ->
      Js.includes (Js.message e) "fetch" = true ->
      Api.analyzeImage host config (Some f) net
      = ([Net.SetTimeout (UI_LOADING_TIMEOUT config);
          Net.Fetch (API_BASE_URL config ++ ENDPOINTS_ANALYZE config) true;
          Net.TimerFired false],
         Some (Js.Throw (Js.Error (ERRORS_NETWORK_ERROR config))))) /\
  (forall net, fst (Plain.handleAnalyze_try net)
               = [Net.Fetch (Plain.origin ++ "/process") false]) /\
  (forall events,
      (Net.fetches (Mui.traffic (Mui.run host config formatFileSize events))
       <= Mui.clicks events)%nat) /\
  (forall events,
      (Net.fetches (Plain.traffic (Plain.run events)) <= Plain.clicks events)%nat).
Proof.
  repeat split.
  - intros f net Hv Ht.
    unfold Api.analyzeImage, Api.analyzeImage_try. rewrite Hv, Ht. reflexivity.
  - intros f net e Hv Ht Ho Hname Hmsg.
    unfold Api.analyzeImage, Api.analyzeImage_try. rewrite Hv, Ht, Ho. cbn.
    unfold Api.analyzeImage_catch. rewrite Hname, Hmsg. reflexivity.
  - intro events. apply (mui_run_fetches events Mui.start).
  - intro events. apply (plain_run_fetches events Plain.start).
Qed.

End Requests.

Lemma timeout_and_single_request_witness :
  Api.analyzeImage Sample.host Sample.config (Some Sample.photo)
    (Sample.answers_late Sample.adult_with_autism_data)
  = ([Net.SetTimeout 30000;
      Net.Fetch "https://age-api-zzc8.onrender.com/process" true;
      Net.TimerFired true],
     Some (Js.Throw (Js.Error "Request timed out. Please try again."))) /\
  Api.analyzeImage Sample.host Sample.config (Some Sample.photo) Sample.unreachable
  = ([Net.SetTimeout 30000;
      Net.Fetch "https://age-api-zzc8.onrender.com/process" true;
      Net.TimerFired false],
     Some (Js.Throw (Js.Error "Network error. Please check your connection."))).
Proof.
  pose proof (timeout_and_single_request Sample.host Sample.config Sample.formatFileSize)
    as [Htimeout [Hnetwork _]].
  split.
  - apply (Htimeout Sample.photo (Sample.answers_late Sample.adult_with_autism_data));
      reflexivity.
  - apply (Hnetwork Sample.photo Sample.unreachable (Js.TypeError "Failed to fetch"));
      reflexivity.
Defined.

(** A submission that times out on the Material-UI screen: the message is
    shown and the Analyze button is enabled again. *)
Example timeout_shown_and_button_enabled :
  let s := Mui.ui (Mui.run Sample.host Sample.config Sample.formatFileSize
                     [Mui.ImageSelect (Some Sample.photo);
                      Mui.AnalyzeClick (Sample.answers_late Sample.child_screened);
                      Mui.Settle]) in
  Mui.error s = Some "Request timed out. Please try again." /\
  Mui.isProcessing s = false /\
  Mui.selectedImage s = Some Sample.photo.
Proof. repeat split. Qed.

(** C4 as stated fails on the plain screen: an answer that arrives two
    minutes after the request, long after the deadline that [analyzeImage]
    would apply, is awaited and accepted; nothing is aborted. *)
Lemma plain_screen_has_no_timeout :
  Api.timer_first Sample.config (Sample.answers_late Sample.adult_with_autism_data) = true /\
  Plain.handleAnalyze_try (Sample.answers_late Sample.adult_with_autism_data)
  = ([Net.Fetch "https://age-api-zzc8.onrender.com/process" false],
     Some (Js.Ok Sample.adult_with_autism_data)) /\
  Net.aborts_in_flight
    (fst (Plain.handleAnalyze_try (Sample.answers_late Sample.adult_with_autism_data))) = 0%nat.
Proof. repeat split. Qed.

(** ** Validation and acceptance of a file *)

Section Validation.
Variable host : Js.Host.
Variable config : Config.
Variable formatFileSize : Z -> string.

(** C6, as the code has it.  On the plain screen a file is validated before
    it is accepted: a type that does not start with 'image/' and a size
    above 10MB are refused with two different messages, and a refused file
    leaves the selected file, its preview and the object URLs as they were.
    On the Material-UI screen any file becomes the selected image at once;
    it is validated when it is submitted, where [analyzeImage] refuses a
    type outside the allowed list and a size above the configured maximum
    with the two configured messages before any network effect, and the
    failure leaves the selected image in place. *)
Theorem validation_and_acceptance :
  (forall file s st,
      fst (Plain.validateFile file (Plain.setResult Js.Null (Plain.setError None s))) = false ->
      Plain.selectedFile (fst (Plain.handleFileSelect file (s, st))) = Plain.selectedFile s /\
      Plain.previewUrl (fst (Plain.handleFileSelect file (s, st))) = Plain.previewUrl s /\
      snd (Plain.handleFileSelect file (s, st)) = st) /\
  (forall f s st,
      prefix "image/" (File.type f) = false ->
      Plain.error (fst (Plain.handleFileSelect (Some f) (s, st)))
      = Some "Invalid file type. Please select an image file.") /\
  (forall f s st,
      prefix "image/" (File.type f) = true ->
      (10 * 1024 * 1024 < File.size f)%Z ->
      Plain.error (fst (Plain.handleFileSelect (Some f) (s, st)))
      = Some "File too large. Please select an image smaller than 10MB.") /\
  (forall f w,
      Mui.selectedImage (fst (Mui.handleImageSelect formatFileSize (Some f) w)) = Some f) /\
  (forall f net,
      existsb (String.eqb (File.type f)) (UPLOAD_ALLOWED_TYPES config) = false ->
      Api.analyzeImage host config (Some f) net
      = ([], Some (Js.Throw (Js.Error (ERRORS_INVALID_FILE_TYPE config))))) /\
  (forall f net,
      existsb (String.eqb (File.type f)) (UPLOAD_ALLOWED_TYPES config) = true ->
      (UPLOAD_MAX_FILE_SIZE config < File.size f)%Z ->
      Api.analyzeImage host config (Some f) net
      = ([], Some (Js.Throw (Js.Error (ERRORS_FILE_TOO_LARGE config))))) /\
  (forall e s,
      Mui.selectedImage (Mui.handleAnalyze_resume config (Js.Throw e) s)
      = Mui.selectedImage s /\
      Mui.error (Mui.handleAnalyze_resume config (Js.Throw e) s) = Some (Js.message e)).
Proof.
  repeat apply conj.
  - intros file s st H. unfold Plain.handleFileSelect.
    destruct (Plain.validateFile file _) as [valid s'] eqn:E; cbn in H. subst valid. cbn.
    unfold Plain.validateFile in E.
    destruct file as [f|]; [|now inversion E].
    destruct (negb (prefix "image/" (File.type f))); [now inversion E|].
    destruct (10 * 1024 * 1024 <? File.size f)%Z; now inversion E.
  - intros f s st Htype.
    unfold Plain.handleFileSelect, Plain.validateFile. rewrite Htype. reflexivity.
  - intros f s st Htype Hsize.
    unfold Plain.handleFileSelect, Plain.validateFile. rewrite Htype.
    apply Z.ltb_lt in Hsize. cbn [negb]. rewrite Hsize. reflexivity.
  - intros f [s st]. reflexivity.
  - intros f net Htype.
    unfold Api.analyzeImage, Api.analyzeImage_try, Api.validateFile.
    rewrite Htype. reflexivity.
  - intros f net Htype Hsize.
    unfold Api.analyzeImage, Api.analyzeImage_try, Api.validateFile.
    apply Z.ltb_lt in Hsize. rewrite Htype, Hsize. reflexivity.
  - intros e s. split; reflexivity.
Qed.

End Validation.

Lemma validation_and_acceptance_witness :
  Plain.error (fst (Plain.handleFileSelect (Some Sample.notes) (Plain.initial, Url.empty)))
  = Some "Invalid file type. Please select an image file." /\
  Plain.error (fst (Plain.handleFileSelect (Some Sample.poster) (Plain.initial, Url.empty)))
  = Some "File too large. Please select an image smaller than 10MB." /\
  Api.analyzeImage Sample.host Sample.config (Some Sample.poster)
    (Sample.answers Sample.adult_with_autism_data)
  = ([], Some (Js.Throw (Js.Error "File size exceeds the 10MB limit."))).
Proof.
  pose proof (validation_and_acceptance Sample.host Sample.config Sample.formatFileSize)
    as [_ [Htype [Hsize [_ [_ [Hlarge _]]]]]].
  split; [|split].
  - apply Htype. reflexivity.
  - apply Hsize; reflexivity.
  - apply (Hlarge Sample.poster); reflexivity.
Defined.

(** C6 as stated fails on the Material-UI screen: selecting the 15MB text
    file after a photograph makes the text file the selected image, although
    [validateFile] refuses it. *)
Lemma invalid_file_becomes_selected :
  Mui.selectedImage
    (Mui.ui (Mui.run Sample.host Sample.config Sample.formatFileSize
               [Mui.ImageSelect (Some Sample.photo); Mui.ImageSelect (Some Sample.notes)]))
  = Some Sample.notes /\
  Api.validateFile Sample.config (Some Sample.notes)
  = Js.Throw (Js.Error "Please upload a valid image file.").
Proof. split; reflexivity. Qed.

(** ** What the result renderer shows when the response is unusable *)

(** The notices of [renderResults] itself.  For a response whose status is
    neither 'child_autism_screened' nor 'adult_invalid' it returns the
    notice 'Unexpected result format. Please try again.'; when building the
    elements throws, the exception is caught and the notice is 'Error
    displaying results. Please try again.'. *)
Lemma renderResults_notices (s : Plain.State) :
  Plain.isLoading s = false ->
  Js.truthy (Plain.result s) = true ->
  (forall status,
      Js.get (Plain.result s) "status" = Js.Ok status ->
      Js.is_string status "child_autism_screened" = false ->
      Js.is_string status "adult_invalid" = false ->
      Plain.renderResults s
      = [View.Notice "" "Unexpected result format. Please try again."]) /\
  (forall e,
      Plain.renderResults_try (Plain.result s) = Js.Throw e ->
      Plain.renderResults s
      = [View.Notice "" "Error displaying results. Please try again."]) /\
  (forall out,
      Plain.renderResults_try (Plain.result s) = Js.Ok out ->
      Plain.renderResults s = out).
Proof.
  intros Hload Hres. unfold Plain.renderResults. rewrite Hload, Hres. cbn [negb].
  repeat apply conj.
  - intros status Hst Hchild Hadult.
    unfold Plain.renderResults_try. rewrite Hst. cbn [Js.bind].
    rewrite Hchild, Hadult. reflexivity.
  - intros e ->. reflexivity.
  - intros out ->. reflexivity.
Qed.

Example unknown_status_notice :
  Plain.renderResults
    (Plain.setResult (Js.Obj [("status", Js.Str "processing")]) Plain.initial)
  = [View.Notice "" "Unexpected result format. Please try again."].
Proof. reflexivity. Qed.

(** An exception inside the [try] is caught, with a notice of its own: for
    a child response whose image path is the number 5, [startsWith] is not
    a function. *)
Example render_failure_shows_other_notice :
  Plain.renderResults_try Sample.child_with_numeric_path
  = Js.Throw (Js.TypeError "startsWith is not a function") /\
  Plain.renderResults (Plain.setResult Sample.child_with_numeric_path Plain.initial)
  = [View.Notice "" "Error displaying results. Please try again."].
Proof. split; reflexivity. Qed.

(** The child response with one region: the plain screen creates the table,
    the verdict and the age summary; the table has one row, in the high
    band. *)
Example child_response_rendered :
  Plain.renderResults (Plain.setResult Sample.child_screened Plain.initial)
  = [View.PredictionTable
       (Js.Arr [Js.Obj [("region", Js.Str "eyes"); ("label", Js.Str "typical");
                        ("confidence", Js.Num 82)];
                Js.Obj [("final_decision", Js.Str "Non-Autistic")]]);
     View.FinalDecision "final-decision autistic" (Js.Str "Non-Autistic");
     View.AgeSummary (Js.Obj [("kids_count", Js.Num 1); ("adults_count", Js.Num 0)])] /\
  Plain.PredictionTable
    (Js.Arr [Js.Obj [("region", Js.Str "eyes"); ("label", Js.Str "typical");
                     ("confidence", Js.Num 82)];
             Js.Obj [("final_decision", Js.Str "Non-Autistic")]])
  = Js.Ok [View.RegionRow (Js.Str "eyes") (Js.Str "typical") (Js.Num 82)] /\
  Plain.getConfidenceClass 82 = "confidence-high" /\
  Plain.ResultsPanel Sample.host (Plain.setResult Sample.child_screened Plain.initial)
  = Js.Ok [View.ConfidenceRow (Js.Str "eyes") (Js.Str "typical") (Js.Num 82)
             "confidence-high";
           View.FinalDecision "final-decision autistic" (Js.Str "Non-Autistic")].
Proof. repeat split. Qed.

(** C7: the renderer does raise.  The [try] of [renderResults], which the
    source comments as the error boundary for unexpected data, covers the
    creation of the elements only.  For the child response whose results
    hold a [null] after the verdict, [renderResults] returns its elements
    normally; the [PredictionTable] component, which React calls after
    [renderResults] has returned, then throws while it filters the
    results, and nothing catches that exception: the panel shows no notice
    at all. *)
Theorem results_panel_raises_outside_try :
  Plain.renderResults (Plain.setResult Sample.child_with_null_entry Plain.initial)
  = [View.PredictionTable (Js.Arr [Js.Obj [("final_decision", Js.Str "Non-Autistic")];
                                   Js.Null]);
     View.FinalDecision "final-decision autistic" (Js.Str "Non-Autistic");
     View.AgeSummary Js.Undefined] /\
  Plain.PredictionTable (Js.Arr [Js.Obj [("final_decision", Js.Str "Non-Autistic")];
                                 Js.Null])
  = Js.Throw (Js.TypeError "Cannot read properties of null (reading 'region')") /\
  Plain.ResultsPanel Sample.host
    (Plain.setResult Sample.child_with_null_entry Plain.initial)
  = Js.Throw (Js.TypeError "Cannot read properties of null (reading 'region')").
Proof. repeat split. Qed.

(** ** Reset *)

(** C8: after any sequence of events, reset leaves no selected image, no
    preview, no analysis data or result and no error (the values these
    slots start with), and a second reset changes nothing more, neither in
    the state nor in the object URLs. *)
Theorem reset_clears_and_is_idempotent
        (host : Js.Host) (config : Config) (formatFileSize : Z -> string) :
  (forall events,
      let w := Mui.run host config formatFileSize events in
      let after := Mui.handleReset (Mui.ui w, Mui.urls w) in
      Mui.selectedImage (fst after) = None /\
      Mui.previewUrl (fst after) = None /\
      Mui.ageAnalysis (fst after) = Js.Obj [] /\
      Mui.autismAnalysis (fst after) = Js.Obj [] /\
      Mui.ageAnnotatedImageUrl (fst after) = None /\
      Mui.autismAnnotatedImageUrl (fst after) = None /\
      Mui.backendMessage (fst after) = Js.Str "" /\
      Mui.error (fst after) = None /\
      Mui.handleReset after = after) /\
  (forall events,
      let s := Plain.ui (Plain.run events) in
      Plain.selectedFile (Plain.handleReset s) = None /\
      Plain.previewUrl (Plain.handleReset s) = None /\
      Plain.result (Plain.handleReset s) = Js.Null /\
      Plain.error (Plain.handleReset s) = None /\
      Plain.handleReset (Plain.handleReset s) = Plain.handleReset s).
Proof.
  split; intro events; cbv zeta.
  - generalize (Mui.run host config formatFileSize events). intro w.
    unfold Mui.handleReset at 1 2 3 4 5 6 7 8. cbn.
    repeat (split; [reflexivity|]).
    destruct (Mui.previewUrl (Mui.ui w)) as [u|]; [|reflexivity].
    destruct (Url.truthy (Some u)); reflexivity.
  - generalize (Plain.ui (Plain.run events)). intro s.
    repeat split.
Qed.

(** Both screens start in the state that reset restores. *)
Example initial_state_is_empty :
  Mui.handleReset (Mui.initial, Url.empty) = (Mui.initial, Url.empty) /\
  Plain.handleReset Plain.initial = Plain.initial.
Proof. split; reflexivity. Qed.

(** ** Release of preview URLs *)

(** On the plain screen no object URL is ever released. *)
Lemma plain_never_revokes (events : list Plain.event) (w : Plain.World) (id : nat) :
  Url.releases id (Plain.urls (fold_left Plain.step events w))
  = Url.releases id (Plain.urls w).
Proof.
  revert w. induction events as [|e events IH]; intro w; [reflexivity|].
  cbn [fold_left]. rewrite IH. clear IH.
  destruct e; unfold Plain.step; try reflexivity.
  - unfold Plain.handleFileInputChange, Plain.handleFileSelect.
    destruct (Plain.validateFile file _) as [[|] s']; [|reflexivity].
    destruct file; [|reflexivity].
    cbn. unfold Url.releases; cbn. rewrite filter_app, length_app. cbn. lia.
  - unfold Plain.handleDrop, Plain.handleFileSelect.
    destruct files as [|f files]; [reflexivity|].
    destruct (Plain.validateFile (Some f) _) as [[|] s']; [|reflexivity].
    cbn. unfold Url.releases; cbn. rewrite filter_app, length_app. cbn. lia.
  - destruct (Plain.isLoading (Plain.ui w)); [reflexivity|].
    destruct (Plain.selectedFile (Plain.ui w)); reflexivity.
  - destruct (Plain.inflight w) as [[r|]|]; reflexivity.
  - destruct (Plain.isLoading (Plain.ui w)); reflexivity.
Qed.

(** C9 at the failing input.  On the Material-UI screen, selecting a
    photograph, selecting a second one and pressing Reset releases only the
    second preview URL: the first is never released.  On the plain screen
    the same three steps release nothing. *)
Lemma replaced_preview_is_leaked :
  Url.log (Mui.urls (Mui.run Sample.host Sample.config Sample.formatFileSize
                       [Mui.ImageSelect (Some Sample.photo);
                        Mui.ImageSelect (Some Sample.portrait);
                        Mui.ResetClick]))
  = [Url.Created 0; Url.Created 1; Url.Revoked (Url.Blob 1)] /\
  Url.releases 0 (Mui.urls (Mui.run Sample.host Sample.config Sample.formatFileSize
                              [Mui.ImageSelect (Some Sample.photo);
                               Mui.ImageSelect (Some Sample.portrait);
                               Mui.ResetClick])) = 0%nat /\
  Url.log (Plain.urls (Plain.run [Plain.FileInputChange (Some Sample.photo);
                                  Plain.FileInputChange (Some Sample.portrait);
                                  Plain.ResetClick]))
  = [Url.Created 0; Url.Created 1].
Proof. repeat split. Qed.

(** ** Adult responses *)

Lemma autism_free_all (out : list View.node) :
  forallb View.autism_free out = true -> View.no_autism_output out.
Proof.
  intros H n Hn. rewrite forallb_forall in H. specialize (H n Hn).
  unfold View.autism_free in H. apply andb_true_iff in H as [H1 H2].
  now rewrite negb_true_iff in H1, H2.
Qed.

Lemma no_autism_output_app (a b : list View.node) :
  View.no_autism_output a -> View.no_autism_output b -> View.no_autism_output (a ++ b).
Proof. intros Ha Hb n Hn. apply in_app_or in Hn as [Hn|Hn]; auto. Qed.

Lemma and_then_autism_free (v : Js.value) (element : list View.node) :
  View.no_autism_output element -> View.no_autism_output (View.and_then v element).
Proof.
  intro H. unfold View.and_then. destruct (Js.truthy v); [assumption|].
  destruct v; apply autism_free_all; reflexivity.
Qed.

Lemma keeps_pure {A} (a : A) : Mui.keeps_cleared (Mui.pure a).
Proof. intros s H. exact H. Qed.

Lemma keeps_lift {A} (r : Js.result A) : Mui.keeps_cleared (Mui.lift r).
Proof. intros s H. exact H. Qed.

Lemma keeps_set (f : Mui.State -> Mui.State) :
  (forall s, Mui.autism_cleared s -> Mui.autism_cleared (f s)) ->
  Mui.keeps_cleared (Mui.set f).
Proof. intros Hf s H. apply Hf, H. Qed.

Lemma keeps_bind {A B} (m : Mui.action A) (k : A -> Mui.action B) :
  Mui.keeps_cleared m -> (forall a, Mui.keeps_cleared (k a)) ->
  Mui.keeps_cleared (Mui.abind m k).
Proof.
  intros Hm Hk s H. unfold Mui.abind. specialize (Hm s H).
  destruct (m s) as [[a|e] s']; cbn in *; [apply Hk|]; assumption.
Qed.

Lemma keeps_bind_returned {A B} (a : A) (k : A -> Mui.action B) :
  Mui.keeps_cleared (k a) -> Mui.keeps_cleared (Mui.abind (Mui.lift (Js.Ok a)) k).
Proof. intros Hk s H. exact (Hk s H). Qed.

(** Setters of the other slots, and setters that clear an autism slot. *)
Ltac cleared_setter :=
  let s := fresh "s" in
  let H1 := fresh in
  let H2 := fresh in
  intros s [H1 H2]; split; cbn; assumption || reflexivity.

Ltac keeps_cleared_steps :=
  repeat first
    [ apply keeps_lift
    | apply keeps_pure
    | apply keeps_set; cleared_setter
    | match goal with
      | |- Mui.keeps_cleared (Mui.abind (Mui.lift (Js.Ok _)) _) =>
          apply keeps_bind_returned; cbn [Js.is_string String.eqb Ascii.eqb Bool.eqb]
      | |- Mui.keeps_cleared (Mui.abind _ _) => apply keeps_bind; [|intro]
      | |- Mui.keeps_cleared (if ?c then _ else _) => destruct c
      end ].

(** For an adult response the body of [handleAnalyze] never fills the
    autism slots, however far it gets. *)
Lemma body_keeps_cleared (config : Config) (res : Js.value) :
  Js.get res "status" = Js.Ok (Js.Str "adult_invalid") ->
  Mui.keeps_cleared (Mui.handleAnalyze_body config res).
Proof.
  intro Hst. unfold Mui.handleAnalyze_body. rewrite Hst.
  keeps_cleared_steps.
Qed.

Lemma resume_keeps_cleared (config : Config) (res : Js.value) (s : Mui.State) :
  Js.get res "status" = Js.Ok (Js.Str "adult_invalid") ->
  Mui.autism_cleared s ->
  Mui.autism_cleared (Mui.handleAnalyze_resume config (Js.Ok res) s).
Proof.
  intros Hst Hs.
  pose proof (keeps_bind_returned res (Mui.handleAnalyze_body config)
                (body_keeps_cleared config res Hst) s Hs) as Hbody.
  unfold Mui.handleAnalyze_resume, Mui.try_catch_finally.
  destruct (Mui.abind (Mui.lift (Js.Ok res)) _ s) as [[[]|e] s']; cbn in Hbody;
    destruct Hbody as [H1 H2]; split; cbn; assumption.
Qed.

Section MuiInvariant.
Variable host : Js.Host.
Variable config : Config.
Variable formatFileSize : Z -> string.

(** While a submission is in flight the autism slots are empty: starting
    one clears them, and nothing but its completion fills them. *)
Lemma step_inflight_cleared (w : Mui.World) (e : Mui.event) :
  (Mui.inflight w <> None -> Mui.autism_cleared (Mui.ui w)) ->
  Mui.inflight (Mui.step host config formatFileSize w e) <> None ->
  Mui.autism_cleared (Mui.ui (Mui.step host config formatFileSize w e)).
Proof.
  intros Hw. destruct e; unfold Mui.step.
  - destruct file as [f|]; cbn; [split; reflexivity | exact Hw].
  - cbn. split; reflexivity.
  - destruct (Mui.isProcessing (Mui.ui w)); [exact Hw|].
    unfold Mui.handleAnalyze_begin.
    destruct (Mui.selectedImage (Mui.ui w)) as [f|]; [|exact Hw].
    destruct (Api.analyzeImage host config (Some f) net) as [tr r]. cbn.
    split; reflexivity.
  - destruct (Mui.inflight w) as [[r|]|] eqn:E; cbn.
    + congruence.
    + rewrite E. exact Hw.
    + rewrite E. exact Hw.
  - destruct (Mui.isProcessing (Mui.ui w)); [exact Hw|].
    cbn. split; reflexivity.
  - cbn. exact Hw.
  - cbn. exact Hw.
Qed.

Lemma run_inflight_cleared (events : list Mui.event) (w : Mui.World) :
  (Mui.inflight w <> None -> Mui.autism_cleared (Mui.ui w)) ->
  Mui.inflight (fold_left (Mui.step host config formatFileSize) events w) <> None ->
  Mui.autism_cleared (Mui.ui (fold_left (Mui.step host config formatFileSize) events w)).
Proof.
  revert w. induction events as [|e events IH]; intros w Hw; cbn [fold_left].
  - exact Hw.
  - apply IH. apply step_inflight_cleared, Hw.
Qed.

(** With empty autism slots the autism card holds notices only. *)
Lemma cleared_card_shows_no_autism_output (s : Mui.State) (out : list View.node) :
  Mui.autism_cleared s ->
  Mui.renderAutismCard host s = Js.Ok out ->
  View.no_autism_output out.
Proof.
  intros [Himg Hdata]. unfold Mui.renderAutismCard, Mui.autismCard_elements.
  rewrite Himg, Hdata.
  destruct (Mui.mentions_adult (Mui.backendMessage s)) as [adult|e]; cbn; [|discriminate].
  unfold View.and_then.
  destruct (Js.truthy adult); [|destruct adult]; cbn;
    intros [= <-]; apply autism_free_all; reflexivity.
Qed.

End MuiInvariant.

(** On the plain screen an adult response is rendered without any autism
    element, also when rendering fails. *)
Lemma plain_adult_shows_no_autism_output (s : Plain.State) :
  Js.get (Plain.result s) "status" = Js.Ok (Js.Str "adult_invalid") ->
  View.no_autism_output (Plain.renderResults s).
Proof.
  intro Hst. unfold Plain.renderResults.
  destruct (Plain.isLoading s); [apply autism_free_all; reflexivity|].
  destruct (Js.truthy (Plain.result s)); [|apply autism_free_all; reflexivity].
  cbn [negb]. unfold Plain.renderResults_try. rewrite Hst.
  cbn [Js.bind Js.is_string String.eqb Ascii.eqb Bool.eqb].
  destruct (Plain.result s) as [| |b|q|t|items|props]; try discriminate.
  cbn [Js.get Js.bind]. unfold Plain.render_image.
  destruct (Js.truthy (Js.lookup "annotated_image_url" props)).
  - unfold Plain.resolveUrl.
    destruct (Js.lookup "annotated_image_url" props); cbn;
      apply autism_free_all; reflexivity.
  - cbn. apply no_autism_output_app.
    + apply and_then_autism_free. intros n [].
    + apply autism_free_all. reflexivity.
Qed.

(** C1: a response whose status is 'adult_invalid' never leads to autism
    output.  On the Material-UI screen, whenever such a response completes
    a submission, the autism image slot and the autism analysis slot are
    empty afterwards, and the autism card shows neither image nor table; on
    the plain screen [renderResults] returns neither for such a response.
    Both hold whatever else the response carries. *)
Theorem adult_response_shows_no_autism_output
        (host : Js.Host) (config : Config) (formatFileSize : Z -> string) :
  (forall events res,
      let w := Mui.run host config formatFileSize events in
      Mui.inflight w = Some (Some (Js.Ok res)) ->
      Js.get res "status" = Js.Ok (Js.Str "adult_invalid") ->
      let s' := Mui.ui (Mui.step host config formatFileSize w Mui.Settle) in
      Mui.autismAnnotatedImageUrl s' = None /\
      Mui.autismAnalysis s' = Js.Obj [] /\
      (forall out, Mui.renderAutismCard host s' = Js.Ok out ->
                   View.no_autism_output out)) /\
  (forall s,
      Js.get (Plain.result s) "status" = Js.Ok (Js.Str "adult_invalid") ->
      View.no_autism_output (Plain.renderResults s)).
Proof.
  split.
  - intros events res w Hin Hst s'.
    assert (Hclear : Mui.autism_cleared s').
    { subst s'. unfold Mui.step. rewrite Hin. cbn [Mui.ui].
      apply resume_keeps_cleared; [exact Hst|].
      apply (run_inflight_cleared host config formatFileSize events Mui.start).
      - intros _. split; reflexivity.
      - fold (Mui.run host config formatFileSize events). fold w. congruence. }
    split; [exact (proj1 Hclear)|]. split; [exact (proj2 Hclear)|].
    intros out Hout.
    exact (cleared_card_shows_no_autism_output host s' out Hclear Hout).
  - exact plain_adult_shows_no_autism_output.
Qed.

Lemma adult_response_shows_no_autism_output_witness :
  Mui.autismAnnotatedImageUrl
    (Mui.ui (Mui.step Sample.host Sample.config Sample.formatFileSize
               (Mui.run Sample.host Sample.config Sample.formatFileSize
                  [Mui.ImageSelect (Some Sample.portrait);
                   Mui.AnalyzeClick (Sample.answers Sample.adult_with_autism_data)])
               Mui.Settle)) = None /\
  View.no_autism_output
    (Plain.renderResults (Plain.setResult Sample.adult_with_autism_data Plain.initial)).
Proof.
  pose proof (adult_response_shows_no_autism_output
                Sample.host Sample.config Sample.formatFileSize) as [Hmui Hplain].
  split.
  - refine (proj1 (Hmui [Mui.ImageSelect (Some Sample.portrait);
                         Mui.AnalyzeClick (Sample.answers Sample.adult_with_autism_data)]
                        Sample.adult_with_autism_data _ _)).
    + vm_compute. reflexivity.
    + vm_compute. reflexivity.
  - apply Hplain. vm_compute. reflexivity.
Defined.

(** * Further properties of the code *)

(** ** [analyzeImage]: requests, status codes, bodies *)

Section AnalyzeImage.
Variable host : Js.Host.
Variable config : Config.

Lemma validateFile_returns_true (file : option File.t) (b : bool) :
  Api.validateFile config file = Js.Ok b -> b = true.
Proof.
  unfold Api.validateFile. destruct file as [f|]; [|discriminate].
  destruct (negb _); [discriminate|].
  destruct (_ <? _)%Z; [discriminate|]. now intros [= <-].
Qed.

Lemma validateFile_throws_Error (file : option File.t) (e : Js.error) :
  Api.validateFile config file = Js.Throw e -> Js.name e = "Error".
Proof.
  unfold Api.validateFile. destruct file as [f|]; [|now intros [= <-]].
  destruct (negb _); [now intros [= <-]|].
  destruct (_ <? _)%Z; [now intros [= <-]|discriminate].
Qed.

Lemma catch_rethrows_Error (e : Js.error) :
  Js.name e = "Error" -> Api.analyzeImage_catch config e = Js.Throw e.
Proof. intro H. unfold Api.analyzeImage_catch. rewrite H. reflexivity. Qed.


(** X2: a response with a status outside 200..299 that arrives in time
    makes [analyzeImage] fail without reading the body: with the endpoint
    hint for 404, with the configured backend message from 500 up, and
    otherwise with 'HTTP', the status and the status text.  The timer has
    been cleared. *)
Theorem http_status_errors (f : File.t) (net : Net.t) (r : Net.Response) :
  Api.validateFile config (Some f) = Js.Ok true ->
  Api.timer_first config net = false ->
  Net.outcome net = Net.Fulfilled r ->
  Net.ok r = false ->
  Api.analyzeImage host config (Some f) net
  = ([Net.SetTimeout (UI_LOADING_TIMEOUT config);
      Net.Fetch (API_BASE_URL config ++ ENDPOINTS_ANALYZE config) true;
      Net.ClearTimeout],
     Some (Js.Throw (Js.Error
       (if (Net.status r =? 404)%nat
        then "API endpoint not found. Please check the configuration."
        else if (500 <=? Net.status r)%nat
        then ERRORS_BACKEND_ERROR config
        else "HTTP " ++ NilZero.string_of_uint (Nat.to_uint (Net.status r))
                     ++ ": " ++ Net.statusText r)))).
Proof.
  intros Hv Ht Ho Hok.
  unfold Api.analyzeImage, Api.analyzeImage_try, Api.check_status.
  rewrite Hv, Ht, Ho, Hok.
  destruct (Net.status r =? 404)%nat; [reflexivity|].
  destruct (500 <=? Net.status r)%nat; reflexivity.
Qed.

(** X3: what [analyzeImage] returns is always an object or an array
    without a truthy error field, taken from a 2xx response that arrived
    before the deadline for a file that passed validation.  So its caller
    can read any property of the result without an exception. *)
Theorem returned_value_is_checked (file : option File.t) (net : Net.t) (data : Js.value) :
  snd (Api.analyzeImage host config file net) = Some (Js.Ok data) ->
  Js.typeof_object data = true /\
  Js.truthy data = true /\
  Js.truthy (Js.get_opt data "error") = false /\
  (forall k, Js.get data k = Js.Ok (Js.get_opt data k)) /\
  Api.validateFile config file = Js.Ok true /\
  Api.timer_first config net = false /\
  exists r, Net.outcome net = Net.Fulfilled r /\ Net.ok r = true /\
            Net.json r = Some (Js.Ok data).
Proof.
  unfold Api.analyzeImage, Api.analyzeImage_try.
  destruct (Api.validateFile config file) as [b|e] eqn:Hv.
  2:{ cbn. rewrite (catch_rethrows_Error e (validateFile_throws_Error file e Hv)).
      discriminate. }
  rewrite (validateFile_returns_true file b Hv) in *.
  destruct (Api.timer_first config net) eqn:Ht; [discriminate|].
  destruct (Net.outcome net) as [r|e] eqn:Ho.
  2:{ cbn. unfold Api.analyzeImage_catch.
      destruct (Js.name e =? "AbortError"); [discriminate|].
      destruct (_ && _); discriminate. }
  unfold Api.check_status.
  destruct (Net.ok r) eqn:Hok.
  2:{ destruct (Net.status r =? 404)%nat; [discriminate|].
      destruct (500 <=? Net.status r)%nat; discriminate. }
  destruct (Net.json r) as [[body|e]|] eqn:Hj; cbn; [| |discriminate].
  2:{ unfold Api.analyzeImage_catch.
      destruct (Js.name e =? "AbortError"); [discriminate|].
      destruct (_ && _); discriminate. }
  unfold Api.check_body.
  destruct (negb (Js.truthy body) || negb (Js.typeof_object body)) eqn:Hshape;
    [discriminate|].
  apply orb_false_iff in Hshape as [Htr Hty].
  apply negb_false_iff in Htr, Hty.
  destruct body as [| |b'|q|s|items|props]; try discriminate; cbn.
  - intros [= <-]. repeat split; try reflexivity. eauto.
  - destruct (Js.truthy (Js.lookup "error" props)) eqn:Herr.
    { unfold Js.Error_of.
      destruct (Js.ToString host (Js.lookup "error" props)) as [msg|e]; cbn;
        [discriminate|].
      unfold Api.analyzeImage_catch.
      destruct (Js.name e =? "AbortError"); [discriminate|].
      destruct (_ && _); discriminate. }
    intros [= <-]. repeat split; try reflexivity; try assumption. eauto.
Qed.

(** X4: when [analyzeImage] settles.  The call stays pending for ever
    exactly when the response arrived in time with a 2xx status and its
    body never finishes: the timer is cleared as soon as the headers are
    there, so the deadline does not cover the download of the body.  In
    every other case the call settles, also when the network never
    answers. *)
Theorem pending_only_on_stalled_body (file : option File.t) (net : Net.t) :
  snd (Api.analyzeImage host config file net) = None <->
  Api.validateFile config file = Js.Ok true /\
  Api.timer_first config net = false /\
  exists r, Net.outcome net = Net.Fulfilled r /\ Net.ok r = true /\ Net.json r = None.
Proof.
  unfold Api.analyzeImage, Api.analyzeImage_try. split.
  - destruct (Api.validateFile config file) as [b|e] eqn:Hv; [|discriminate].
    rewrite (validateFile_returns_true file b Hv).
    destruct (Api.timer_first config net); [discriminate|].
    destruct (Net.outcome net) as [r|e]; [|discriminate].
    unfold Api.check_status.
    destruct (Net.ok r) eqn:Hok.
    + destruct (Net.json r) as [[body|e]|] eqn:Hj; cbn; try discriminate.
      intros _. repeat split. exists r. auto.
    + destruct (Net.status r =? 404)%nat; [discriminate|].
      destruct (500 <=? Net.status r)%nat; discriminate.
  - intros [Hv [Ht [r [Ho [Hok Hj]]]]].
    rewrite Hv, Ht, Ho. unfold Api.check_status. rewrite Hok, Hj. reflexivity.
Qed.

(** X5: what the timer does.  With a valid file, the request is aborted in
    flight exactly when the deadline passes before the fetch settles, the
    timer is cleared exactly when the fetch is fulfilled in time, and when
    the fetch rejects in time the timer is left armed and fires later on a
    request that is over. *)
Theorem timer_fate (f : File.t) (net : Net.t) :
  Api.validateFile config (Some f) = Js.Ok true ->
  let trace := fst (Api.analyzeImage host config (Some f) net) in
  (In (Net.TimerFired true) trace <-> Api.timer_first config net = true) /\
  (In Net.ClearTimeout trace <->
   Api.timer_first config net = false /\ exists r, Net.outcome net = Net.Fulfilled r) /\
  (In (Net.TimerFired false) trace <->
   Api.timer_first config net = false /\ exists e, Net.outcome net = Net.Rejected e).
Proof.
  intros Hv. unfold Api.analyzeImage, Api.analyzeImage_try. rewrite Hv.
  destruct (Api.timer_first config net).
  - cbn. repeat apply conj; try reflexivity; try tauto.
    + intros [H|[H|[H|[]]]]; discriminate.
    + intros [H _]; discriminate.
    + intros [H|[H|[H|[]]]]; discriminate.
    + intros [H _]; discriminate.
  - destruct (Net.outcome net) as [r|e]; cbn; repeat apply conj.
    + intros [H|[H|[H|[]]]]; discriminate.
    + discriminate.
    + intros _. split; [reflexivity | exists r; reflexivity].
    + tauto.
    + intros [H|[H|[H|[]]]]; discriminate.
    + intros [_ [e He]]; discriminate.
    + intros [H|[H|[H|[]]]]; discriminate.
    + discriminate.
    + intros [H|[H|[H|[]]]]; discriminate.
    + intros [_ [r Hr]]; discriminate.
    + intros _. split; [reflexivity | exists e; reflexivity].
    + tauto.
Qed.

(** X6: how the [catch] block reports a promise that rejects in time,
    either the fetch or the reading of the body.  An error named
    'AbortError' is reported as a timeout even though the timer did not
    fire; a 'TypeError' is reported with the configured network message
    only if its text contains 'fetch'; every other error, a 'TypeError'
    with another text included, is thrown on unchanged. *)
Theorem rejection_report (f : File.t) (net : Net.t) (e : Js.error) :
  Api.validateFile config (Some f) = Js.Ok true ->
  Api.timer_first config net = false ->
  Net.outcome net = Net.Rejected e \/
  (exists r, Net.outcome net = Net.Fulfilled r /\ Net.ok r = true /\
             Net.json r = Some (Js.Throw e)) ->
  snd (Api.analyzeImage host config (Some f) net)
  = Some (Js.Throw
            (if Js.name e =? "AbortError"
             then Js.Error "Request timed out. Please try again."
             else if (Js.name e =? "TypeError") && Js.includes (Js.message e) "fetch"
             then Js.Error (ERRORS_NETWORK_ERROR config)
             else e)).
Proof.
  intros Hv Ht Hrej.
  unfold Api.analyzeImage, Api.analyzeImage_try. rewrite Hv, Ht.
  assert (Hcatch : Js.try_catch (Js.Throw e) (Api.analyzeImage_catch config)
                   = Js.Throw
                       (if Js.name e =? "AbortError"
                        then Js.Error "Request timed out. Please try again."
                        else if (Js.name e =? "TypeError") && Js.includes (Js.message e) "fetch"
                        then Js.Error (ERRORS_NETWORK_ERROR config)
                        else e)).
  { cbn. unfold Api.analyzeImage_catch.
    destruct (Js.name e =? "AbortError"); [reflexivity|].
    destruct (_ && _); reflexivity. }
  destruct Hrej as [Ho | [r [Ho [Hok Hj]]]]; rewrite Ho.
  - cbn [snd option_map]. now rewrite Hcatch.
  - unfold Api.check_status. rewrite Hok, Hj. cbn [snd option_map]. now rewrite Hcatch.
Qed.

End AnalyzeImage.


Lemma http_status_errors_witness :
  snd (Api.analyzeImage Sample.host Sample.config (Some Sample.photo)
         (Cases.status_only 403 "Forbidden"))
  = Some (Js.Throw (Js.Error "HTTP 403: Forbidden")).
Proof.
  exact (f_equal snd
           (http_status_errors Sample.host Sample.config Sample.photo
              (Cases.status_only 403 "Forbidden")
              (Net.mkResponse 403 "Forbidden"
                 (Some (Js.Throw (Js.mkError "SyntaxError" "Unexpected end of JSON input"))))
              eq_refl eq_refl eq_refl eq_refl)).
Defined.

Lemma returned_value_is_checked_witness :
  Js.typeof_object Sample.child_screened = true /\
  Js.truthy (Js.get_opt Sample.child_screened "error") = false.
Proof.
  destruct (returned_value_is_checked Sample.host Sample.config (Some Sample.photo)
              (Sample.answers Sample.child_screened) Sample.child_screened eq_refl)
    as [Hobj [_ [Herr _]]].
  exact (conj Hobj Herr).
Defined.

Lemma pending_only_on_stalled_body_witness :
  snd (Api.analyzeImage Sample.host Sample.config (Some Sample.photo) Cases.stalled_body)
  = None.
Proof.
  apply (proj2 (pending_only_on_stalled_body Sample.host Sample.config
                  (Some Sample.photo) Cases.stalled_body)).
  split; [reflexivity|]. split; [reflexivity|].
  exists (Net.mkResponse 200 "OK" None). repeat split.
Defined.

Lemma timer_fate_witness :
  In (Net.TimerFired true)
     (fst (Api.analyzeImage Sample.host Sample.config (Some Sample.photo) Cases.silent)).
Proof.
  apply (proj1 (timer_fate Sample.host Sample.config Sample.photo Cases.silent eq_refl)).
  reflexivity.
Defined.

Lemma rejection_report_witness :
  snd (Api.analyzeImage Sample.host Sample.config (Some Sample.photo) Cases.load_failed)
  = Some (Js.Throw (Js.TypeError "Load failed")).
Proof.
  exact (rejection_report Sample.host Sample.config Sample.photo Cases.load_failed
           (Js.TypeError "Load failed") eq_refl eq_refl (or_introl eq_refl)).
Defined.

(** ** [checkApiHealth] *)

(** X7: the health check answers from the status line alone.  It resolves
    to true exactly when the request is answered with a status from 200 to
    299, to false for any other answer and for any rejection, and it stays
    pending exactly when the network never answers (no deadline applies);
    the body of the answer plays no part. *)
Theorem health_check_reads_status_only
        (config : Config) (ENDPOINTS_HEALTH : string) (net : Net.t) :
  (snd (Health.checkApiHealth config ENDPOINTS_HEALTH net) = Some true <->
   Net.settles_at net <> None /\
   exists r, Net.outcome net = Net.Fulfilled r /\
             (200 <= Net.status r)%nat /\ (Net.status r <= 299)%nat) /\
  (snd (Health.checkApiHealth config ENDPOINTS_HEALTH net) = None <->
   Net.settles_at net = None) /\
  (forall t status text body body',
      Health.checkApiHealth config ENDPOINTS_HEALTH
        (Net.mk t (Net.Fulfilled (Net.mkResponse status text body)))
      = Health.checkApiHealth config ENDPOINTS_HEALTH
          (Net.mk t (Net.Fulfilled (Net.mkResponse status text body')))).
Proof.
  unfold Health.checkApiHealth. cbn [snd]. repeat apply conj.
  - destruct (Net.settles_at net); [|discriminate].
    destruct (Net.outcome net) as [r|e]; [|discriminate].
    intros [= Hok]. unfold Net.ok in Hok. apply andb_true_iff in Hok as [H1 H2].
    apply Nat.leb_le in H1, H2. split; [discriminate|]. exists r. auto.
  - intros [Hs [r [Ho [H1 H2]]]].
    destruct (Net.settles_at net); [|contradiction]. rewrite Ho.
    unfold Net.ok. apply Nat.leb_le in H1, H2. now rewrite H1, H2.
  - destruct (Net.settles_at net); [|reflexivity].
    destruct (Net.outcome net); discriminate.
  - now intros ->.
  - reflexivity.
Qed.

(** ** The plain screen's own submission *)

Lemma absent_first_char (c : ascii) (pat s : string) :
  ~ In c (list_ascii_of_string s) -> index 0 (String c pat) s = None.
Proof.
  induction s as [|b s IH]; intro Hc; [reflexivity|].
  cbn [index]. cbn [prefix].
  destruct (ascii_dec c b) as [->|_]; [exfalso; apply Hc; now left|].
  rewrite IH; [reflexivity|]. intro H. apply Hc. now right.
Qed.

Lemma list_ascii_app (a b : string) :
  list_ascii_of_string (a ++ b) = (list_ascii_of_string a ++ list_ascii_of_string b)%list.
Proof. induction a as [|c a IH]; cbn; [reflexivity|now rewrite IH]. Qed.

Lemma digits_have_no_F (d : Decimal.uint) :
  ~ In "F"%char (list_ascii_of_string (NilZero.string_of_uint d)).
Proof.
  assert (H : ~ In "F"%char (list_ascii_of_string (NilEmpty.string_of_uint d))).
  { induction d; cbn; [intros [] | intros [H|H]; [discriminate|auto] ..]. }
  destruct d; try exact H.
  cbn. intros [H'|H']; [discriminate|exact H'].
Qed.

(** The text thrown for a status outside 200..299 is taken for a server
    error, whatever the status. *)
Lemma http_error_is_server_error (status : nat) (s : Plain.State) :
  Plain.handleAnalyze_catch
    (Js.Error ("HTTP error! status: " ++ NilZero.string_of_uint (Nat.to_uint status))) s
  = Plain.setError (Some "Server error. Please try again later.") s.
Proof.
  unfold Plain.handleAnalyze_catch, Js.includes. cbn [Js.message Js.Error].
  rewrite absent_first_char.
  - cbn [index]. cbn [prefix append]. reflexivity.
  - rewrite list_ascii_app. intro H. apply in_app_or in H as [H|H].
    + cbn in H. repeat (destruct H as [H|H]; [discriminate|]). exact H.
    + exact (digits_have_no_F _ H).
Qed.

(** X8: how a failed submission ends on the plain screen.  Whatever error
    ends the [try] block, the loading flag is cleared, the result is left
    as it was and an error text is shown that is never empty; for every
    status outside 200..299, 404 included, that text is 'Server error.
    Please try again later.' and the status is not shown. *)
Theorem plain_submission_failure (s : Plain.State) :
  (forall e,
      let s' := Plain.handleAnalyze_resume (Js.Throw e) s in
      Plain.isLoading s' = false /\
      Plain.result s' = Plain.result s /\
      Plain.selectedFile s' = Plain.selectedFile s /\
      exists msg, Plain.error s' = Some msg /\ msg <> "") /\
  (forall net r,
      Net.settles_at net <> None ->
      Net.outcome net = Net.Fulfilled r ->
      Net.ok r = false ->
      exists e,
        snd (Plain.handleAnalyze_try net) = Some (Js.Throw e) /\
        Plain.error (Plain.handleAnalyze_resume (Js.Throw e) s)
        = Some "Server error. Please try again later.").
Proof.
  split.
  - intros e s'. subst s'. unfold Plain.handleAnalyze_resume, Plain.handleAnalyze_catch.
    destruct (Js.includes (Js.message e) "Failed to fetch");
      [repeat split; eexists; split; [reflexivity|discriminate]|].
    destruct (Js.includes (Js.message e) "HTTP error");
      [repeat split; eexists; split; [reflexivity|discriminate]|].
    destruct (String.eqb_spec (Js.message e) "") as [Hm|Hm];
      repeat split; eexists; (split; [reflexivity|]); [discriminate|exact Hm].
  - intros net r Hs Ho Hok.
    eexists. split.
    + unfold Plain.handleAnalyze_try. cbn [snd].
      destruct (Net.settles_at net); [|contradiction].
      rewrite Ho, Hok. reflexivity.
    + unfold Plain.handleAnalyze_resume. rewrite http_error_is_server_error. reflexivity.
Qed.

Lemma plain_submission_failure_witness :
  exists e,
    snd (Plain.handleAnalyze_try (Cases.status_only 404 "Not Found")) = Some (Js.Throw e) /\
    Plain.error (Plain.handleAnalyze_resume (Js.Throw e) Plain.initial)
    = Some "Server error. Please try again later.".
Proof.
  apply (proj2 (plain_submission_failure Plain.initial)
               (Cases.status_only 404 "Not Found")
               (Net.mkResponse 404 "Not Found"
                  (Some (Js.Throw (Js.mkError "SyntaxError" "Unexpected end of JSON input")))));
    [discriminate | reflexivity | reflexivity].
Defined.

(** ** The busy flag and the request in flight *)

Section Busy.
Variable host : Js.Host.
Variable config : Config.
Variable formatFileSize : Z -> string.

Lemma mui_step_busy (w : Mui.World) (e : Mui.event) :
  Mui.isProcessing (Mui.ui w) = Handles.pending (Mui.inflight w) ->
  Mui.isProcessing (Mui.ui (Mui.step host config formatFileSize w e))
  = Handles.pending (Mui.inflight (Mui.step host config formatFileSize w e)).
Proof.
  intro Hw. destruct e; unfold Mui.step.
  - destruct file; cbn; exact Hw.
  - cbn. exact Hw.
  - destruct (Mui.isProcessing (Mui.ui w)) eqn:Hp; [now rewrite Hp|].
    unfold Mui.handleAnalyze_begin.
    destruct (Mui.selectedImage (Mui.ui w)) as [f|]; [|now rewrite Hp].
    destruct (Api.analyzeImage host config (Some f) net). reflexivity.
  - destruct (Mui.inflight w) as [[r|]|] eqn:E; cbn; try (rewrite E; exact Hw).
    unfold Mui.handleAnalyze_resume, Mui.try_catch_finally.
    destruct (Mui.abind _ _ _) as [[[]|err] s']; reflexivity.
  - destruct (Mui.isProcessing (Mui.ui w)) eqn:Hp; [now rewrite Hp|].
    cbn. rewrite <- Hw. exact Hp.
  - cbn. exact Hw.
  - cbn. exact Hw.
Qed.

Lemma plain_step_busy (w : Plain.World) (e : Plain.event) :
  Plain.isLoading (Plain.ui w) = Handles.pending (Plain.inflight w) ->
  Plain.isLoading (Plain.ui (Plain.step w e))
  = Handles.pending (Plain.inflight (Plain.step w e)).
Proof.
  intro Hw. destruct e; unfold Plain.step.
  - unfold Plain.handleFileInputChange, Plain.handleFileSelect.
    destruct (Plain.validateFile file _) as [valid s'] eqn:E.
    assert (Hs' : Plain.isLoading s' = Plain.isLoading (Plain.ui w)).
    { unfold Plain.validateFile in E. destruct file as [f|]; [|now inversion E].
      destruct (negb _); [now inversion E|].
      destruct (_ <? _)%Z; now inversion E. }
    destruct valid; [destruct file|]; cbn; congruence.
  - cbn. exact Hw.
  - cbn. exact Hw.
  - unfold Plain.handleDrop, Plain.handleFileSelect.
    destruct files as [|f files]; [cbn; exact Hw|].
    destruct (Plain.validateFile (Some f) _) as [valid s'] eqn:E.
    assert (Hs' : Plain.isLoading s' = Plain.isLoading (Plain.ui w)).
    { unfold Plain.validateFile in E.
      destruct (negb _); [now inversion E|].
      destruct (_ <? _)%Z; now inversion E. }
    destruct valid; cbn; congruence.
  - destruct (Plain.isLoading (Plain.ui w)) eqn:Hp; [now rewrite Hp|].
    destruct (Plain.selectedFile (Plain.ui w)) eqn:Hf; [|now rewrite Hp].
    cbn. unfold Plain.handleAnalyze_begin. rewrite Hf. reflexivity.
  - destruct (Plain.inflight w) as [[r|]|] eqn:E; cbn; try (rewrite E; exact Hw).
    reflexivity.
  - destruct (Plain.isLoading (Plain.ui w)) eqn:Hp; [now rewrite Hp|].
    cbn. rewrite <- Hw. exact Hp.
  - cbn. exact Hw.
Qed.

Lemma mui_run_busy (events : list Mui.event) :
  let w := Mui.run host config formatFileSize events in
  Mui.isProcessing (Mui.ui w) = Handles.pending (Mui.inflight w).
Proof.
  cbv zeta. unfold Mui.run.
  generalize Mui.start (eq_refl : Mui.isProcessing (Mui.ui Mui.start)
                                  = Handles.pending (Mui.inflight Mui.start)).
  induction events as [|e events IH]; intros w Hw; cbn [fold_left]; [exact Hw|].
  apply IH, mui_step_busy, Hw.
Qed.

Lemma plain_run_busy (events : list Plain.event) :
  let w := Plain.run events in
  Plain.isLoading (Plain.ui w) = Handles.pending (Plain.inflight w).
Proof.
  cbv zeta. unfold Plain.run.
  generalize Plain.start (eq_refl : Plain.isLoading (Plain.ui Plain.start)
                                    = Handles.pending (Plain.inflight Plain.start)).
  induction events as [|e events IH]; intros w Hw; cbn [fold_left]; [exact Hw|].
  apply IH, plain_step_busy, Hw.
Qed.

(** X9: on both screens the busy flag ([isProcessing], [isLoading]) is set
    exactly while a submission is in flight, after any sequence of events.
    As Analyze is disabled while the flag is set, a second submission is
    never started before the first has settled: while one is in flight, a
    click on Analyze changes neither the screen nor the submission in
    flight and sends nothing. *)
Theorem busy_exactly_while_in_flight :
  (forall events,
      let w := Mui.run host config formatFileSize events in
      Mui.isProcessing (Mui.ui w) = Handles.pending (Mui.inflight w)) /\
  (forall events,
      let w := Plain.run events in
      Plain.isLoading (Plain.ui w) = Handles.pending (Plain.inflight w)) /\
  (forall events net,
      let w := Mui.run host config formatFileSize events in
      Mui.inflight w <> None ->
      Mui.step host config formatFileSize w (Mui.AnalyzeClick net) = w) /\
  (forall events net,
      let w := Plain.run events in
      Plain.inflight w <> None ->
      Plain.step w (Plain.AnalyzeClick net) = w).
Proof.
  repeat apply conj.
  - exact mui_run_busy.
  - exact plain_run_busy.
  - intros events net w Hin. pose proof (mui_run_busy events) as Hb.
    cbv zeta in Hb. fold w in Hb. unfold Mui.step. rewrite Hb.
    destruct (Mui.inflight w); [reflexivity|contradiction].
  - intros events net w Hin. pose proof (plain_run_busy events) as Hb.
    cbv zeta in Hb. fold w in Hb. unfold Plain.step. rewrite Hb.
    destruct (Plain.inflight w); [reflexivity|contradiction].
Qed.

(** Once a submission of the plain screen can no longer settle, no event
    changes that. *)
Lemma plain_stuck_step (w : Plain.World) (e : Plain.event) :
  Plain.inflight w = Some None ->
  Plain.isLoading (Plain.ui w) = true ->
  Plain.inflight (Plain.step w e) = Some None /\
  Plain.isLoading (Plain.ui (Plain.step w e)) = true /\
  Plain.traffic (Plain.step w e) = Plain.traffic w.
Proof.
  intros Hin Hl.
  pose proof (plain_step_busy w e) as Hb. rewrite Hin, Hl in Hb. specialize (Hb eq_refl).
  destruct e; unfold Plain.step in *.
  - destruct (Plain.handleFileInputChange file _) as [s st]. cbn in *.
    rewrite Hb, Hin. auto.
  - cbn. auto.
  - cbn. auto.
  - destruct (Plain.handleDrop files _) as [s st]. cbn in *.
    rewrite Hb, Hin. auto.
  - rewrite Hl. auto.
  - rewrite Hin. auto.
  - rewrite Hl. auto.
  - cbn. auto.
Qed.

(** X10: the plain screen has no way out of a submission that the network
    never answers.  After Analyze is clicked with a file selected and no
    submission running, if the answer never comes then, whatever events
    follow, the screen keeps loading (so Analyze and Reset stay disabled),
    and no further request is sent. *)
Theorem plain_waits_for_ever (events more : list Plain.event) (net : Net.t) :
  let w := Plain.run events in
  Plain.isLoading (Plain.ui w) = false ->
  Plain.selectedFile (Plain.ui w) <> None ->
  Net.settles_at net = None ->
  let w' := fold_left Plain.step more (Plain.step w (Plain.AnalyzeClick net)) in
  Plain.isLoading (Plain.ui w') = true /\
  Plain.inflight w' = Some None /\
  Plain.traffic w'
  = (Plain.traffic w ++ [Net.Fetch (Plain.origin ++ "/process") false])%list.
Proof.
  intros w Hl Hf Hnet.
  assert (Hstart : Plain.inflight (Plain.step w (Plain.AnalyzeClick net)) = Some None /\
                   Plain.isLoading (Plain.ui (Plain.step w (Plain.AnalyzeClick net))) = true /\
                   Plain.traffic (Plain.step w (Plain.AnalyzeClick net))
                   = (Plain.traffic w ++ [Net.Fetch (Plain.origin ++ "/process") false])%list).
  { unfold Plain.step. rewrite Hl.
    destruct (Plain.selectedFile (Plain.ui w)) eqn:E; [|contradiction].
    unfold Plain.handleAnalyze_try, Plain.handleAnalyze_begin. rewrite Hnet, E.
    repeat split. }
  cbv zeta. generalize dependent (Plain.step w (Plain.AnalyzeClick net)).
  clear Hl Hf. induction more as [|e more IH]; intros w0 [Hin [Hl Htr]]; cbn [fold_left].
  - auto.
  - apply IH. destruct (plain_stuck_step w0 e Hin Hl) as [H1 [H2 H3]].
    rewrite H3. auto.
Qed.

End Busy.

(** A second click while the first submission is in flight. *)
Lemma busy_exactly_while_in_flight_witness :
  Mui.step Sample.host Sample.config Sample.formatFileSize
    (Mui.run Sample.host Sample.config Sample.formatFileSize
       [Mui.ImageSelect (Some Sample.photo);
        Mui.AnalyzeClick (Sample.answers Sample.child_screened)])
    (Mui.AnalyzeClick Sample.unreachable)
  = Mui.run Sample.host Sample.config Sample.formatFileSize
      [Mui.ImageSelect (Some Sample.photo);
       Mui.AnalyzeClick (Sample.answers Sample.child_screened)].
Proof.
  apply (proj1 (proj2 (proj2 (busy_exactly_while_in_flight
                                Sample.host Sample.config Sample.formatFileSize)))
               [Mui.ImageSelect (Some Sample.photo);
                Mui.AnalyzeClick (Sample.answers Sample.child_screened)]
               Sample.unreachable).
  vm_compute. discriminate.
Defined.

Lemma plain_waits_for_ever_witness :
  Plain.isLoading
    (Plain.ui (fold_left Plain.step [Plain.ResetClick; Plain.Settle; Plain.CloseAlert]
                 (Plain.step (Plain.run [Plain.FileInputChange (Some Sample.photo)])
                             (Plain.AnalyzeClick Cases.silent)))) = true.
Proof.
  refine (proj1 (plain_waits_for_ever [Plain.FileInputChange (Some Sample.photo)]
                   [Plain.ResetClick; Plain.Settle; Plain.CloseAlert] Cases.silent
                   eq_refl _ eq_refl)).
  discriminate.
Defined.

(** ** Assertions on the body of [handleAnalyze] *)

Lemma kept_bind {A B} P (m : Mui.action A) (k : A -> Mui.action B) :
  Triple.keeps P m -> (forall x, Triple.keeps P (k x)) -> Triple.keeps P (Mui.abind m k).
Proof.
  intros Hm Hk s Hs. unfold Mui.abind. specialize (Hm s Hs).
  destruct (m s) as [[x|e] s']; [apply Hk|]; assumption.
Qed.

Lemma kept_lift {A} (P : Mui.State -> Prop) (r : Js.result A) :
  Triple.keeps P (Mui.lift r).
Proof. intros s Hs. unfold Mui.lift. destruct r; exact Hs. Qed.

Lemma kept_pure {A} (P : Mui.State -> Prop) (a : A) : Triple.keeps P (Mui.pure a).
Proof. intros s Hs. exact Hs. Qed.

Lemma kept_set (P : Mui.State -> Prop) (f : Mui.State -> Mui.State) :
  (forall s, P s -> P (f s)) -> Triple.keeps P (Mui.set f).
Proof. intros Hf s Hs. apply Hf, Hs. Qed.

(** Two setters in a row: nothing can throw between them. *)
Lemma kept_set_twice (P : Mui.State -> Prop) (f g : Mui.State -> Mui.State) :
  (forall s, P s -> P (g (f s))) ->
  Triple.keeps P (Mui.abind (Mui.set f) (fun _ => Mui.set g)).
Proof. intros Hfg s Hs. apply Hfg, Hs. Qed.

Ltac kept_steps solve_setter :=
  repeat first
    [ apply kept_lift
    | apply kept_pure
    | apply kept_set_twice; solve_setter
    | apply kept_set; solve_setter
    | match goal with
      | |- Triple.keeps _ (Mui.abind _ _) => apply kept_bind; [|intro]
      | |- Triple.keeps _ (if ?c then _ else _) => destruct c
      end ].

(** The body of [handleAnalyze] leaves the selection alone. *)
Lemma body_keeps_selection (config : Config) (res : Js.value) img url :
  Triple.keeps (fun s => Mui.selectedImage s = img /\ Mui.previewUrl s = url)
               (Mui.handleAnalyze_body config res).
Proof.
  unfold Mui.handleAnalyze_body.
  kept_steps ltac:(intros ? [? ?]; split; assumption).
Qed.

(** The body of [handleAnalyze] fills an analysis slot only together with
    its image slot. *)
Lemma body_keeps_analysis_needs_image (config : Config) (res : Js.value) :
  Triple.keeps Triple.analysis_needs_image (Mui.handleAnalyze_body config res).
Proof.
  unfold Mui.handleAnalyze_body.
  kept_steps ltac:(intros ? [? ?]; split; cbn; solve [assumption | discriminate | reflexivity
                                                    | intros _; reflexivity]).
Qed.

Lemma resume_keeps {P : Mui.State -> Prop} (config : Config) (r : Js.result Js.value)
      (s : Mui.State) :
  (forall res, r = Js.Ok res -> Triple.keeps P (Mui.handleAnalyze_body config res)) ->
  (forall e s, P s -> P (Mui.handleAnalyze_catch e s)) ->
  (forall s, P s -> P (Mui.setIsProcessing false s)) ->
  P s -> P (Mui.handleAnalyze_resume config r s).
Proof.
  intros Hbody Hcatch Hfinal Hs.
  unfold Mui.handleAnalyze_resume, Mui.try_catch_finally.
  destruct r as [res|e]; [|apply Hfinal, Hcatch, Hs].
  change (Mui.abind (Mui.lift (Js.Ok res)) (fun res0 => Mui.handleAnalyze_body config res0) s)
    with (Mui.handleAnalyze_body config res s).
  specialize (Hbody res eq_refl s Hs).
  destruct (Mui.handleAnalyze_body config res s) as [[[]|e] s'];
    [apply Hfinal | apply Hfinal, Hcatch]; exact Hbody.
Qed.

Lemma resume_keeps_selection (config : Config) (r : Js.result Js.value) (s : Mui.State) :
  Mui.selectedImage (Mui.handleAnalyze_resume config r s) = Mui.selectedImage s /\
  Mui.previewUrl (Mui.handleAnalyze_resume config r s) = Mui.previewUrl s.
Proof.
  apply (@resume_keeps (fun s' => Mui.selectedImage s' = Mui.selectedImage s /\
                                  Mui.previewUrl s' = Mui.previewUrl s)).
  - intros res _. apply body_keeps_selection.
  - intros e s' H. exact H.
  - intros s' H. exact H.
  - split; reflexivity.
Qed.

(** ** Object URLs over whole runs *)

Lemma releases_after_create (id : nat) (st : Url.store) :
  Url.releases id (snd (Url.createObjectURL st)) = Url.releases id st.
Proof.
  unfold Url.releases, Url.createObjectURL. cbn.
  rewrite filter_app, length_app. cbn. lia.
Qed.

Lemma releases_after_revoke (id : nat) (u : Url.preview) (st : Url.store) :
  Url.releases id (Url.revokeObjectURL u st)
  = (Url.releases id st + if Url.is_revoke_of id (Url.Revoked u) then 1 else 0)%nat.
Proof.
  unfold Url.releases, Url.revokeObjectURL. cbn [Url.log].
  rewrite filter_app, length_app. cbn [filter].
  destruct (Url.is_revoke_of id (Url.Revoked u)); reflexivity.
Qed.

Section MuiHandles.
Variable host : Js.Host.
Variable config : Config.
Variable formatFileSize : Z -> string.

(** What one event does to the selection and to the object URLs. *)
Lemma mui_step_cases (w : Mui.World) (e : Mui.event) :
  (* nothing relevant changes *)
  (Mui.urls (Mui.step host config formatFileSize w e) = Mui.urls w /\
   Mui.previewUrl (Mui.ui (Mui.step host config formatFileSize w e)) = Mui.previewUrl (Mui.ui w) /\
   Mui.selectedImage (Mui.ui (Mui.step host config formatFileSize w e)) = Mui.selectedImage (Mui.ui w)) \/
  (* a file is selected *)
  (Mui.urls (Mui.step host config formatFileSize w e) = snd (Url.createObjectURL (Mui.urls w)) /\
   Mui.previewUrl (Mui.ui (Mui.step host config formatFileSize w e)) = Some (Url.Blob (Url.next (Mui.urls w))) /\
   Mui.selectedImage (Mui.ui (Mui.step host config formatFileSize w e)) <> None) \/
  (* a screenshot is taken *)
  (Mui.urls (Mui.step host config formatFileSize w e) = Mui.urls w /\
   (forall id, Mui.previewUrl (Mui.ui (Mui.step host config formatFileSize w e)) <> Some (Url.Blob id)) /\
   Mui.selectedImage (Mui.ui (Mui.step host config formatFileSize w e)) <> None) \/
  (* reset with a preview to revoke *)
  (exists u, Mui.previewUrl (Mui.ui w) = Some u /\
             Mui.urls (Mui.step host config formatFileSize w e) = Url.revokeObjectURL u (Mui.urls w) /\
             Mui.previewUrl (Mui.ui (Mui.step host config formatFileSize w e)) = None /\
             Mui.selectedImage (Mui.ui (Mui.step host config formatFileSize w e)) = None) \/
  (* reset without one *)
  (Mui.urls (Mui.step host config formatFileSize w e) = Mui.urls w /\
   Mui.previewUrl (Mui.ui (Mui.step host config formatFileSize w e)) = None /\
   Mui.selectedImage (Mui.ui (Mui.step host config formatFileSize w e)) = None).
Proof.
  destruct e; unfold Mui.step.
  - destruct file as [f|]; [|left; auto].
    right; left. cbn. repeat split. discriminate.
  - right; right; left. cbn. repeat split; [|discriminate].
    intro id. destruct screenshot; discriminate.
  - left. destruct (Mui.isProcessing (Mui.ui w)); [auto|].
    unfold Mui.handleAnalyze_begin.
    destruct (Mui.selectedImage (Mui.ui w)) as [f|] eqn:E; [|auto].
    destruct (Api.analyzeImage host config (Some f) net). cbn. auto.
  - left. destruct (Mui.inflight w) as [[r|]|]; auto.
    cbn. destruct (resume_keeps_selection config r (Mui.ui w)). auto.
  - destruct (Mui.isProcessing (Mui.ui w)); [left; auto|].
    unfold Mui.handleReset.
    destruct (Mui.previewUrl (Mui.ui w)) as [u|] eqn:E.
    + destruct (Url.truthy (Some u)).
      * right; right; right; left. exists u. cbn. auto.
      * right; right; right; right. cbn. auto.
    + right; right; right; right. cbn. auto.
  - left. cbn. auto.
  - left. cbn. auto.
Qed.

Lemma mui_step_ok (w : Mui.World) (e : Mui.event) :
  Handles.mui_ok w -> Handles.mui_ok (Mui.step host config formatFileSize w e).
Proof.
  intros [Hfresh [Hcur [Honce Hsel]]].
  destruct (mui_step_cases w e)
    as [[Hu [Hp Hs]] | [[Hu [Hp Hs]] | [[Hu [Hp Hs]] | [[u [Hold [Hu [Hp Hs]]]] | [Hu [Hp Hs]]]]]];
    unfold Handles.mui_ok; rewrite Hu.
  - rewrite Hp, Hs. auto.
  - repeat apply conj.
    + intros id Hid. rewrite releases_after_create. apply Hfresh. cbn in Hid. lia.
    + intros id Hid. rewrite Hp in Hid. injection Hid as <-.
      rewrite releases_after_create. cbn. split; [lia | apply Hfresh; lia].
    + intro id. rewrite releases_after_create. apply Honce.
    + intro H. contradiction.
  - repeat apply conj; auto.
    + intros id Hid. destruct (Hp id Hid).
    + intro H. contradiction.
  - repeat apply conj.
    + intros id Hid. rewrite releases_after_revoke.
      destruct u as [j|uri]; cbn; [|rewrite Hfresh by exact Hid; lia].
      destruct (Nat.eqb_spec id j) as [->|_]; [|rewrite Hfresh by exact Hid; lia].
      destruct (Hcur j Hold). cbn in Hid. lia.
    + intros id Hid. rewrite Hp in Hid. discriminate.
    + intro id. rewrite releases_after_revoke.
      destruct u as [j|uri]; cbn; [|specialize (Honce id); lia].
      destruct (Nat.eqb_spec id j) as [->|_]; [|specialize (Honce id); lia].
      destruct (Hcur j Hold) as [_ H0]. lia.
    + intros _. exact Hp.
  - repeat apply conj; auto.
    + intros id Hid. rewrite Hp in Hid. discriminate.
Qed.

Lemma mui_run_ok (events : list Mui.event) (w : Mui.World) :
  Handles.mui_ok w ->
  Handles.mui_ok (fold_left (Mui.step host config formatFileSize) events w).
Proof.
  revert w. induction events as [|e events IH]; intros w Hw; cbn [fold_left]; [exact Hw|].
  apply IH, mui_step_ok, Hw.
Qed.

Lemma mui_start_ok : Handles.mui_ok Mui.start.
Proof.
  repeat apply conj; cbn; try reflexivity; try discriminate; auto.
Qed.

(** X11: the object URLs of the Material-UI screen, after any sequence of
    events: no preview URL has been released more than once, the preview in
    the slot has not been released, and a preview is on display (the slot
    holds a non-empty address) only while an image is selected. *)
Theorem mui_preview_released_at_most_once (events : list Mui.event) :
  let w := Mui.run host config formatFileSize events in
  (forall id, (Url.releases id (Mui.urls w) <= 1)%nat) /\
  (forall id, Mui.previewUrl (Mui.ui w) = Some (Url.Blob id) ->
              Url.releases id (Mui.urls w) = 0%nat) /\
  (Url.truthy (Mui.previewUrl (Mui.ui w)) = true ->
   Mui.selectedImage (Mui.ui w) <> None).
Proof.
  destruct (mui_run_ok events Mui.start mui_start_ok) as [_ [Hcur [Honce Hsel]]].
  cbv zeta. fold (Mui.run host config formatFileSize events) in *.
  repeat apply conj; auto.
  - intros id Hid. apply Hcur, Hid.
  - intros Hshown Hnone. rewrite (Hsel Hnone) in Hshown. discriminate.
Qed.

Lemma mui_step_replaced (id : nat) (w : Mui.World) (e : Mui.event) :
  Handles.replaced id w ->
  Handles.replaced id (Mui.step host config formatFileSize w e) /\
  Url.releases id (Mui.urls (Mui.step host config formatFileSize w e)) = Url.releases id (Mui.urls w).
Proof.
  intros [Hid Hnot]. unfold Handles.replaced.
  destruct (mui_step_cases w e)
    as [[Hu [Hp Hs]] | [[Hu [Hp Hs]] | [[Hu [Hp Hs]] | [[u [Hold [Hu [Hp Hs]]]] | [Hu [Hp Hs]]]]]];
    rewrite Hu; try rewrite Hp.
  - auto.
  - rewrite releases_after_create. cbn. repeat split; [lia|].
    intros [= H]. lia.
  - repeat split; [assumption|apply Hp].
  - rewrite releases_after_revoke. cbn [Url.next Url.revokeObjectURL].
    repeat split; [assumption|discriminate|].
    destruct u as [j|uri]; cbn; [|lia].
    destruct (Nat.eqb_spec id j) as [->|_]; [contradiction|lia].
  - repeat split; [assumption|discriminate].
Qed.

Lemma mui_run_replaced (id : nat) (more : list Mui.event) (w : Mui.World) :
  Handles.replaced id w ->
  Url.releases id (Mui.urls (fold_left (Mui.step host config formatFileSize) more w))
  = Url.releases id (Mui.urls w).
Proof.
  revert w. induction more as [|e more IH]; intros w Hrep; cbn [fold_left]; [reflexivity|].
  destruct (mui_step_replaced id w e Hrep) as [Hrep' Heq].
  rewrite (IH _ Hrep'). exact Heq.
Qed.

(** X12: on the Material-UI screen only the preview on display can ever be
    released.  Once an object URL has been handed out and is no longer the
    preview (a later image took its place, or reset dropped it), no sequence
    of events changes the number of times it has been released: a preview
    that was replaced without being released stays unreleased for good. *)
Theorem replaced_preview_never_released (events more : list Mui.event) (id : nat) :
  let w := Mui.run host config formatFileSize events in
  (id < Url.next (Mui.urls w))%nat ->
  Mui.previewUrl (Mui.ui w) <> Some (Url.Blob id) ->
  Url.releases id (Mui.urls (fold_left (Mui.step host config formatFileSize) more w))
  = Url.releases id (Mui.urls w).
Proof.
  intros w Hid Hnot. apply mui_run_replaced. split; assumption.
Qed.

End MuiHandles.

(** The converse fails: a capture while the camera has no frame stores a
    file and no preview. *)
Example capture_without_frame :
  Mui.selectedImage
    (Mui.ui (Mui.run Sample.host Sample.config Sample.formatFileSize
               [Mui.WebcamCapture None 0]))
  = Some (File.mk "webcam-capture.jpg" "image/jpeg" 0) /\
  Mui.previewUrl
    (Mui.ui (Mui.run Sample.host Sample.config Sample.formatFileSize
               [Mui.WebcamCapture None 0]))
  = None.
Proof. split; reflexivity. Qed.

Lemma replaced_preview_never_released_witness :
  Url.releases 0
    (Mui.urls
       (fold_left (Mui.step Sample.host Sample.config Sample.formatFileSize)
          [Mui.ResetClick; Mui.ImageSelect (Some Sample.photo); Mui.ResetClick]
          (Mui.run Sample.host Sample.config Sample.formatFileSize
             [Mui.ImageSelect (Some Sample.photo); Mui.ImageSelect (Some Sample.portrait)])))
  = Url.releases 0
      (Mui.urls (Mui.run Sample.host Sample.config Sample.formatFileSize
                   [Mui.ImageSelect (Some Sample.photo);
                    Mui.ImageSelect (Some Sample.portrait)])).
Proof.
  apply (replaced_preview_never_released Sample.host Sample.config Sample.formatFileSize
           [Mui.ImageSelect (Some Sample.photo); Mui.ImageSelect (Some Sample.portrait)]
           [Mui.ResetClick; Mui.ImageSelect (Some Sample.photo); Mui.ResetClick] 0%nat).
  - cbn. lia.
  - discriminate.
Defined.

(** ** The plain screen over whole runs *)

(** X13: the plain screen never releases an object URL.  After any sequence
    of events every URL handed out by [createObjectURL] is still
    unreleased, reset and replacement included. *)
Theorem plain_never_releases (events : list Plain.event) (id : nat) :
  Url.releases id (Plain.urls (Plain.run events)) = 0%nat.
Proof. unfold Plain.run. now rewrite plain_never_revokes. Qed.

Lemma plain_validate_cases (file : option File.t) (s : Plain.State) :
  (exists f, file = Some f /\ Plain.validateFile file s = (true, s) /\
             prefix "image/" (File.type f) = true /\
             (File.size f <= 10 * 1024 * 1024)%Z) \/
  (exists msg, Plain.validateFile file s = (false, Plain.setError (Some msg) s)).
Proof.
  unfold Plain.validateFile. destruct file as [f|]; [|right; eexists; reflexivity].
  destruct (prefix "image/" (File.type f)) eqn:Ht; cbn [negb];
    [|right; eexists; reflexivity].
  destruct (10 * 1024 * 1024 <? File.size f)%Z eqn:Hs; [right; eexists; reflexivity|].
  left. exists f. apply Z.ltb_ge in Hs. auto.
Qed.

Lemma plain_select_ok (file : option File.t) (w : Plain.World) s st :
  Handles.plain_ok w ->
  Plain.selectedFile s = Plain.selectedFile (Plain.ui w) ->
  Plain.previewUrl s = Plain.previewUrl (Plain.ui w) ->
  Handles.plain_ok
    (Plain.mkWorld (fst (Plain.handleFileSelect file (s, Plain.urls w)))
                   (snd (Plain.handleFileSelect file (s, Plain.urls w)))
                   (Plain.inflight w) st).
Proof.
  intros [Hvalid [Hsel Hurl]] Hs Hp. unfold Plain.handleFileSelect.
  destruct (plain_validate_cases file (Plain.setResult Js.Null (Plain.setError None s)))
    as [[f [-> [-> [Ht Hz]]]] | [msg ->]]; unfold Handles.plain_ok; cbn.
  - repeat apply conj.
    + intros f' [= <-]. auto.
    + discriminate.
    + discriminate.
    + intros u [= <-]. eexists. split; [reflexivity|lia].
  - rewrite Hs, Hp. auto.
Qed.

Lemma plain_step_ok (w : Plain.World) (e : Plain.event) :
  Handles.plain_ok w -> Handles.plain_ok (Plain.step w e).
Proof.
  intros Hw. pose proof Hw as [Hvalid [Hsel Hurl]]. destruct e; unfold Plain.step.
  - unfold Plain.handleFileInputChange.
    pose proof (plain_select_ok file w (Plain.ui w) (Plain.traffic w) Hw eq_refl eq_refl) as H.
    destruct (Plain.handleFileSelect file (Plain.ui w, Plain.urls w)). exact H.
  - exact Hw.
  - exact Hw.
  - unfold Plain.handleDrop. destruct files as [|f files]; [exact Hw|].
    pose proof (plain_select_ok (Some f) w (Plain.setIsDragOver false (Plain.ui w))
                  (Plain.traffic w) Hw eq_refl eq_refl) as H.
    destruct (Plain.handleFileSelect (Some f) _). exact H.
  - destruct (Plain.isLoading (Plain.ui w)); [exact Hw|].
    destruct (Plain.selectedFile (Plain.ui w)) eqn:E; [|exact Hw].
    unfold Handles.plain_ok, Plain.handleAnalyze_begin. rewrite E. cbn.
    rewrite E in *. auto.
  - destruct (Plain.inflight w) as [[r|]|]; try exact Hw.
    unfold Handles.plain_ok, Plain.handleAnalyze_resume. cbn.
    destruct r as [data|err]; cbn; [auto|].
    unfold Plain.handleAnalyze_catch.
    destruct (Js.includes _ _); [cbn; auto|].
    destruct (Js.includes _ _); cbn; auto.
  - destruct (Plain.isLoading (Plain.ui w)); [exact Hw|].
    unfold Handles.plain_ok. cbn. repeat apply conj; auto; discriminate.
  - exact Hw.
Qed.

(** X14: on the plain screen the selected file is always one that passed
    validation.  After any sequence of events, a selected file has a type
    that starts with 'image/' and a size of at most 10MB, so Analyze never
    submits a file that [validateFile] would refuse; and a preview is on
    display exactly when a file is selected. *)
Theorem plain_selection_is_valid (events : list Plain.event) :
  let w := Plain.run events in
  (forall f, Plain.selectedFile (Plain.ui w) = Some f ->
             prefix "image/" (File.type f) = true /\
             (File.size f <= 10 * 1024 * 1024)%Z) /\
  (Plain.selectedFile (Plain.ui w) = None <-> Plain.previewUrl (Plain.ui w) = None).
Proof.
  cbv zeta. unfold Plain.run.
  assert (H : Handles.plain_ok (fold_left Plain.step events Plain.start)).
  { assert (H0 : Handles.plain_ok Plain.start)
      by (repeat apply conj; cbn; try reflexivity; discriminate).
    revert H0. generalize Plain.start.
    induction events as [|e events IH]; intros w Hw; cbn [fold_left]; [exact Hw|].
    apply IH, plain_step_ok, Hw. }
  destruct H as [Hvalid [Hsel _]]. split; assumption.
Qed.

(** ** Analysis slots of the Material-UI screen over whole runs *)

Section MuiSlots.
Variable host : Js.Host.
Variable config : Config.
Variable formatFileSize : Z -> string.

Lemma mui_step_analysis_needs_image (w : Mui.World) (e : Mui.event) :
  Triple.analysis_needs_image (Mui.ui w) ->
  Triple.analysis_needs_image (Mui.ui (Mui.step host config formatFileSize w e)).
Proof.
  intros Hw. destruct e; unfold Mui.step.
  - destruct file as [f|]; cbn; [split; reflexivity | exact Hw].
  - cbn. split; reflexivity.
  - destruct (Mui.isProcessing (Mui.ui w)); [exact Hw|].
    unfold Mui.handleAnalyze_begin.
    destruct (Mui.selectedImage (Mui.ui w)) as [f|]; [|exact Hw].
    destruct (Api.analyzeImage host config (Some f) net). cbn. split; reflexivity.
  - destruct (Mui.inflight w) as [[r|]|]; try exact Hw. cbn [Mui.ui].
    apply (@resume_keeps Triple.analysis_needs_image).
    + intros res _. apply body_keeps_analysis_needs_image.
    + intros err s H. exact H.
    + intros s H. exact H.
    + exact Hw.
  - destruct (Mui.isProcessing (Mui.ui w)); [exact Hw|]. cbn. split; reflexivity.
  - exact Hw.
  - exact Hw.
Qed.

(** X15: on the Material-UI screen analysis data is only ever stored
    together with an annotated image.  After any sequence of events, the
    age analysis is empty unless an age image URL is stored, and the autism
    analysis is empty unless an autism image URL is stored: the data of a
    response that gives no image address is not kept. *)
Theorem analysis_stored_only_with_image (events : list Mui.event) :
  let s := Mui.ui (Mui.run host config formatFileSize events) in
  (Mui.ageAnnotatedImageUrl s = None -> Mui.ageAnalysis s = Js.Obj []) /\
  (Mui.autismAnnotatedImageUrl s = None -> Mui.autismAnalysis s = Js.Obj []).
Proof.
  cbv zeta. unfold Mui.run.
  assert (H0 : Triple.analysis_needs_image (Mui.ui Mui.start)) by (split; reflexivity).
  revert H0. generalize Mui.start.
  induction events as [|e events IH]; intros w Hw; cbn [fold_left]; [exact Hw|].
  apply IH, mui_step_analysis_needs_image, Hw.
Qed.

End MuiSlots.

(** ** Rendering on the plain screen *)

Lemma get_of_non_nullish (v : Js.value) (k : string) :
  Js.nullish v = false -> Js.get v k = Js.Ok (Js.get_opt v k).
Proof. destruct v; intro H; try discriminate; reflexivity. Qed.

Lemma truthy_not_nullish (v : Js.value) : Js.truthy v = true -> Js.nullish v = false.
Proof. destruct v; intro H; try discriminate; reflexivity. Qed.

Lemma filter_by_without_null (k : string) (items : list Js.value) :
  Forall (fun r => Js.nullish r = false) items ->
  Js.filter_by k items = Js.Ok (filter (fun r => Js.truthy (Js.get_opt r k)) items).
Proof.
  induction 1 as [|r items Hr _ IH]; [reflexivity|].
  cbn [Js.filter_by filter]. rewrite (get_of_non_nullish r k Hr), IH.
  destruct (Js.truthy (Js.get_opt r k)); reflexivity.
Qed.

Lemma filter_by_with_null (k : string) (items : list Js.value) :
  Exists (fun r => Js.nullish r = true) items ->
  exists e, Js.filter_by k items = Js.Throw e.
Proof.
  induction 1 as [r items Hr | r items _ [e IH]].
  - destruct r; try discriminate; eexists; reflexivity.
  - cbn [Js.filter_by]. destruct (Js.get r k); [|eexists; reflexivity].
    rewrite IH. eexists; reflexivity.
Qed.

Lemma null_or_not (items : list Js.value) :
  Forall (fun r => Js.nullish r = false) items \/
  Exists (fun r => Js.nullish r = true) items.
Proof.
  induction items as [|r items [IH|IH]]; [left; constructor| |right; now constructor 2].
  destruct (Js.nullish r) eqn:E; [right; now constructor|left; now constructor].
Qed.

(** X16: the rows of [PredictionTable].  The component throws exactly when
    the results array holds a [null] (or [undefined]) entry.  Otherwise it
    renders one row for each entry with a truthy region and none for the
    others (the verdict entry among them), in order; a row always has a
    label and a confidence, 'N/A' and 0 standing in for missing ones.  For
    anything that is not an array it renders no row. *)
Theorem prediction_table_rows (items : list Js.value) :
  ((exists e, Plain.PredictionTable (Js.Arr items) = Js.Throw e) <->
   Exists (fun r => Js.nullish r = true) items) /\
  (Forall (fun r => Js.nullish r = false) items ->
   Plain.PredictionTable (Js.Arr items)
   = Js.Ok (map (fun r => View.RegionRow
                            (Js.get_opt r "region")
                            (if Js.truthy (Js.get_opt r "label")
                             then Js.get_opt r "label" else Js.Str "N/A")
                            (if Js.truthy (Js.get_opt r "confidence")
                             then Js.get_opt r "confidence" else Js.Num 0))
                 (filter (fun r => Js.truthy (Js.get_opt r "region")) items))) /\
  (forall v, (forall l, v <> Js.Arr l) -> Plain.PredictionTable v = Js.Ok []).
Proof.
  repeat apply conj.
  - intros [e He]. destruct (null_or_not items) as [Hno|Hex]; [|exact Hex].
    unfold Plain.PredictionTable in He.
    rewrite (filter_by_without_null "region" items Hno) in He. discriminate.
  - intro Hex. destruct (filter_by_with_null "region" items Hex) as [e He].
    exists e. unfold Plain.PredictionTable. now rewrite He.
  - intro Hno. unfold Plain.PredictionTable.
    rewrite (filter_by_without_null "region" items Hno). reflexivity.
  - intros v Hv. destruct v; try reflexivity. exfalso. exact (Hv items0 eq_refl).
Qed.

Lemma prediction_table_rows_witness :
  Plain.PredictionTable
    (Js.Arr [Js.Obj [("region", Js.Str "mouth")];
             Js.Obj [("final_decision", Js.Str "Autistic")]])
  = Js.Ok [View.RegionRow (Js.Str "mouth") (Js.Str "N/A") (Js.Num 0)].
Proof.
  apply (proj1 (proj2 (prediction_table_rows
                         [Js.Obj [("region", Js.Str "mouth")];
                          Js.Obj [("final_decision", Js.Str "Autistic")]]))).
  repeat constructor.
Defined.

Lemma render_image_never_autism (v : Js.value) (out : list View.node) :
  Plain.render_image v "Age analysis result" = Js.Ok out -> View.no_autism_output out.
Proof.
  unfold Plain.render_image, Plain.resolveUrl.
  destruct (Js.truthy v).
  - destruct v; cbn; intros [= <-]; apply autism_free_all; reflexivity.
  - intros [= <-]. apply and_then_autism_free. intros n [].
Qed.

(** X17: [renderResults] builds autism elements for one status only.
    Unless the status of the stored result is the string
    'child_autism_screened', what it returns holds no autism image, no
    prediction table and no verdict -- while loading, without a result,
    for an adult or unknown status, and when building the elements fails. *)
Theorem autism_elements_only_for_child (s : Plain.State) :
  Js.is_string (Js.get_opt (Plain.result s) "status") "child_autism_screened" = false ->
  View.no_autism_output (Plain.renderResults s).
Proof.
  intro Hst. unfold Plain.renderResults.
  destruct (Plain.isLoading s); [apply autism_free_all; reflexivity|].
  destruct (Js.truthy (Plain.result s)) eqn:Htr; [|apply autism_free_all; reflexivity].
  cbn [negb]. unfold Plain.renderResults_try.
  pose proof (truthy_not_nullish _ Htr) as Hn.
  rewrite !(get_of_non_nullish (Plain.result s)) by exact Hn.
  cbn [Js.bind]. rewrite Hst.
  destruct (Js.is_string _ "adult_invalid"); [|apply autism_free_all; reflexivity].
  destruct (Plain.render_image _ "Age analysis result") as [image|e] eqn:Himg;
    cbn [Js.bind]; [|apply autism_free_all; reflexivity].
  apply no_autism_output_app.
  - exact (render_image_never_autism _ _ Himg).
  - apply autism_free_all. reflexivity.
Qed.

Lemma autism_elements_only_for_child_witness :
  View.no_autism_output
    (Plain.renderResults
       (Plain.setResult
          (Js.Obj [("status", Js.Str "processing");
                   ("autism_prediction_data",
                    Js.Obj [("annotated_image_path", Js.Str "/static/autism.png")])])
          Plain.initial)).
Proof.
  apply autism_elements_only_for_child. reflexivity.
Defined.

Lemma render_image_cases (v : Js.value) (alt : string) :
  (exists p, v = Js.Str p /\ p <> "" /\
             Plain.render_image v alt
             = Js.Ok [View.Image (if prefix "http" p then p else Plain.origin ++ p) alt]) \/
  ((forall p, v = Js.Str p -> p = "") /\
   ((exists e, Plain.render_image v alt = Js.Throw e) \/
    (exists out, Plain.render_image v alt = Js.Ok out /\
                 forall src a, ~ In (View.Image src a) out))).
Proof.
  unfold Plain.render_image, Plain.resolveUrl, View.and_then.
  destruct v as [| |b|q|p|items|props]; cbn.
  - right. split; [discriminate|]. right. eexists. split; [reflexivity|]. intros ? ? [].
  - right. split; [discriminate|]. right. eexists. split; [reflexivity|]. intros ? ? [].
  - right. split; [discriminate|]. destruct b; cbn.
    + left. eexists. reflexivity.
    + right. eexists. split; [reflexivity|]. intros ? ? [].
  - right. split; [discriminate|]. destruct (Qeq_bool q 0); cbn.
    + right. eexists. split; [reflexivity|]. cbn. intros ? ? [H|[]]. discriminate.
    + left. eexists. reflexivity.
  - destruct (String.eqb_spec p "") as [->|Hp]; cbn.
    + right. split; [now intros p [= <-]|]. right. eexists. split; [reflexivity|].
      intros ? ? [].
    + left. exists p. auto.
  - right. split; [discriminate|]. left. eexists. reflexivity.
  - right. split; [discriminate|]. left. eexists. reflexivity.
Qed.

(** X18: on the plain screen the age image of an adult response comes
    from the top-level field only.  For a result whose status is
    'adult_invalid', an image element is returned exactly when the
    top-level [annotated_image_url] is a non-empty string; the address
    inside [age_check_summary] is not looked at. *)
Theorem plain_adult_image_from_top_level (s : Plain.State) :
  Plain.isLoading s = false ->
  Js.is_string (Js.get_opt (Plain.result s) "status") "adult_invalid" = true ->
  ((exists src alt, In (View.Image src alt) (Plain.renderResults s)) <->
   exists p, Js.get_opt (Plain.result s) "annotated_image_url" = Js.Str p /\ p <> "") /\
  (forall p, Js.get_opt (Plain.result s) "annotated_image_url" = Js.Str p -> p <> "" ->
             Plain.renderResults s
             = [View.Image (if prefix "http" p then p else Plain.origin ++ p)
                           "Age analysis result";
                View.Notice "adult-invalid" "You are an adult. Invalid.";
                View.AgeSummary (Js.get_opt (Plain.result s) "age_check_summary")]).
Proof.
  intros Hload Hst.
  assert (Htr : Js.truthy (Plain.result s) = true).
  { destruct (Plain.result s); try discriminate; reflexivity. }
  pose proof (truthy_not_nullish _ Htr) as Hn.
  assert (Hchild : Js.is_string (Js.get_opt (Plain.result s) "status")
                                "child_autism_screened" = false).
  { unfold Js.is_string in *. destruct (Js.get_opt (Plain.result s) "status"); try discriminate.
    apply String.eqb_eq in Hst. subst. reflexivity. }
  assert (Hrender : Plain.renderResults s
                    = match Plain.render_image
                              (Js.get_opt (Plain.result s) "annotated_image_url")
                              "Age analysis result" with
                      | Js.Ok image =>
                          (image ++
                           [View.Notice "adult-invalid" "You are an adult. Invalid.";
                            View.AgeSummary (Js.get_opt (Plain.result s) "age_check_summary")])%list
                      | Js.Throw _ =>
                          [View.Notice "" "Error displaying results. Please try again."]
                      end).
  { unfold Plain.renderResults, Plain.renderResults_try. rewrite Hload, Htr. cbn [negb].
    rewrite !(get_of_non_nullish (Plain.result s)) by exact Hn.
    cbn [Js.bind]. rewrite Hchild, Hst.
    destruct (Plain.render_image _ _); reflexivity. }
  rewrite Hrender. clear Hrender.
  destruct (render_image_cases (Js.get_opt (Plain.result s) "annotated_image_url")
                               "Age analysis result")
    as [[p [Hv [Hp ->]]] | [Hnone [[e ->] | [out [-> Hout]]]]].
  - split; [split|].
    + intros _. exists p. auto.
    + intros _. eexists. eexists. left. reflexivity.
    + intros p' Hv' _. rewrite Hv in Hv'. injection Hv' as <-. reflexivity.
  - split; [split|].
    + intros [src [alt [H|[]]]]. discriminate.
    + intros [p [Hv Hp]]. elim Hp. exact (Hnone p Hv).
    + intros p Hv Hp. elim Hp. exact (Hnone p Hv).
  - split; [split|].
    + intros [src [alt H]]. apply in_app_or in H as [H|[H|[H|[]]]];
        [elim (Hout src alt H) | discriminate | discriminate].
    + intros [p [Hv Hp]]. elim Hp. exact (Hnone p Hv).
    + intros p Hv Hp. elim Hp. exact (Hnone p Hv).
Qed.

Lemma plain_adult_image_from_top_level_witness :
  Plain.renderResults (Plain.setResult Cases.adult_top_level_image Plain.initial)
  = [View.Image "https://age-api-zzc8.onrender.com/static/age.png" "Age analysis result";
     View.Notice "adult-invalid" "You are an adult. Invalid.";
     View.AgeSummary (Js.Obj [("adults_count", Js.Num 2); ("kids_count", Js.Num 0)])].
Proof.
  refine (proj2 (plain_adult_image_from_top_level
                   (Plain.setResult Cases.adult_top_level_image Plain.initial)
                   eq_refl eq_refl)
                "/static/age.png" eq_refl _).
  discriminate.
Defined.

(** The same response with the address inside the summary only: the plain
    screen shows no image, the Material-UI screen stores one. *)
Example adult_image_nested_only :
  Plain.renderResults (Plain.setResult Cases.adult_nested_image Plain.initial)
  = [View.Notice "adult-invalid" "You are an adult. Invalid.";
     View.AgeSummary (Js.Obj [("annotated_image_url", Js.Str "/static/age.png");
                              ("adults_count", Js.Num 2); ("kids_count", Js.Num 0)])] /\
  Mui.ageAnnotatedImageUrl
    (Mui.handleAnalyze_resume Sample.config (Js.Ok Cases.adult_nested_image) Mui.initial)
  = Some "https://age-api-zzc8.onrender.com/static/age.png" /\
  Mui.ageAnnotatedImageUrl
    (Mui.handleAnalyze_resume Sample.config (Js.Ok Cases.adult_top_level_image) Mui.initial)
  = None.
Proof. repeat split. Qed.

(** ** What [handleAnalyze] stores, by the shape of the response *)

Lemma kept_bind_returned {A B} (P : Mui.State -> Prop) (v : A) (k : A -> Mui.action B) :
  Triple.keeps P (k v) -> Triple.keeps P (Mui.abind (Mui.lift (Js.Ok v)) k).
Proof. intros Hk s Hs. exact (Hk s Hs). Qed.

Lemma kept_bind_thrown {A B} (P : Mui.State -> Prop) (e : Js.error) (k : A -> Mui.action B) :
  Triple.keeps P (Mui.abind (Mui.lift (Js.Throw e)) k).
Proof. intros s Hs. exact Hs. Qed.

Lemma and_get_value (a : Js.value) (k : string) :
  Mui.and_get a k = Js.Ok (if Js.truthy a then Js.get_opt a k else a).
Proof.
  unfold Mui.and_get. destruct (Js.truthy a) eqn:E; [|reflexivity].
  apply get_of_non_nullish, truthy_not_nullish, E.
Qed.

Lemma resolveUrl_of_non_string (base : string) (v : Js.value) :
  Js.truthy v = true -> (forall p, v = Js.Str p -> p = "") ->
  exists e, Mui.resolveUrl base v = Js.Throw e.
Proof.
  intros Ht Hv. destruct v as [| |b|q|p|items|props]; try discriminate;
    try (eexists; reflexivity).
  rewrite (Hv p eq_refl) in Ht. discriminate.
Qed.

Lemma body_of_nullish_keeps (P : Mui.State -> Prop) (config : Config) (res : Js.value) :
  Js.nullish res = true -> Triple.keeps P (Mui.handleAnalyze_body config res).
Proof.
  intros Hn s Hs. destruct res; try discriminate; exact Hs.
Qed.

Ltac kept_steps_returned solve_setter :=
  repeat first
    [ apply kept_lift
    | apply kept_pure
    | apply kept_set_twice; solve_setter
    | apply kept_set; solve_setter
    | match goal with
      | |- Triple.keeps _ (Mui.abind (Mui.lift (Js.Ok _)) _) =>
          apply kept_bind_returned; cbv beta
      | |- Triple.keeps _ (Mui.abind _ _) => apply kept_bind; [|intro]
      | |- Triple.keeps _ (if ?c then _ else _) => destruct c
      end ].

Ltac other_slot :=
  intros ? [? ?]; split; cbn; solve [assumption | reflexivity].

(** Unless the response is for a child and carries a non-empty string as
    the path of the autism image, the body never fills the autism slots. *)
Lemma body_keeps_autism_cleared (config : Config) (res : Js.value) :
  Js.is_string (Js.get_opt res "status") "adult_invalid" = true \/
  (forall p, Js.get_opt (Js.get_opt res "autism_prediction_data") "annotated_image_path"
             = Js.Str p -> p = "") ->
  Triple.keeps Mui.autism_cleared (Mui.handleAnalyze_body config res).
Proof.
  intro H. destruct (Js.nullish res) eqn:Hn; [now apply body_of_nullish_keeps|].
  unfold Mui.handleAnalyze_body.
  rewrite !(get_of_non_nullish res) by exact Hn.
  apply kept_bind_returned; cbv beta.
  apply kept_bind; [apply kept_set; other_slot | intros _].
  apply kept_bind_returned; cbv beta.
  apply kept_bind; [apply kept_lift | intro age_path].
  apply kept_bind; [kept_steps_returned other_slot | intros _].
  apply kept_bind_returned; cbv beta.
  rewrite and_get_value. apply kept_bind_returned; cbv beta.
  apply kept_bind; [|intros _; kept_steps_returned other_slot].
  destruct (Js.truthy (if Js.truthy _ then _ else _)) eqn:Hpath;
    [|kept_steps_returned other_slot].
  apply kept_bind_returned; cbv beta.
  destruct (Js.is_string (Js.get_opt res "status") "adult_invalid") eqn:Hadult;
    [kept_steps_returned other_slot|].
  destruct H as [H|H]; [discriminate|].
  destruct (Js.truthy (Js.get_opt res "autism_prediction_data")) eqn:Hdata; [|congruence].
  destruct (resolveUrl_of_non_string (API_BASE_URL config) _ Hpath H) as [e ->].
  apply kept_bind_thrown.
Qed.

(** Unless the response carries a non-empty string as the address of the
    age image inside [age_check_summary], the body never fills the age
    slots. *)
Lemma body_keeps_age_cleared (config : Config) (res : Js.value) :
  (forall p, Js.get_opt (Js.get_opt res "age_check_summary") "annotated_image_url"
             = Js.Str p -> p = "") ->
  Triple.keeps (fun s => Mui.ageAnnotatedImageUrl s = None /\ Mui.ageAnalysis s = Js.Obj [])
               (Mui.handleAnalyze_body config res).
Proof.
  intro H. destruct (Js.nullish res) eqn:Hn; [now apply body_of_nullish_keeps|].
  unfold Mui.handleAnalyze_body.
  rewrite !(get_of_non_nullish res) by exact Hn.
  apply kept_bind_returned; cbv beta.
  apply kept_bind; [apply kept_set; other_slot | intros _].
  apply kept_bind_returned; cbv beta.
  rewrite and_get_value. apply kept_bind_returned; cbv beta.
  apply kept_bind; [|intros _; kept_steps_returned other_slot].
  destruct (Js.truthy (if Js.truthy _ then _ else _)) eqn:Hpath; [|apply kept_pure].
  destruct (Js.truthy (Js.get_opt res "age_check_summary")) eqn:Hdata; [|congruence].
  destruct (resolveUrl_of_non_string (API_BASE_URL config) _ Hpath H) as [e ->].
  apply kept_bind_thrown.
Qed.

(** X19: when the Material-UI screen stores autism data.  Starting from
    empty autism slots (as they are whenever a submission is in flight),
    the completion of a submission leaves them empty if the status is
    'adult_invalid', and also if [autism_prediction_data.annotated_image_path]
    is not a non-empty string -- region results without an image path, or
    with a path that is not a string, are not stored. *)
Theorem autism_data_needs_child_and_path
        (config : Config) (res : Js.value) (s : Mui.State) :
  Mui.autism_cleared s ->
  Js.is_string (Js.get_opt res "status") "adult_invalid" = true \/
  (forall p, Js.get_opt (Js.get_opt res "autism_prediction_data") "annotated_image_path"
             = Js.Str p -> p = "") ->
  Mui.autismAnnotatedImageUrl (Mui.handleAnalyze_resume config (Js.Ok res) s) = None /\
  Mui.autismAnalysis (Mui.handleAnalyze_resume config (Js.Ok res) s) = Js.Obj [].
Proof.
  intros Hs H.
  apply (@resume_keeps Mui.autism_cleared).
  - intros res' [= <-]. apply body_keeps_autism_cleared, H.
  - intros e s0 Hs0. exact Hs0.
  - intros s0 Hs0. exact Hs0.
  - exact Hs.
Qed.

Lemma autism_data_needs_child_and_path_witness :
  Mui.autismAnalysis
    (Mui.handleAnalyze_resume Sample.config (Js.Ok Sample.child_screened) Mui.initial)
  = Js.Obj [].
Proof.
  refine (proj2 (autism_data_needs_child_and_path Sample.config Sample.child_screened
                   Mui.initial (conj eq_refl eq_refl) (or_intror _))).
  intros p H. discriminate H.
Defined.

(** X20: on the Material-UI screen the age image comes from inside
    [age_check_summary] only.  Starting from empty age slots, the
    completion of a submission leaves the age image and the age analysis
    empty unless [age_check_summary.annotated_image_url] is a non-empty
    string; a top-level [annotated_image_url] is not looked at, and face
    counts that come without an image address are not stored. *)
Theorem age_data_needs_nested_image
        (config : Config) (res : Js.value) (s : Mui.State) :
  Mui.ageAnnotatedImageUrl s = None ->
  Mui.ageAnalysis s = Js.Obj [] ->
  (forall p, Js.get_opt (Js.get_opt res "age_check_summary") "annotated_image_url"
             = Js.Str p -> p = "") ->
  Mui.ageAnnotatedImageUrl (Mui.handleAnalyze_resume config (Js.Ok res) s) = None /\
  Mui.ageAnalysis (Mui.handleAnalyze_resume config (Js.Ok res) s) = Js.Obj [].
Proof.
  intros Hurl Hdata H.
  apply (@resume_keeps
           (fun s => Mui.ageAnnotatedImageUrl s = None /\ Mui.ageAnalysis s = Js.Obj [])).
  - intros res' [= <-]. apply body_keeps_age_cleared, H.
  - intros e s0 Hs0. exact Hs0.
  - intros s0 Hs0. exact Hs0.
  - split; assumption.
Qed.

Lemma age_data_needs_nested_image_witness :
  Mui.ageAnalysis
    (Mui.handleAnalyze_resume Sample.config (Js.Ok Cases.adult_top_level_image) Mui.initial)
  = Js.Obj [].
Proof.
  refine (proj2 (age_data_needs_nested_image Sample.config Cases.adult_top_level_image
                   Mui.initial eq_refl eq_refl _)).
  intros p H. discriminate H.
Defined.

(** X21: when the Material-UI screen does store autism data.  If the
    response is not for an adult (any other status, or none), its
    [autism_prediction_data.annotated_image_path] is a non-empty string and
    the age image address, if present, is a string, then completing the
    submission stores the resolved autism image address and the whole
    [autism_prediction_data], clears the busy flag, leaves the error as it
    was and announces success. *)
Theorem non_adult_response_is_stored
        (config : Config) (res : Js.value) (s : Mui.State) (p : string) :
  Js.nullish res = false ->
  (Js.truthy (Js.get_opt (Js.get_opt res "age_check_summary") "annotated_image_url") = true ->
   exists q, Js.get_opt (Js.get_opt res "age_check_summary") "annotated_image_url" = Js.Str q) ->
  Js.get_opt (Js.get_opt res "autism_prediction_data") "annotated_image_path" = Js.Str p ->
  p <> "" ->
  Js.is_string (Js.get_opt res "status") "adult_invalid" = false ->
  let s' := Mui.handleAnalyze_resume config (Js.Ok res) s in
  Mui.autismAnnotatedImageUrl s'
  = Some (if prefix "http" p then p else API_BASE_URL config ++ p) /\
  Mui.autismAnalysis s' = Js.get_opt res "autism_prediction_data" /\
  Mui.error s' = Mui.error s /\
  Mui.isProcessing s' = false /\
  Mui.Snackbar.severity (Mui.snackbar s') = "success".
Proof.
  intros Hn Hage Hpath Hp Hadult s'. subst s'.
  assert (Hdata : Js.truthy (Js.get_opt res "autism_prediction_data") = true).
  { destruct (Js.get_opt res "autism_prediction_data"); try discriminate; try reflexivity. }
  assert (Hptruthy : Js.truthy (Js.Str p) = true).
  { cbn. destruct (String.eqb_spec p ""); [contradiction|reflexivity]. }
  unfold Mui.handleAnalyze_resume, Mui.try_catch_finally.
  change (Mui.abind (Mui.lift (Js.Ok res)) (fun res0 => Mui.handleAnalyze_body config res0) s)
    with (Mui.handleAnalyze_body config res s).
  unfold Mui.handleAnalyze_body.
  rewrite !(get_of_non_nullish res) by exact Hn.
  unfold Mui.abind, Mui.lift, Mui.set, Mui.pure. cbv beta iota.
  rewrite !and_get_value. rewrite Hdata, Hpath, Hptruthy, Hadult.
  unfold Js.or_else. rewrite Hdata.
  destruct (Js.truthy (Js.get_opt res "age_check_summary")) eqn:Hsum.
  - destruct (Js.truthy (Js.get_opt (Js.get_opt res "age_check_summary")
                                    "annotated_image_url")) eqn:Hurl.
    + destruct (Hage eq_refl) as [q Hq]. rewrite Hq. cbn. repeat split.
    + cbn. repeat split.
  - rewrite Hsum. cbn. repeat split.
Qed.

Lemma non_adult_response_is_stored_witness :
  Mui.autismAnnotatedImageUrl
    (Mui.handleAnalyze_resume Sample.config (Js.Ok Cases.child_with_image) Mui.initial)
  = Some "https://age-api-zzc8.onrender.com/static/autism.png".
Proof.
  refine (proj1 (non_adult_response_is_stored Sample.config Cases.child_with_image
                   Mui.initial "/static/autism.png" eq_refl _ eq_refl _ eq_refl)).
  - discriminate.
  - discriminate.
Defined.

(** ** The regional analysis of the Material-UI screen *)








Section AutismCard.
Variable host : Js.Host.




End AutismCard.


(** ** The style of the verdict on the plain screen *)

Lemma substring_of_suffix (a b s : string) (n : nat) :
  substring n (String.length a + String.length b) s = (a ++ b)%string ->
  substring (n + String.length a) (String.length b) s = b.
Proof.
  revert s a. induction n as [|n IHn]; intros s a.
  - revert s. induction a as [|x a IHa]; intros s H; [exact H|].
    destruct s as [|c s]; [discriminate|].
    cbn in H. injection H as _ H. cbn. exact (IHa s H).
  - destruct s as [|c s]; intro H.
    + cbn in H. destruct a as [|x a]; [|discriminate].
      destruct b as [|y b]; [reflexivity|discriminate].
    + cbn in H. cbn. exact (IHn s a H).
Qed.

Lemma includes_suffix (a b s : string) :
  b <> "" -> Js.includes s (a ++ b) = true -> Js.includes s b = true.
Proof.
  intros Hb. unfold Js.includes.
  destruct (index 0 (a ++ b) s) as [m|] eqn:Hab; [intros _|discriminate].
  apply index_correct1 in Hab.
  assert (Hlen : String.length (a ++ b) = (String.length a + String.length b)%nat).
  { clear. induction a; cbn; [reflexivity|now rewrite IHa]. }
  rewrite Hlen in Hab. apply substring_of_suffix in Hab.
  destruct (index 0 b s) eqn:Hi; [reflexivity|].
  exfalso. exact (index_correct3 0 (m + String.length a) b s Hi Hb (Nat.le_0_l _) Hab).
Qed.

(** X23: the style of the verdict.  For the first entry with a truthy
    [final_decision], when that is a string, [renderResults] shows it with
    the class 'autistic' if its lower-case form contains 'autistic' and
    with 'non-autistic' otherwise.  As 'non-autistic' contains 'autistic',
    every verdict that mentions 'non-autistic' (in any case) is given the
    class 'autistic'. *)
Theorem verdict_class (items : list Js.value) (found : Js.value) (d : string) :
  Js.find_by "final_decision" items = Js.Ok found ->
  Js.get_opt found "final_decision" = Js.Str d ->
  d <> "" ->
  Plain.render_final_decision (Js.Arr items)
  = Js.Ok [View.FinalDecision
             (if Js.includes (Js.toLowerCase d) "autistic"
              then "final-decision autistic" else "final-decision non-autistic")
             (Js.Str d)] /\
  (Js.includes (Js.toLowerCase d) "non-autistic" = true ->
   Plain.render_final_decision (Js.Arr items)
   = Js.Ok [View.FinalDecision "final-decision autistic" (Js.Str d)]).
Proof.
  intros Hfind Hd Hne.
  assert (Hfound : Js.truthy found = true /\ Js.get found "final_decision" = Js.Ok (Js.Str d)).
  { destruct found; try discriminate. split; [reflexivity|]. cbn in *. now rewrite Hd. }
  destruct Hfound as [Htr Hget].
  assert (Hrender : Plain.render_final_decision (Js.Arr items)
                    = Js.Ok [View.FinalDecision
                               (if Js.includes (Js.toLowerCase d) "autistic"
                                then "final-decision autistic"
                                else "final-decision non-autistic")
                               (Js.Str d)]).
  { unfold Plain.render_final_decision. cbn [Js.truthy Js.array_receiver Js.bind].
    rewrite Hfind. cbn [Js.bind]. rewrite Htr, Hget. cbn [Js.bind Js.string_receiver].
    destruct (Js.includes (Js.toLowerCase d) "autistic"); reflexivity. }
  split; [exact Hrender|].
  intro Hnon. rewrite Hrender.
  rewrite (includes_suffix "non-" "autistic" (Js.toLowerCase d)); [reflexivity|discriminate|exact Hnon].
Qed.

Lemma verdict_class_witness :
  Plain.render_final_decision
    (Js.Arr [Js.Obj [("region", Js.Str "eyes")];
             Js.Obj [("final_decision", Js.Str "Non-Autistic")]])
  = Js.Ok [View.FinalDecision "final-decision autistic" (Js.Str "Non-Autistic")].
Proof.
  refine (proj2 (verdict_class
                   [Js.Obj [("region", Js.Str "eyes")];
                    Js.Obj [("final_decision", Js.Str "Non-Autistic")]]
                   (Js.Obj [("final_decision", Js.Str "Non-Autistic")])
                   "Non-Autistic" eq_refl eq_refl _) eq_refl).
  discriminate.
Defined.

(** ** What a failed submission leaves on display *)

Section FailedSubmission.
Variable host : Js.Host.
Variable config : Config.
Variable formatFileSize : Z -> string.

Lemma mui_step_blank_in_flight (w : Mui.World) (e : Mui.event) :
  (Mui.inflight w <> None -> Display.mui_blank (Mui.ui w)) ->
  Mui.inflight (Mui.step host config formatFileSize w e) <> None ->
  Display.mui_blank (Mui.ui (Mui.step host config formatFileSize w e)).
Proof.
  intros Hw. destruct e; unfold Mui.step.
  - destruct file as [f|]; cbn; [intros _; repeat split | exact Hw].
  - cbn. intros _. repeat split.
  - destruct (Mui.isProcessing (Mui.ui w)); [exact Hw|].
    unfold Mui.handleAnalyze_begin.
    destruct (Mui.selectedImage (Mui.ui w)) as [f|]; [|exact Hw].
    destruct (Api.analyzeImage host config (Some f) net) as [tr r]. cbn.
    intros _. repeat split.
  - destruct (Mui.inflight w) as [[r|]|] eqn:E; cbn.
    + congruence.
    + rewrite E. exact Hw.
    + rewrite E. exact Hw.
  - destruct (Mui.isProcessing (Mui.ui w)); [exact Hw|].
    cbn. intros _. repeat split.
  - cbn. intro H. destruct (Hw H) as [? [? [? [? [? ?]]]]]. repeat split; assumption.
  - cbn. intro H. destruct (Hw H) as [? [? [? [? [? ?]]]]]. repeat split; assumption.
Qed.

Lemma mui_run_blank_in_flight (events : list Mui.event) (w : Mui.World) :
  (Mui.inflight w <> None -> Display.mui_blank (Mui.ui w)) ->
  Mui.inflight (fold_left (Mui.step host config formatFileSize) events w) <> None ->
  Display.mui_blank (Mui.ui (fold_left (Mui.step host config formatFileSize) events w)).
Proof.
  revert w. induction events as [|e events IH]; intros w Hw; cbn [fold_left].
  - exact Hw.
  - apply IH. apply mui_step_blank_in_flight, Hw.
Qed.

Lemma plain_step_no_result_in_flight (w : Plain.World) (e : Plain.event) :
  (Plain.inflight w <> None -> Plain.result (Plain.ui w) = Js.Null) ->
  Plain.inflight (Plain.step w e) <> None ->
  Plain.result (Plain.ui (Plain.step w e)) = Js.Null.
Proof.
  intros Hw. destruct e; unfold Plain.step.
  - unfold Plain.handleFileInputChange, Plain.handleFileSelect.
    destruct (plain_validate_cases file (Plain.setResult Js.Null (Plain.setError None (Plain.ui w))))
      as [[f [-> [-> _]]] | [msg ->]]; cbn; reflexivity.
  - exact Hw.
  - exact Hw.
  - unfold Plain.handleDrop, Plain.handleFileSelect.
    destruct files as [|f files]; [exact Hw|].
    destruct (plain_validate_cases (Some f)
                (Plain.setResult Js.Null
                   (Plain.setError None (Plain.setIsDragOver false (Plain.ui w)))))
      as [[f' [_ [-> _]]] | [msg ->]]; cbn; reflexivity.
  - destruct (Plain.isLoading (Plain.ui w)); [exact Hw|].
    destruct (Plain.selectedFile (Plain.ui w)) eqn:E; [|exact Hw].
    cbn. unfold Plain.handleAnalyze_begin. rewrite E. reflexivity.
  - destruct (Plain.inflight w) as [[r|]|] eqn:E; cbn.
    + congruence.
    + rewrite E. exact Hw.
    + rewrite E. exact Hw.
  - destruct (Plain.isLoading (Plain.ui w)); [exact Hw|]. reflexivity.
  - exact Hw.
Qed.

Lemma plain_run_no_result_in_flight (events : list Plain.event) (w : Plain.World) :
  (Plain.inflight w <> None -> Plain.result (Plain.ui w) = Js.Null) ->
  Plain.inflight (fold_left Plain.step events w) <> None ->
  Plain.result (Plain.ui (fold_left Plain.step events w)) = Js.Null.
Proof.
  revert w. induction events as [|e events IH]; intros w Hw; cbn [fold_left].
  - exact Hw.
  - apply IH. apply plain_step_no_result_in_flight, Hw.
Qed.

(** X24: a failed submission leaves nothing of any response on display.
    On the Material-UI screen, whenever the submission in flight fails,
    all analysis slots and the backend message are empty afterwards, the
    error is the message that [analyzeImage] threw and the busy flag is
    cleared; on the plain screen the result is empty.  This holds after any
    sequence of events, new selections while the request was running
    included. *)
Theorem failed_submission_shows_no_analysis :
  (forall events e,
      let w := Mui.run host config formatFileSize events in
      Mui.inflight w = Some (Some (Js.Throw e)) ->
      let s' := Mui.ui (Mui.step host config formatFileSize w Mui.Settle) in
      Mui.ageAnnotatedImageUrl s' = None /\
      Mui.autismAnnotatedImageUrl s' = None /\
      Mui.ageAnalysis s' = Js.Obj [] /\
      Mui.autismAnalysis s' = Js.Obj [] /\
      Mui.backendMessage s' = Js.Str "" /\
      Mui.error s' = Some (Js.message e) /\
      Mui.isProcessing s' = false) /\
  (forall events e,
      let w := Plain.run events in
      Plain.inflight w = Some (Some (Js.Throw e)) ->
      Plain.result (Plain.ui (Plain.step w Plain.Settle)) = Js.Null).
Proof.
  split; intros events e w Hin.
  - assert (Hblank : Display.mui_blank (Mui.ui w)).
    { apply (mui_run_blank_in_flight events Mui.start).
      - intros _. repeat split.
      - fold (Mui.run host config formatFileSize events). fold w. congruence. }
    destruct Hblank as [H1 [H2 [H3 [H4 [H5 H6]]]]].
    cbv zeta. unfold Mui.step. rewrite Hin. cbn. auto 10.
  - assert (Hnull : Plain.result (Plain.ui w) = Js.Null).
    { apply (plain_run_no_result_in_flight events Plain.start).
      - reflexivity.
      - fold (Plain.run events). fold w. congruence. }
    unfold Plain.step. rewrite Hin. cbn.
    unfold Plain.handleAnalyze_catch.
    destruct (Js.includes _ _); [exact Hnull|].
    destruct (Js.includes _ _); exact Hnull.
Qed.

End FailedSubmission.

Lemma failed_submission_shows_no_analysis_witness :
  Mui.error
    (Mui.ui (Mui.step Sample.host Sample.config Sample.formatFileSize
               (Mui.run Sample.host Sample.config Sample.formatFileSize
                  [Mui.ImageSelect (Some Sample.photo);
                   Mui.AnalyzeClick (Sample.answers Sample.child_screened);
                   Mui.Settle;
                   Mui.AnalyzeClick Sample.unreachable;
                   Mui.ImageSelect (Some Sample.portrait)])
               Mui.Settle))
  = Some "Network error. Please check your connection.".
Proof.
  pose proof (failed_submission_shows_no_analysis
                Sample.host Sample.config Sample.formatFileSize) as [Hmui _].
  refine (proj1 (proj2 (proj2 (proj2 (proj2 (proj2
            (Hmui [Mui.ImageSelect (Some Sample.photo);
                   Mui.AnalyzeClick (Sample.answers Sample.child_screened);
                   Mui.Settle;
                   Mui.AnalyzeClick Sample.unreachable;
                   Mui.ImageSelect (Some Sample.portrait)]
                  (Js.Error "Network error. Please check your connection.") _))))))).
  vm_compute. reflexivity.
Defined.

(** ** The image addresses the handlers use *)

Section ImageAddresses.
Variable config : Config.

(** C5: the address of every annotated image is resolved from its path
    field [p]: [p] itself when it starts with 'http', the base origin
    followed by [p] otherwise.  [handleAnalyze] of the Material-UI screen
    stores that address for [age_check_summary.annotated_image_url],
    whatever else the response holds, and for
    [autism_prediction_data.annotated_image_path] of a response that is not
    for an adult; its base is the configured one.  [renderResults] of the
    plain screen puts that address into the image element of a child
    response (from [autism_prediction_data.annotated_image_path]) and of an
    adult response (from [annotated_image_url]); its base is the origin
    written out in the source. *)
Theorem annotated_images_use_resolved_address (p : string) :
  p <> "" ->
  (forall res s,
      Js.nullish res = false ->
      Js.get_opt (Js.get_opt res "age_check_summary") "annotated_image_url" = Js.Str p ->
      Mui.ageAnnotatedImageUrl (Mui.handleAnalyze_resume config (Js.Ok res) s)
      = Some (if prefix "http" p then p else API_BASE_URL config ++ p)) /\
  (forall res s,
      Js.nullish res = false ->
      (Js.truthy (Js.get_opt (Js.get_opt res "age_check_summary") "annotated_image_url")
       = true ->
       exists q, Js.get_opt (Js.get_opt res "age_check_summary") "annotated_image_url"
                 = Js.Str q) ->
      Js.get_opt (Js.get_opt res "autism_prediction_data") "annotated_image_path" = Js.Str p ->
      Js.is_string (Js.get_opt res "status") "adult_invalid" = false ->
      Mui.autismAnnotatedImageUrl (Mui.handleAnalyze_resume config (Js.Ok res) s)
      = Some (if prefix "http" p then p else API_BASE_URL config ++ p)) /\
  (forall s,
      Plain.isLoading s = false ->
      Js.is_string (Js.get_opt (Plain.result s) "status") "child_autism_screened" = true ->
      Js.get_opt (Js.get_opt (Plain.result s) "autism_prediction_data")
                 "annotated_image_path" = Js.Str p ->
      let results :=
        Js.get_opt (Js.get_opt (Plain.result s) "autism_prediction_data") "results" in
      Plain.renderResults s
      = match Plain.render_final_decision results with
        | Js.Ok verdict =>
            View.Image (if prefix "http" p then p else Plain.origin ++ p)
                       "Analysis result"
            :: (View.and_then results [View.PredictionTable results] ++ verdict ++
                [View.AgeSummary (Js.get_opt (Plain.result s) "age_check_summary")])%list
        | Js.Throw _ => [View.Notice "" "Error displaying results. Please try again."]
        end) /\
  (forall s,
      Plain.isLoading s = false ->
      Js.is_string (Js.get_opt (Plain.result s) "status") "adult_invalid" = true ->
      Js.get_opt (Plain.result s) "annotated_image_url" = Js.Str p ->
      Plain.renderResults s
      = [View.Image (if prefix "http" p then p else Plain.origin ++ p)
                    "Age analysis result";
         View.Notice "adult-invalid" "You are an adult. Invalid.";
         View.AgeSummary (Js.get_opt (Plain.result s) "age_check_summary")]).
Proof.
  intro Hp.
  assert (Hptruthy : Js.truthy (Js.Str p) = true).
  { cbn. destruct (String.eqb_spec p ""); [contradiction|reflexivity]. }
  repeat apply conj.
  - intros res s Hn Hpath.
    assert (Hsum : Js.truthy (Js.get_opt res "age_check_summary") = true).
    { destruct (Js.get_opt res "age_check_summary"); try discriminate; reflexivity. }
    unfold Mui.handleAnalyze_resume, Mui.try_catch_finally.
    change (Mui.abind (Mui.lift (Js.Ok res)) (fun res0 => Mui.handleAnalyze_body config res0) s)
      with (Mui.handleAnalyze_body config res s).
    unfold Mui.handleAnalyze_body.
    rewrite !(get_of_non_nullish res) by exact Hn.
    unfold Mui.abind, Mui.lift, Mui.set, Mui.pure. cbv beta iota.
    rewrite !and_get_value. rewrite Hsum, Hpath, Hptruthy.
    cbn [Mui.resolveUrl Js.string_receiver Js.bind].
    repeat first
      [ progress cbv beta iota
      | match goal with
        | |- context [if Js.truthy ?v then _ else _] => destruct (Js.truthy v)
        | |- context [if Js.is_string ?v ?lit then _ else _] => destruct (Js.is_string v lit)
        | |- context [match Mui.resolveUrl ?b ?v with Js.Ok _ => _ | Js.Throw _ => _ end] =>
            destruct (Mui.resolveUrl b v)
        end ];
      reflexivity.
  - intros res s Hn Hage Hpath Hadult.
    assert (Hdata : Js.truthy (Js.get_opt res "autism_prediction_data") = true).
    { destruct (Js.get_opt res "autism_prediction_data"); try discriminate; reflexivity. }
    unfold Mui.handleAnalyze_resume, Mui.try_catch_finally.
    change (Mui.abind (Mui.lift (Js.Ok res)) (fun res0 => Mui.handleAnalyze_body config res0) s)
      with (Mui.handleAnalyze_body config res s).
    unfold Mui.handleAnalyze_body.
    rewrite !(get_of_non_nullish res) by exact Hn.
    unfold Mui.abind, Mui.lift, Mui.set, Mui.pure. cbv beta iota.
    rewrite !and_get_value. rewrite Hdata, Hpath, Hptruthy, Hadult.
    destruct (Js.truthy (Js.get_opt res "age_check_summary")) eqn:Hsum.
    + destruct (Js.truthy (Js.get_opt (Js.get_opt res "age_check_summary")
                                      "annotated_image_url")) eqn:Hurl.
      * destruct (Hage eq_refl) as [q Hq]. rewrite Hq. reflexivity.
      * reflexivity.
    + rewrite Hsum. reflexivity.
  - intros s Hload Hst Hpath results. subst results.
    unfold Plain.renderResults. rewrite Hload.
    destruct (Plain.result s) as [| |b|q|t|items|props]; try discriminate.
    cbn [Js.truthy negb]. unfold Plain.renderResults_try.
    cbn [Js.get Js.get_opt Js.bind] in *. rewrite Hst, Hpath.
    unfold Plain.render_image. rewrite Hptruthy.
    cbn [Plain.resolveUrl Js.string_receiver Js.bind].
    destruct (Plain.render_final_decision _); reflexivity.
  - intros s Hload Hst Hpath.
    unfold Plain.renderResults. rewrite Hload.
    destruct (Plain.result s) as [| |b|q|t|items|props]; try discriminate.
    cbn [Js.truthy negb]. unfold Plain.renderResults_try.
    cbn [Js.get Js.get_opt Js.bind] in *.
    assert (Hchild : Js.is_string (Js.lookup "status" props) "child_autism_screened" = false).
    { destruct (Js.lookup "status" props) as [| |b|q|t|items|props']; try reflexivity.
      cbn in Hst. apply String.eqb_eq in Hst. subst t. reflexivity. }
    rewrite Hchild, Hst, Hpath.
    unfold Plain.render_image. rewrite Hptruthy. reflexivity.
Qed.

End ImageAddresses.

(** The adult response answered in time: the stored age image address and
    the image element of the plain screen. *)
Lemma annotated_images_use_resolved_address_witness :
  Mui.ageAnnotatedImageUrl
    (Mui.handleAnalyze_resume Sample.config (Js.Ok Sample.adult_with_autism_data)
                              Mui.initial)
  = Some "https://age-api-zzc8.onrender.com/static/age.png" /\
  Plain.renderResults (Plain.setResult Sample.adult_with_autism_data Plain.initial)
  = [View.Image "https://age-api-zzc8.onrender.com/static/age.png" "Age analysis result";
     View.Notice "adult-invalid" "You are an adult. Invalid.";
     View.AgeSummary (Js.Obj [("annotated_image_url", Js.Str "/static/age.png");
                              ("kids_count", Js.Num 0); ("adults_count", Js.Num 2)])].
Proof.
  assert (Hp : "/static/age.png" <> "") by discriminate.
  pose proof (annotated_images_use_resolved_address Sample.config "/static/age.png" Hp)
    as [Hage [_ [_ Hadult]]].
  split.
  - exact (Hage Sample.adult_with_autism_data Mui.initial eq_refl eq_refl).
  - exact (Hadult (Plain.setResult Sample.adult_with_autism_data Plain.initial)
                  eq_refl eq_refl eq_refl).
Defined.
